(** * Raybun: payload store and content classifier

    A shallow embedding of [src/store.ts] (class [PayloadStore]) and of the
    classification helpers of [src/components/renderers/index.tsx]
    ([stringify], [detectLanguage], [truncate], [getPreviewText]), followed
    by the properties of the ingestion engine and of the classifier. The
    presentation layer and the entry points are embedded where they
    compute: the colours and labels of the types, the window of the list,
    the search and the keys of [App], the answers of the server and the
    port argument.

    Conventions of the embedding:
    - a JavaScript string is a [string]; its characters stand for code
      units in the range 0..255, but for the character 128, which stands
      for the code unit U+2500 of the separator preview instead of U+0080:
      like U+2500 it is no white space, no digit and no letter, has no
      other case and is escaped by no operation, so that lengths, slices,
      comparisons and searches are those of the code on every text made
      of U+2500 and of the units 0..255 other than U+0080;
    - a JavaScript number is carried by its canonical rendering
      ([String(n)]), which identifies exactly the numbers that
      [SameValueZero] identifies;
    - an exception is an explicit [Throw] outcome; the store reached when
      the exception is raised is kept, as the mutations already done are;
    - the system clock is an input: [new Date()] and [Date.now()] read the
      values handed to [addRequest];
    - the store carries one ghost field, the log of the identifiers it has
      handed out, which the properties refer to and no operation reads. *)

From Stdlib Require Import String Ascii List ZArith NArith Bool Lia.
From Stdlib Require Import Decimal DecimalString DecimalN DecimalZ.
From stdpp Require Import base list sorting.
Import ListNotations.

Local Open Scope string_scope.
Set Warnings "-register-all".

(** ** JavaScript values and the operations the program applies to them *)

Module JS.

(** Values that reach the program: what [JSON.parse] builds from a request
    body ([JNull], [JBool], [JNum], [JStr], [JArr], [JObj]), [undefined]
    for an absent property, and the built-in function objects found on the
    prototype of an array or a string. Arrays and objects carry the
    identity of their allocation ([addr]), which is what [===] and a
    [Set] compare. *)
Inductive value : Type :=
| JUndefined
| JNull
| JBool (b : bool)
| JNum (repr : string)
| JStr (s : string)
| JArr (addr : N) (elems : list value)
| JObj (addr : N) (props : list (string * value))
| JNative (name : string) (arity : nat).

Inductive error : Type := TypeError.

Inductive completion (A : Type) : Type :=
| Return (a : A)
| Throw (e : error).
Arguments Return {A} a.
Arguments Throw {A} e.

Definition bind {A B} (c : completion A) (k : A -> completion B) : completion B :=
  match c with
  | Return a => k a
  | Throw e => Throw e
  end.

(** Decimal rendering of the integers the program prints. *)
Definition N_to_string (n : N) : string := NilEmpty.string_of_uint (N.to_uint n).
Definition nat_to_string (n : nat) : string := N_to_string (N.of_nat n).
Definition Z_to_string (z : Z) : string := NilEmpty.string_of_int (Z.to_int z).

(** [n++] on a number holding an integer: exact up to 2^53, where adding
    one rounds back to 2^53. *)
Definition MAX_EXACT : N := 9007199254740992.
Definition incr (n : N) : N := if (n <? MAX_EXACT)%N then (n + 1)%N else n.

(** Own property of an object built by [JSON.parse]. *)
Fixpoint own_prop (k : string) (props : list (string * value)) : option value :=
  match props with
  | [] => None
  | (k', v) :: rest => if String.eqb k k' then Some v else own_prop k rest
  end.

(** [v.k], for the property names the program reads: color, label, size,
    name, values, content, class, message, sql, frames, value, total_time,
    formatted, url, path, frame, file_name, line_number, file, length.
    Reading a property of [null] or [undefined] throws; a primitive has
    none of them but [length] on a string; an array has [length] and
    inherits [values]; an object has its own properties only. *)
Definition get_prop (v : value) (k : string) : completion value :=
  match v with
  | JUndefined | JNull => Throw TypeError
  | JBool _ | JNum _ => Return JUndefined
  | JStr s =>
      if String.eqb k "length" then Return (JNum (nat_to_string (String.length s)))
      else Return JUndefined
  | JArr _ elems =>
      if String.eqb k "length" then Return (JNum (nat_to_string (length elems)))
      else if String.eqb k "values" then Return (JNative "values" 0)
      else Return JUndefined
  | JObj _ props =>
      match own_prop k props with
      | Some x => Return x
      | None => Return JUndefined
      end
  | JNative name arity =>
      if String.eqb k "length" then Return (JNum (nat_to_string arity))
      else if String.eqb k "name" then Return (JStr name)
      else Return JUndefined
  end.

(** ToBoolean. *)
Definition truthy (v : value) : bool :=
  match v with
  | JUndefined | JNull => false
  | JBool b => b
  | JNum r => negb (String.eqb r "0" || String.eqb r "NaN")
  | JStr s => negb (String.eqb s "")
  | JArr _ _ | JObj _ _ | JNative _ _ => true
  end.

(** [a === b]; it is also the comparison of a [Set], the rendering of a
    number identifying NaN with itself and the two zeros. *)
Definition strict_equal (a b : value) : bool :=
  match a, b with
  | JUndefined, JUndefined => true
  | JNull, JNull => true
  | JBool x, JBool y => Bool.eqb x y
  | JNum x, JNum y => String.eqb x y
  | JStr x, JStr y => String.eqb x y
  | JArr x _, JArr y _ => N.eqb x y
  | JObj x _, JObj y _ => N.eqb x y
  | JNative x _, JNative y _ => String.eqb x y
  | _, _ => false
  end.

End JS.

Import JS.

(** ** The payload store ([src/store.ts]) *)

Module Store.

(** One element of [request.payloads]: [{ type, content, origin }]. *)
Record RayPayload : Type := {
  rp_type : string;
  rp_content : value;
  rp_origin : value
}.

(** [RayRequest]: [{ uuid, payloads, meta }]. *)
Record RayRequest : Type := {
  rq_uuid : string;
  rq_payloads : list RayPayload;
  rq_meta : value
}.

(** [StoredPayload]. [timestamp] holds the time value of the [Date];
    the optional fields hold [JUndefined] while they are unset. *)
Record StoredPayload : Type := {
  sp_id : string;
  sp_uuid : string;
  sp_type : string;
  sp_content : value;
  sp_origin : value;
  sp_meta : value;
  sp_timestamp : Z;
  sp_color : value;
  sp_label : value;
  sp_size : value;
  sp_screen : value;
  sp_hidden : value
}.

(** The fields of [PayloadStore]. The listeners are callbacks of the
    presentation layer; the store keeps the number of times [notify] ran.
    [issued] is a ghost field: every identifier handed out since the
    store was created, oldest first. No operation reads it. *)
Record PayloadStore : Type := {
  payloads : list StoredPayload;
  currentScreen : value;
  payloadCounter : N;
  notifications : nat;
  issued : list string
}.

Definition MAX_PAYLOADS : nat := 1000.

(** [new PayloadStore()]. *)
Definition store : PayloadStore :=
  {| payloads := []; currentScreen := JStr "default"; payloadCounter := 0;
     notifications := 0; issued := [] |}.

Definition set_payloads (s : PayloadStore) (ps : list StoredPayload) : PayloadStore :=
  {| payloads := ps; currentScreen := currentScreen s;
     payloadCounter := payloadCounter s; notifications := notifications s;
     issued := issued s |}.

Definition set_currentScreen (s : PayloadStore) (v : value) : PayloadStore :=
  {| payloads := payloads s; currentScreen := v;
     payloadCounter := payloadCounter s; notifications := notifications s;
     issued := issued s |}.

Definition notify (s : PayloadStore) : PayloadStore :=
  {| payloads := payloads s; currentScreen := currentScreen s;
     payloadCounter := payloadCounter s; notifications := S (notifications s);
     issued := issued s |}.

(** [p.color = v], [p.label = v], [p.size = v], [p.hidden = v]. *)
Definition set_color (p : StoredPayload) (v : value) : StoredPayload :=
  {| sp_id := sp_id p; sp_uuid := sp_uuid p; sp_type := sp_type p;
     sp_content := sp_content p; sp_origin := sp_origin p; sp_meta := sp_meta p;
     sp_timestamp := sp_timestamp p; sp_color := v; sp_label := sp_label p;
     sp_size := sp_size p; sp_screen := sp_screen p; sp_hidden := sp_hidden p |}.

Definition set_label (p : StoredPayload) (v : value) : StoredPayload :=
  {| sp_id := sp_id p; sp_uuid := sp_uuid p; sp_type := sp_type p;
     sp_content := sp_content p; sp_origin := sp_origin p; sp_meta := sp_meta p;
     sp_timestamp := sp_timestamp p; sp_color := sp_color p; sp_label := v;
     sp_size := sp_size p; sp_screen := sp_screen p; sp_hidden := sp_hidden p |}.

Definition set_size (p : StoredPayload) (v : value) : StoredPayload :=
  {| sp_id := sp_id p; sp_uuid := sp_uuid p; sp_type := sp_type p;
     sp_content := sp_content p; sp_origin := sp_origin p; sp_meta := sp_meta p;
     sp_timestamp := sp_timestamp p; sp_color := sp_color p; sp_label := sp_label p;
     sp_size := v; sp_screen := sp_screen p; sp_hidden := sp_hidden p |}.

Definition set_hidden (p : StoredPayload) (v : value) : StoredPayload :=
  {| sp_id := sp_id p; sp_uuid := sp_uuid p; sp_type := sp_type p;
     sp_content := sp_content p; sp_origin := sp_origin p; sp_meta := sp_meta p;
     sp_timestamp := sp_timestamp p; sp_color := sp_color p; sp_label := sp_label p;
     sp_size := sp_size p; sp_screen := sp_screen p; sp_hidden := v |}.

(** *** Read operations *)

Definition getPayloads (s : PayloadStore) : list StoredPayload :=
  List.filter (fun p => negb (truthy (sp_hidden p))) (payloads s).

Definition getAllPayloads (s : PayloadStore) : list StoredPayload := payloads s.

Definition getPayloadsByScreen (s : PayloadStore) (screen : string) : list StoredPayload :=
  List.filter
    (fun p => strict_equal (sp_screen p) (JStr screen) && negb (truthy (sp_hidden p)))
    (payloads s).

Definition getCurrentScreen (s : PayloadStore) : value := currentScreen s.

Definition getPayloadById (s : PayloadStore) (id : string) : option StoredPayload :=
  List.find (fun p => String.eqb (sp_id p) id) (payloads s).

(** [screens.add(v)] on a [Set] kept in insertion order. *)
Definition Set_add (v : value) (screens : list value) : list value :=
  if List.existsb (strict_equal v) screens then screens else screens ++ [v].

Definition getScreens (s : PayloadStore) : list value :=
  List.fold_left
    (fun screens p =>
       if truthy (sp_screen p) then Set_add (sp_screen p) screens else screens)
    (payloads s) [].

(** *** Mutations *)

(** The loop of [applyToPayload]: [n] is [i + 1], the scan goes from the
    last index down to 0 and stops at the first payload whose uuid
    matches; [modifier] mutates that payload in place, or throws. *)
Fixpoint applyToPayload_loop (uuid : string)
    (modifier : StoredPayload -> completion StoredPayload)
    (ps : list StoredPayload) (n : nat) : list StoredPayload * completion unit :=
  match n with
  | O => (ps, Return tt)
  | S i =>
      match ps !! i with
      | Some payload =>
          if String.eqb (sp_uuid payload) uuid then
            match modifier payload with
            | Return payload' => (<[i := payload']> ps, Return tt)
            | Throw e => (ps, Throw e)
            end
          else applyToPayload_loop uuid modifier ps i
      | None => applyToPayload_loop uuid modifier ps i
      end
  end.

Definition applyToPayload (s : PayloadStore) (uuid : string)
    (modifier : StoredPayload -> completion StoredPayload)
    : PayloadStore * completion unit :=
  let '(ps, c) := applyToPayload_loop uuid modifier (payloads s) (length (payloads s)) in
  (set_payloads s ps, c).

(** [`${Date.now()}-${this.payloadCounter++}`]. *)
Definition make_id (now : Z) (counter : N) : string :=
  Z_to_string now ++ "-" ++ N_to_string counter.

(** [processPayload]; [now] is what [Date.now()] returns during the call. *)
Definition processPayload (s : PayloadStore) (uuid : string) (payload : RayPayload)
    (meta : value) (timestamp : Z) (now : Z) : PayloadStore * completion unit :=
  let type := rp_type payload in
  let content := rp_content payload in
  let origin := rp_origin payload in
  if String.eqb type "color" then
    applyToPayload s uuid
      (fun p => bind (get_prop content "color") (fun v => Return (set_color p v)))
  else if String.eqb type "label" then
    applyToPayload s uuid
      (fun p => bind (get_prop content "label") (fun v => Return (set_label p v)))
  else if String.eqb type "size" then
    applyToPayload s uuid
      (fun p => bind (get_prop content "size") (fun v => Return (set_size p v)))
  else if String.eqb type "new_screen" then
    match get_prop content "name" with
    | Return name => (set_currentScreen s name, Return tt)
    | Throw e => (s, Throw e)
    end
  else if String.eqb type "clear_all" then
    (set_payloads s [], Return tt)
  else if String.eqb type "hide" then
    applyToPayload s uuid (fun p => Return (set_hidden p (JBool true)))
  else if String.eqb type "remove" then
    (set_payloads s
       (List.filter (fun p => negb (String.eqb (sp_uuid p) uuid)) (payloads s)),
     Return tt)
  else if String.eqb type "show_app" || String.eqb type "hide_app"
          || String.eqb type "confetti" then
    (s, Return tt)
  else
    let storedPayload :=
      {| sp_id := make_id now (payloadCounter s);
         sp_uuid := uuid;
         sp_type := type;
         sp_content := content;
         sp_origin := origin;
         sp_meta := meta;
         sp_timestamp := timestamp;
         sp_color := JUndefined;
         sp_label := JUndefined;
         sp_size := JUndefined;
         sp_screen := currentScreen s;
         sp_hidden := JUndefined |} in
    ({| payloads := payloads s ++ [storedPayload];
        currentScreen := currentScreen s;
        payloadCounter := incr (payloadCounter s);
        notifications := notifications s;
        issued := issued s ++ [sp_id storedPayload] |},
     Return tt).

(** The [for ... of request.payloads] loop of [addRequest]; [now i] is the
    reading of [Date.now()] while the payload of index [i] is processed. *)
Fixpoint process_all (s : PayloadStore) (uuid : string) (meta : value)
    (timestamp : Z) (now : nat -> Z) (i : nat) (l : list RayPayload)
    : PayloadStore * completion unit :=
  match l with
  | [] => (s, Return tt)
  | payload :: rest =>
      match processPayload s uuid payload meta timestamp (now i) with
      | (s', Return _) => process_all s' uuid meta timestamp now (S i) rest
      | (s', Throw e) => (s', Throw e)
      end
  end.

(** [this.payloads.slice(-MAX_PAYLOADS)]. *)
Definition slice_last (n : nat) (ps : list StoredPayload) : list StoredPayload :=
  drop (length ps - n) ps.

(** [addRequest]; [timestamp] is the time value of [new Date()]. *)
Definition addRequest (s : PayloadStore) (request : RayRequest)
    (timestamp : Z) (now : nat -> Z) : PayloadStore * completion unit :=
  match process_all s (rq_uuid request) (rq_meta request) timestamp now 0
          (rq_payloads request) with
  | (s1, Return _) =>
      let s2 :=
        if (MAX_PAYLOADS <? length (payloads s1))%nat
        then set_payloads s1 (slice_last MAX_PAYLOADS (payloads s1))
        else s1 in
      (notify s2, Return tt)
  | (s1, Throw e) => (s1, Throw e)
  end.

Definition clear (s : PayloadStore) : PayloadStore := notify (set_payloads s []).

End Store.

Import Store.

(** ** Strings: the methods of [String.prototype] the classifier calls *)

Module Str.

Definition code (c : ascii) : nat := nat_of_ascii c.

(** White space and line terminators, as [trim] and [\s] see them. *)
Definition is_space (c : ascii) : bool :=
  let n := code c in
  (Nat.leb 9 n && Nat.leb n 13) || Nat.eqb n 32 || Nat.eqb n 160.

Definition is_empty (s : string) : bool :=
  match s with EmptyString => true | String _ _ => false end.

Fixpoint trimStart (s : string) : string :=
  match s with
  | String c rest => if is_space c then trimStart rest else s
  | EmptyString => EmptyString
  end.

Fixpoint trimEnd (s : string) : string :=
  match s with
  | String c rest =>
      let rest' := trimEnd rest in
      if is_space c && is_empty rest' then EmptyString else String c rest'
  | EmptyString => EmptyString
  end.

Definition trim (s : string) : string := trimEnd (trimStart s).

Fixpoint map_chars (f : ascii -> ascii) (s : string) : string :=
  match s with
  | String c rest => String (f c) (map_chars f rest)
  | EmptyString => EmptyString
  end.

Definition newline : ascii := ascii_of_nat 10.

(** [text.replace(/\n/g, ' ')]. *)
Definition replace_newlines (s : string) : string :=
  map_chars (fun c => if Ascii.eqb c newline then " "%char else c) s.

Definition lower (c : ascii) : ascii :=
  let n := code c in
  if (Nat.leb 65 n && Nat.leb n 90)
     || (Nat.leb 192 n && Nat.leb n 222 && negb (Nat.eqb n 215))
  then ascii_of_nat (n + 32) else c.

Definition toLowerCase (s : string) : string := map_chars lower s.

Fixpoint take (n : nat) (s : string) : string :=
  match n, s with
  | S n', String c rest => String c (take n' rest)
  | _, _ => EmptyString
  end.

(** [s.slice(0, e)]: a negative [e] counts from the end. *)
Definition slice0 (s : string) (e : Z) : string :=
  if (e <? 0)%Z then take (Z.to_nat (Z.of_nat (String.length s) + e)) s
  else take (Z.to_nat e) s.

Definition startsWith (s sub : string) : bool := String.prefix sub s.

Definition endsWith (s sub : string) : bool :=
  Nat.leb (String.length sub) (String.length s)
  && String.eqb
       (String.substring (String.length s - String.length sub) (String.length sub) s)
       sub.

Fixpoint includes (s sub : string) : bool :=
  String.prefix sub s
  || match s with
     | String _ rest => includes rest sub
     | EmptyString => false
     end.

(** [parts.join(sep)] on strings. *)
Definition join (sep : string) (parts : list string) : string :=
  String.concat sep parts.

End Str.

(** ** Regular expressions

    The patterns of [detectLanguage] use literals, classes, alternation
    and repetition only, so [RegExp.prototype.test] is membership in a
    regular language; it is decided with derivatives. *)

Module Regex.

Inductive regex : Type :=
| Void
| Eps
| Class (p : ascii -> bool)
| Cat (r1 r2 : regex)
| Alt (r1 r2 : regex)
| Star (r : regex).

Fixpoint nullable (r : regex) : bool :=
  match r with
  | Void => false
  | Eps => true
  | Class _ => false
  | Cat r1 r2 => nullable r1 && nullable r2
  | Alt r1 r2 => nullable r1 || nullable r2
  | Star _ => true
  end.

Definition cat (r1 r2 : regex) : regex :=
  match r1, r2 with
  | Void, _ | _, Void => Void
  | Eps, r | r, Eps => r
  | _, _ => Cat r1 r2
  end.

Definition alt (r1 r2 : regex) : regex :=
  match r1, r2 with
  | Void, r | r, Void => r
  | _, _ => Alt r1 r2
  end.

Fixpoint deriv (c : ascii) (r : regex) : regex :=
  match r with
  | Void | Eps => Void
  | Class p => if p c then Eps else Void
  | Cat r1 r2 =>
      if nullable r1 then alt (cat (deriv c r1) r2) (deriv c r2)
      else cat (deriv c r1) r2
  | Alt r1 r2 => alt (deriv c r1) (deriv c r2)
  | Star r1 => cat (deriv c r1) (Star r1)
  end.

Fixpoint matches (r : regex) (s : string) : bool :=
  match s with
  | EmptyString => nullable r
  | String c rest => matches (deriv c r) rest
  end.

Definition any : regex := Class (fun _ => true).

(** [/^r/.test(s)] and [/r/.test(s)]. *)
Definition test_anchored (r : regex) (s : string) : bool := matches (Cat r (Star any)) s.
Definition test (r : regex) (s : string) : bool := matches (Cat (Star any) (Cat r (Star any))) s.

(** Pattern atoms. *)
Definition chr (c : ascii) : regex := Class (Ascii.eqb c).
Definition range (lo hi : ascii) : ascii -> bool :=
  fun c => Nat.leb (Str.code lo) (Str.code c) && Nat.leb (Str.code c) (Str.code hi).
Definition letter : ascii -> bool := fun c => range "a" "z" c || range "A" "Z" c.
Definition digit : ascii -> bool := range "0" "9".
(** A literal character under the [i] flag. *)
Definition chr_i (c : ascii) : regex :=
  Class (fun x => Ascii.eqb x c
                  || (letter x && letter c && Ascii.eqb (Str.lower x) (Str.lower c))).
Fixpoint lit (s : string) : regex :=
  match s with
  | EmptyString => Eps
  | String c rest => Cat (chr c) (lit rest)
  end.
Fixpoint lit_i (s : string) : regex :=
  match s with
  | EmptyString => Eps
  | String c rest => Cat (chr_i c) (lit_i rest)
  end.
Definition plus (r : regex) : regex := Cat r (Star r).
Definition space : regex := Class Str.is_space.
(** [.]: any character but a line terminator. *)
Definition dot : regex :=
  Class (fun c => negb (Nat.eqb (Str.code c) 10 || Nat.eqb (Str.code c) 13)).
Definition none_of (c : ascii) : regex := Class (fun x => negb (Ascii.eqb x c)).
Fixpoint alts (rs : list regex) : regex :=
  match rs with
  | [] => Void
  | [r] => r
  | r :: rest => Alt r (alts rest)
  end.

End Regex.

(** ** JSON: [JSON.parse] as a recogniser, [JSON.stringify] as a printer *)

Module Json.

Definition dquote : ascii := ascii_of_nat 34.
Definition backslash : ascii := ascii_of_nat 92.

(** *** [JSON.parse(text)] returns normally

    [detectLanguage] only asks whether the call throws, so the grammar is
    modelled by a recogniser. Every function returns the text left after
    what it read. *)

Definition is_ws (c : ascii) : bool :=
  let n := Str.code c in
  Nat.eqb n 32 || Nat.eqb n 9 || Nat.eqb n 10 || Nat.eqb n 13.

Fixpoint skip_ws (s : string) : string :=
  match s with
  | String c rest => if is_ws c then skip_ws rest else s
  | EmptyString => EmptyString
  end.

Definition is_hex (c : ascii) : bool :=
  Regex.digit c || Regex.range "a" "f" c || Regex.range "A" "F" c.

Definition is_simple_escape (c : ascii) : bool :=
  Ascii.eqb c dquote || Ascii.eqb c backslash
  || List.existsb (Ascii.eqb c) ["/"; "b"; "f"; "n"; "r"; "t"]%char.

(** The characters of a string after its opening quote. *)
Fixpoint string_tail (s : string) : option string :=
  match s with
  | EmptyString => None
  | String c rest =>
      if Ascii.eqb c dquote then Some rest
      else if Ascii.eqb c backslash then
        match rest with
        | String e rest1 =>
            if is_simple_escape e then string_tail rest1
            else if Ascii.eqb e "u" then
              match rest1 with
              | String h1 (String h2 (String h3 (String h4 rest2))) =>
                  if is_hex h1 && is_hex h2 && is_hex h3 && is_hex h4
                  then string_tail rest2 else None
              | _ => None
              end
            else None
        | EmptyString => None
        end
      else if Nat.ltb (Str.code c) 32 then None
      else string_tail rest
  end.

Fixpoint skip_digits (s : string) : string :=
  match s with
  | String c rest => if Regex.digit c then skip_digits rest else s
  | EmptyString => EmptyString
  end.

(** One digit at least. *)
Definition digits1 (s : string) : option string :=
  match s with
  | String c rest => if Regex.digit c then Some (skip_digits rest) else None
  | EmptyString => None
  end.

Definition int_part (s : string) : option string :=
  match s with
  | String c rest =>
      if Ascii.eqb c "0" then Some rest
      else if Regex.digit c then Some (skip_digits rest)
      else None
  | EmptyString => None
  end.

Definition frac_part (s : string) : option string :=
  match s with
  | String "." rest => digits1 rest
  | _ => Some s
  end.

Definition exp_part (s : string) : option string :=
  match s with
  | String c rest =>
      if Ascii.eqb c "e" || Ascii.eqb c "E" then
        match rest with
        | String sign rest1 =>
            if Ascii.eqb sign "+" || Ascii.eqb sign "-" then digits1 rest1
            else digits1 rest
        | EmptyString => None
        end
      else Some s
  | EmptyString => Some s
  end.

Definition number (s : string) : option string :=
  let s1 := match s with String "-" rest => rest | _ => s end in
  match int_part s1 with
  | Some s2 =>
      match frac_part s2 with
      | Some s3 => exp_part s3
      | None => None
      end
  | None => None
  end.

Definition keyword (k s : string) : option string :=
  if String.prefix k s
  then Some (String.substring (String.length k) (String.length s - String.length k) s)
  else None.

(** A value with the white space around it. Two calls in a row read one
    character at least, so [2 * length + 2] levels are enough for any
    text (see [parses]). *)
Fixpoint value_ (fuel : nat) (s : string) : option string :=
  match fuel with
  | O => None
  | S fuel' =>
      match skip_ws s with
      | String c rest =>
          if Ascii.eqb c "{" then
            match skip_ws rest with
            | String "}" rest1 => Some (skip_ws rest1)
            | _ => members fuel' rest
            end
          else if Ascii.eqb c "[" then
            match skip_ws rest with
            | String "]" rest1 => Some (skip_ws rest1)
            | _ => elements fuel' rest
            end
          else if Ascii.eqb c dquote then option_map skip_ws (string_tail rest)
          else if Ascii.eqb c "t" then option_map skip_ws (keyword "true" (String c rest))
          else if Ascii.eqb c "f" then option_map skip_ws (keyword "false" (String c rest))
          else if Ascii.eqb c "n" then option_map skip_ws (keyword "null" (String c rest))
          else option_map skip_ws (number (String c rest))
      | EmptyString => None
      end
  end
with elements (fuel : nat) (s : string) : option string :=
  match fuel with
  | O => None
  | S fuel' =>
      match value_ fuel' s with
      | Some (String c rest) =>
          if Ascii.eqb c "," then elements fuel' rest
          else if Ascii.eqb c "]" then Some (skip_ws rest)
          else None
      | _ => None
      end
  end
with members (fuel : nat) (s : string) : option string :=
  match fuel with
  | O => None
  | S fuel' =>
      match skip_ws s with
      | String c rest =>
          if Ascii.eqb c dquote then
            match option_map skip_ws (string_tail rest) with
            | Some (String ":" rest1) =>
                match value_ fuel' rest1 with
                | Some (String d rest2) =>
                    if Ascii.eqb d "," then members fuel' rest2
                    else if Ascii.eqb d "}" then Some (skip_ws rest2)
                    else None
                | _ => None
                end
            | _ => None
            end
          else None
      | EmptyString => None
      end
  end.

(** [JSON.parse(text)] does not throw. *)
Definition parses (text : string) : bool :=
  match value_ (2 * String.length text + 2) text with
  | Some EmptyString => true
  | _ => false
  end.

(** *** [JSON.stringify(value, null, indent)] *)

Definition hex_digit (n : nat) : ascii :=
  if Nat.ltb n 10 then ascii_of_nat (48 + n) else ascii_of_nat (87 + n).

Definition quote_char (c : ascii) : string :=
  let n := Str.code c in
  if Nat.eqb n 8 then "\b"
  else if Nat.eqb n 9 then "\t"
  else if Nat.eqb n 10 then "\n"
  else if Nat.eqb n 12 then "\f"
  else if Nat.eqb n 13 then "\r"
  else if Nat.eqb n 34 then String backslash (String dquote EmptyString)
  else if Nat.eqb n 92 then "\\"
  else if Nat.ltb n 32 then
    "\u00" ++ String (hex_digit (n / 16)) (String (hex_digit (n mod 16)) EmptyString)
  else String c EmptyString.

Fixpoint quote_chars (s : string) : string :=
  match s with
  | String c rest => quote_char c ++ quote_chars rest
  | EmptyString => EmptyString
  end.

(** QuoteJSONString. *)
Definition quote (s : string) : string :=
  String dquote (quote_chars s ++ String dquote EmptyString).

Definition finite (repr : string) : bool :=
  negb (String.eqb repr "NaN" || String.eqb repr "Infinity"
        || String.eqb repr "-Infinity").

(** The text of an array or object from the texts of its parts. *)
Definition wrap (open close gap stepback indent : string) (partial : list string) : string :=
  match partial with
  | [] => open ++ close
  | _ =>
      if Str.is_empty gap then open ++ Str.join "," partial ++ close
      else
        let nl := String Str.newline EmptyString in
        open ++ nl ++ indent ++ Str.join ("," ++ nl ++ indent) partial
             ++ nl ++ stepback ++ close
  end.

(** SerializeJSONProperty; [None] is [undefined]. *)
Fixpoint serialize (gap : string) (v : value) (indent : string) {struct v} : option string :=
  match v with
  | JNull => Some "null"
  | JBool b => Some (if b then "true" else "false")
  | JNum repr => Some (if finite repr then repr else "null")
  | JStr s => Some (quote s)
  | JArr _ elems =>
      let stepback := indent in
      let indent := indent ++ gap in
      let partial :=
        (fix go (l : list value) : list string :=
           match l with
           | [] => []
           | e :: rest =>
               match serialize gap e indent with
               | Some text => text :: go rest
               | None => "null" :: go rest
               end
           end) elems in
      Some (wrap "[" "]" gap stepback indent partial)
  | JObj _ props =>
      let stepback := indent in
      let indent := indent ++ gap in
      let partial :=
        (fix go (l : list (string * value)) : list string :=
           match l with
           | [] => []
           | (k, e) :: rest =>
               match serialize gap e indent with
               | Some text =>
                   (quote k ++ ":" ++ (if Str.is_empty gap then "" else " ") ++ text)
                     :: go rest
               | None => go rest
               end
           end) props in
      Some (wrap "{" "}" gap stepback indent partial)
  | JUndefined | JNative _ _ => None
  end.

Fixpoint spaces (n : nat) : string :=
  match n with
  | O => EmptyString
  | S n' => String " " (spaces n')
  end.

Definition stringify (v : value) (indent : nat) : option string :=
  serialize (spaces (Nat.min 10 indent)) v EmptyString.

End Json.

(** ** The classifier ([src/components/renderers/index.tsx]) *)

Module Renderers.

Import Regex.

(** ToString, as a template literal and [String(v)] apply it. An array
    joins its elements with commas; an object renders as
    [[object Object]] unless an own [toString] property, which is not
    callable, hides the inherited method. *)
Fixpoint ToString (v : value) : completion string :=
  match v with
  | JUndefined => Return "undefined"
  | JNull => Return "null"
  | JBool b => Return (if b then "true" else "false")
  | JNum repr => Return repr
  | JStr s => Return s
  | JArr _ elems =>
      bind
        ((fix go (l : list value) : completion (list string) :=
            match l with
            | [] => Return []
            | e :: rest =>
                bind (match e with
                      | JUndefined | JNull => Return ""
                      | _ => ToString e
                      end)
                  (fun text => bind (go rest) (fun texts => Return (text :: texts)))
            end) elems)
        (fun texts => Return (Str.join "," texts))
  | JObj _ props =>
      match own_prop "toString" props with
      | Some _ => Throw TypeError
      | None => Return "[object Object]"
      end
  | JNative name _ => Return ("function " ++ name ++ "() { [native code] }")
  end.

(** [stringify(value, indent)]; [None] is [undefined]. The values of the
    embedding are trees of plain data, on which [JSON.stringify] does not
    throw. *)
Definition stringify (value : value) (indent : nat) : option string :=
  match value with
  | JNull => Some "null"
  | JUndefined => Some "undefined"
  | JStr s => Some s
  | JNum repr => Some repr
  | JBool b => Some (if b then "true" else "false")
  | _ => Json.stringify value indent
  end.

(** [/<[a-z]+[^>]*xmlns/i] *)
Definition xmlns_pattern : regex :=
  Cat (chr "<") (Cat (plus (Class letter)) (Cat (Star (none_of ">")) (lit_i "xmlns"))).

(** [/^\s*(SELECT|INSERT|UPDATE|DELETE|CREATE|ALTER|DROP|TRUNCATE|WITH)\s/i] *)
Definition sqlKeywords : regex :=
  Cat (Star space)
    (Cat (alts (List.map lit_i
                  ["SELECT"; "INSERT"; "UPDATE"; "DELETE"; "CREATE"; "ALTER"; "DROP";
                   "TRUNCATE"; "WITH"]))
       space).

Definition ident_start : ascii -> bool :=
  fun c => letter c || Ascii.eqb c "_" || Ascii.eqb c "$".
Definition ident_part : ascii -> bool := fun c => ident_start c || digit c.

(** [/^(function\s|const\s|let\s|var\s|class\s|async\s|export\s|import\s|\([^)]*\)\s*=>|[a-zA-Z_$][a-zA-Z0-9_$]*\s*=\s*function)/] *)
Definition javascript_pattern : regex :=
  alts
    (List.map (fun k => Cat (lit k) space)
       ["function"; "const"; "let"; "var"; "class"; "async"; "export"; "import"]
     ++ [Cat (chr "(") (Cat (Star (none_of ")")) (Cat (chr ")") (Cat (Star space) (lit "=>"))));
         Cat (Class ident_start)
           (Cat (Star (Class ident_part))
              (Cat (Star space) (Cat (chr "=") (Cat (Star space) (lit "function")))))]).

(** [/^[.#@][a-zA-Z].*\{/] *)
Definition css_rule_pattern : regex :=
  Cat (Class (fun c => Ascii.eqb c "." || Ascii.eqb c "#" || Ascii.eqb c "@"))
    (Cat (Class letter) (Cat (Star dot) (chr "{"))).

(** [/^[a-z-]+\s*:\s*[^;]+;/i] *)
Definition css_declaration_pattern : regex :=
  Cat (plus (Class (fun c => letter c || Ascii.eqb c "-")))
    (Cat (Star space)
       (Cat (chr ":") (Cat (Star space) (Cat (plus (none_of ";")) (chr ";"))))).

(** The two conditions of the first [if], and those of the JSON block. *)
Definition looks_like_markup (trimmed : string) : bool :=
  Str.startsWith trimmed "<" && (Str.includes trimmed "</" || Str.includes trimmed "/>").

Definition looks_like_json (trimmed : string) : bool :=
  (Str.startsWith trimmed "{" && Str.endsWith trimmed "}")
  || (Str.startsWith trimmed "[" && Str.endsWith trimmed "]").

(** [detectLanguage]; [None] is [null]. *)
Definition detectLanguage (str : string) : option string :=
  let trimmed := Str.trim str in
  if looks_like_markup trimmed then
    if Str.includes (Str.toLowerCase trimmed) "<script"
       || Str.includes (Str.toLowerCase trimmed) "</script>"
    then Some "html"
    else if Str.startsWith trimmed "<?xml" || test xmlns_pattern trimmed
    then Some "xml"
    else Some "html"
  else if looks_like_json trimmed && Json.parses trimmed then Some "json"
  else if test_anchored sqlKeywords trimmed then Some "sql"
  else if Str.startsWith trimmed "<?php" || Str.startsWith trimmed "<?=" then Some "php"
  else if test_anchored javascript_pattern trimmed then Some "javascript"
  else if test_anchored css_rule_pattern trimmed
          || test_anchored css_declaration_pattern trimmed
  then Some "css"
  else None.

(** [truncate(text, maxLength)] on a string. *)
Definition truncate (text : string) (maxLength : Z) : string :=
  let singleLine := Str.trim (Str.replace_newlines text) in
  if (Z.of_nat (String.length singleLine) <=? maxLength)%Z then singleLine
  else Str.slice0 singleLine (maxLength - 3) ++ "...".

(** The call [truncate(v)] of [getPreviewText], with the default
    [maxLength]: [v.replace] is callable on a string only. *)
Definition truncate_call (v : value) : completion value :=
  match v with
  | JStr text => Return (JStr (truncate text 50))
  | _ => Throw TypeError
  end.

(** ['content' in v]: the operand must be an object. *)
Definition has_property (k : string) (v : value) : completion bool :=
  match v with
  | JObj _ props =>
      Return (match own_prop k props with Some _ => true | None => false end)
  | JArr _ _ | JNative _ _ => Return false
  | _ => Throw TypeError
  end.

(** The separator preview is the code unit U+2500, BOX DRAWINGS LIGHT
    HORIZONTAL, eight times. It is the one code unit above 255 in a
    literal of the embedded code; the character 128 stands for it. *)
Definition light_horizontal : ascii := ascii_of_nat 128.

Definition separator_preview : string :=
  string_of_list_ascii (List.repeat light_horizontal 8).

Definition is_query (type : string) : bool :=
  String.eqb type "executed_query" || String.eqb type "slow_query"
  || String.eqb type "duplicate_query".

Definition is_textual (type : string) : bool :=
  String.eqb type "text" || String.eqb type "html" || String.eqb type "xml".

(** [getPreviewText]. *)
Definition getPreviewText (payload : StoredPayload) : completion value :=
  let type := sp_type payload in
  let content := sp_content payload in
  if String.eqb type "log" then
    bind (get_prop content "values") (fun values =>
      match values with
      | JArr _ elems =>
          let texts :=
            List.map (fun v => match stringify v 0 with Some t => t | None => "" end)
              elems in
          truncate_call (JStr (Str.join ", " texts))
      | _ => Throw TypeError
      end)
  else if String.eqb type "custom" then
    bind (get_prop content "content") truncate_call
  else if String.eqb type "exception" then
    bind (get_prop content "class") (fun class =>
    bind (ToString class) (fun class_text =>
    bind (get_prop content "message") (fun message =>
    bind (ToString message) (fun message_text =>
    truncate_call (JStr (class_text ++ ": " ++ message_text))))))
  else if is_query type then
    bind (get_prop content "sql") truncate_call
  else if String.eqb type "table" then
    bind (get_prop content "values") (fun values =>
    bind (get_prop values "length") (fun n =>
    bind (ToString n) (fun text => Return (JStr (text ++ " rows")))))
  else if String.eqb type "trace" then
    bind (get_prop content "frames") (fun frames =>
    bind (get_prop frames "length") (fun n =>
    bind (ToString n) (fun text => Return (JStr (text ++ " frames")))))
  else if String.eqb type "notify" then
    bind (get_prop content "value") truncate_call
  else if String.eqb type "measure" then
    bind (get_prop content "total_time") (fun total_time =>
      if negb (strict_equal total_time JUndefined) then
        bind (get_prop content "name") (fun name =>
        bind (ToString name) (fun name_text =>
        bind (ToString total_time) (fun time_text =>
        Return (JStr (name_text ++ ": " ++ time_text ++ "ms")))))
      else get_prop content "name")
  else if String.eqb type "bool" then
    bind (get_prop content "value") (fun v =>
    bind (ToString v) (fun text => Return (JStr text)))
  else if String.eqb type "null" then
    Return (JStr "null")
  else if String.eqb type "carbon" then
    get_prop content "formatted"
  else if String.eqb type "application_log" then
    bind (get_prop content "value") truncate_call
  else if is_textual type then
    bind (has_property "content" content) (fun present =>
      if present then bind (get_prop content "content") truncate_call
      else bind (get_prop content "value") truncate_call)
  else if String.eqb type "json" then
    bind (get_prop content "value") (fun v =>
      match stringify v 0 with
      | Some text => truncate_call (JStr text)
      | None => truncate_call JUndefined
      end)
  else if String.eqb type "image" then
    bind (get_prop content "url") (fun url =>
      if truthy url then truncate_call url
      else
        bind (get_prop content "path") (fun path =>
          if truthy path then truncate_call path
          else truncate_call (JStr "Image")))
  else if String.eqb type "caller" then
    bind (get_prop content "frame") (fun frame =>
    bind (get_prop frame "file_name") (fun file_name =>
    bind (ToString file_name) (fun file_text =>
    bind (get_prop content "frame") (fun frame' =>
    bind (get_prop frame' "line_number") (fun line_number =>
    bind (ToString line_number) (fun line_text =>
    Return (JStr (file_text ++ ":" ++ line_text))))))))
  else if String.eqb type "file_contents" then
    bind (get_prop content "file") truncate_call
  else if String.eqb type "separator" then
    Return (JStr separator_preview)
  else Return (JStr type).

End Renderers.

Import Renderers.

(** ** Vocabulary of the properties *)

Local Open Scope list_scope.

(** The tags with a [case] in the [switch] of [processPayload]; an event
    with any other tag creates an entry. *)
Definition directive_types : list string :=
  ["color"; "label"; "size"; "new_screen"; "clear_all"; "hide"; "remove";
   "show_app"; "hide_app"; "confetti"].

Definition creates_entry (type : string) : bool :=
  negb (List.existsb (String.eqb type) directive_types).

(** The directives that read a property of their content. *)
Definition reads_content (type : string) : bool :=
  List.existsb (String.eqb type) ["color"; "label"; "size"; "new_screen"].

Definition nullish (v : value) : bool :=
  match v with
  | JUndefined | JNull => true
  | _ => false
  end.

(** The entry an entry-creating event appends to the store [s]. *)
Definition new_entry (s : PayloadStore) (uuid : string) (payload : RayPayload)
    (meta : value) (timestamp : Z) (now : Z) : StoredPayload :=
  {| sp_id := make_id now (payloadCounter s);
     sp_uuid := uuid;
     sp_type := rp_type payload;
     sp_content := rp_content payload;
     sp_origin := rp_origin payload;
     sp_meta := meta;
     sp_timestamp := timestamp;
     sp_color := JUndefined;
     sp_label := JUndefined;
     sp_size := JUndefined;
     sp_screen := currentScreen s;
     sp_hidden := JUndefined |}.

(** The entry that the event of index [k] of a batch of entry-creating
    events appends, when the batch starts with the counter at [counter]
    and the current screen [screen]. *)
Definition created_entry (uuid : string) (meta : value) (timestamp : Z)
    (now : nat -> Z) (counter : N) (screen : value) (k : nat) (payload : RayPayload)
    : StoredPayload :=
  {| sp_id := make_id (now k) (counter + N.of_nat k);
     sp_uuid := uuid;
     sp_type := rp_type payload;
     sp_content := rp_content payload;
     sp_origin := rp_origin payload;
     sp_meta := meta;
     sp_timestamp := timestamp;
     sp_color := JUndefined;
     sp_label := JUndefined;
     sp_size := JUndefined;
     sp_screen := screen;
     sp_hidden := JUndefined |}.

(** The entries of a batch of entry-creating events sent to the store [s],
    in the order of the events. *)
Definition created (s : PayloadStore) (request : RayRequest) (timestamp : Z)
    (now : nat -> Z) : list StoredPayload :=
  imap (created_entry (rq_uuid request) (rq_meta request) timestamp now
          (payloadCounter s) (currentScreen s))
    (rq_payloads request).

(** The store once [e] is appended in [s]. *)
Definition with_entry (s : PayloadStore) (e : StoredPayload) : PayloadStore :=
  {| payloads := payloads s ++ [e];
     currentScreen := currentScreen s;
     payloadCounter := incr (payloadCounter s);
     notifications := notifications s;
     issued := issued s ++ [sp_id e] |}.

(** The effect of a targeted directive on the entry it reaches. *)
Inductive directive_effect : string -> value -> (StoredPayload -> StoredPayload) -> Prop :=
| effect_color content v :
    get_prop content "color" = Return v ->
    directive_effect "color" content (fun p => set_color p v)
| effect_label content v :
    get_prop content "label" = Return v ->
    directive_effect "label" content (fun p => set_label p v)
| effect_size content v :
    get_prop content "size" = Return v ->
    directive_effect "size" content (fun p => set_size p v)
| effect_hide content :
    directive_effect "hide" content (fun p => set_hidden p (JBool true)).

(** The text after the last occurrence of [c]; [None] when [c] is absent. *)
Fixpoint after_last (c : ascii) (s : string) : option string :=
  match s with
  | EmptyString => None
  | String x rest =>
      match after_last c rest with
      | Some tail => Some tail
      | None => if Ascii.eqb x c then Some rest else None
      end
  end.

(** The sequence number an identifier ends with: the decimal number after
    its last dash. *)
Definition id_counter (id : string) : option N :=
  match after_last "-" id with
  | Some digits => option_map N.of_uint (NilEmpty.uint_of_string digits)
  | None => None
  end.

(** The order of the identifiers: that of their sequence numbers. *)
Definition id_lt (a b : string) : Prop :=
  exists m n, id_counter a = Some m /\ id_counter b = Some n /\ (m < n)%N.

Definition issued_before (n : N) (id : string) : Prop :=
  exists c, id_counter id = Some c /\ (c < n)%N.

(** The order of JavaScript on strings: [a < b]. *)
Definition js_lt (a b : string) : Prop := String.ltb a b = true.

(** The invariant of the identifiers: the identifiers handed out so far
    carry increasing sequence numbers, all below the counter, and the
    stored entries carry some of them, in the order of their creation. *)
Definition store_ok (s : PayloadStore) : Prop :=
  StronglySorted id_lt (issued s)
  /\ Forall (issued_before (payloadCounter s)) (issued s)
  /\ sublist (List.map sp_id (payloads s)) (issued s).

(** One call of [addRequest], with what it reads from the clock. *)
Record call : Type := {
  call_request : RayRequest;
  call_timestamp : Z;
  call_now : nat -> Z
}.

(** Calls of [addRequest] one after the other, up to the first that throws. *)
Fixpoint run (s : PayloadStore) (calls : list call) : PayloadStore * completion unit :=
  match calls with
  | [] => (s, Return tt)
  | c :: rest =>
      match addRequest s (call_request c) (call_timestamp c) (call_now c) with
      | (s', Return _) => run s' rest
      | (s', Throw e) => (s', Throw e)
      end
  end.

(** The number of events of all the batches of [calls]. *)
Fixpoint events (calls : list call) : nat :=
  match calls with
  | [] => 0
  | c :: rest => length (rq_payloads (call_request c)) + events rest
  end.

(** A batch with one event, which creates an entry. *)
Definition single_entry (c : call) : Prop :=
  exists payload,
    rq_payloads (call_request c) = [payload] /\ creates_entry (rp_type payload) = true.

(** What was submitted, and what an entry keeps of it. *)
Definition submitted (c : call) : list (string * string * value) :=
  List.map (fun payload => (rq_uuid (call_request c), rp_type payload, rp_content payload))
    (rq_payloads (call_request c)).

Definition summary (p : StoredPayload) : string * string * value :=
  (sp_uuid p, sp_type p, sp_content p).

Definition visible (p : StoredPayload) : bool := negb (truthy (sp_hidden p)).

(** An entry of another correlation id than [uuid]. *)
Definition other (uuid : string) (p : StoredPayload) : Prop := sp_uuid p <> uuid.

(** What an entry is stamped with when it is created; no directive
    assigns any of it. *)
Definition stamp (p : StoredPayload) : string * string * Z * value :=
  (sp_id p, sp_uuid p, sp_timestamp p, sp_screen p).

(** The tags whose preview goes through [truncate]. *)
Definition truncated_types : list string :=
  ["log"; "custom"; "exception"; "executed_query"; "slow_query"; "duplicate_query";
   "notify"; "application_log"; "text"; "html"; "xml"; "json"; "image"; "file_contents"].

(** The tags with a [case] in the [switch] of [getPreviewText]. *)
Definition preview_types : list string :=
  truncated_types
  ++ ["table"; "trace"; "measure"; "bool"; "null"; "carbon"; "caller"; "separator"].

Definition single_line (text : string) : Prop :=
  Str.includes text (String Str.newline EmptyString) = false.

Definition repeat_char (c : ascii) (n : nat) : string :=
  string_of_list_ascii (List.repeat c n).


(** No character of [s] is a line feed. *)
Fixpoint no_newline (s : string) : bool :=
  match s with
  | EmptyString => true
  | String c rest => negb (Ascii.eqb c Str.newline) && no_newline rest
  end.


(** *** Entries to preview *)


(** An entry of the given type and content. *)
Definition entry_of (type : string) (content : value) : StoredPayload :=
  {| sp_id := "5-0"; sp_uuid := "abc"; sp_type := type;
     sp_content := content;
     sp_origin := JUndefined; sp_meta := JUndefined; sp_timestamp := 5;
     sp_color := JUndefined; sp_label := JUndefined; sp_size := JUndefined;
     sp_screen := JStr "default"; sp_hidden := JUndefined |}.

(** *** Statements of the specification the code does not meet as worded *)

(** [addRequest] returns normally whatever the content of the events. *)
Definition never_throws (s : PayloadStore) (request : RayRequest)
    (timestamp : Z) (now : nat -> Z) : Prop :=
  exists s', addRequest s request timestamp now = (s', Return tt).


(** The batches of [calls], applied to a new store, leave their entries in
    the order submitted, under distinct and increasing identifiers. *)
Definition ordered_history (calls : list call) : Prop :=
  exists s',
    run Store.store calls = (s', Return tt)
    /\ List.map summary (getAllPayloads s') = List.flat_map submitted calls
    /\ NoDup (List.map sp_id (getAllPayloads s'))
    /\ StronglySorted id_lt (List.map sp_id (getAllPayloads s')).

(** *** Examples *)

Definition log_payload (text : string) : RayPayload :=
  {| rp_type := "log";
     rp_content := JObj 1 [("values", JArr 2 [JStr text])];
     rp_origin := JUndefined |}.

Definition directive (type : string) (content : value) : RayPayload :=
  {| rp_type := type; rp_content := content; rp_origin := JUndefined |}.

Definition request (uuid : string) (events : list RayPayload) : RayRequest :=
  {| rq_uuid := uuid; rq_payloads := events; rq_meta := JUndefined |}.

(** A call at time 5, the clock standing still. *)
Definition call_at_5 (r : RayRequest) : call :=
  {| call_request := r; call_timestamp := 5; call_now := fun _ => 5%Z |}.

Definition log_calls (n : nat) : list call :=
  List.map (fun i => call_at_5 (request (nat_to_string i) [log_payload "x"])) (seq 0 n).

(** The store after two batches of one log event. *)
Definition two_logs : PayloadStore := fst (run Store.store (log_calls 2)).

(** The store after ten batches of one log event. *)
Definition ten_logs : PayloadStore := fst (run Store.store (log_calls 10)).

Definition entry (id uuid : string) : StoredPayload :=
  {| sp_id := id; sp_uuid := uuid; sp_type := "log";
     sp_content := JObj 1 [("values", JArr 2 [JStr "x"])];
     sp_origin := JUndefined; sp_meta := JUndefined; sp_timestamp := 1;
     sp_color := JUndefined; sp_label := JUndefined; sp_size := JUndefined;
     sp_screen := JStr "default"; sp_hidden := JUndefined |}.

(** ** Vocabulary of the further properties of the store *)

(** One operation on the store: a call of [addRequest] or of [clear]. *)
Inductive operation : Type :=
| Request (c : call)
| Clear.

(** The store after the operations, each applied to what the one before
    left, whether it returned or threw. *)
Fixpoint exec (s : PayloadStore) (ops : list operation) : PayloadStore :=
  match ops with
  | [] => s
  | Request c :: rest =>
      exec (fst (addRequest s (call_request c) (call_timestamp c) (call_now c))) rest
  | Clear :: rest => exec (clear s) rest
  end.

(** The number of events the operations submit. *)
Fixpoint submitted_events (ops : list operation) : nat :=
  match ops with
  | [] => 0
  | Request c :: rest => length (rq_payloads (call_request c)) + submitted_events rest
  | Clear :: rest => submitted_events rest
  end.

(** The fields of an entry that are written once, when it is created. *)
Definition fixed_fields (p : StoredPayload)
    : string * string * string * value * value * value * Z * value :=
  (sp_id p, sp_uuid p, sp_type p, sp_content p, sp_origin p, sp_meta p,
   sp_timestamp p, sp_screen p).

(** [p'] is a later state of the entry [p]. *)
Definition evolves (p p' : StoredPayload) : Prop :=
  fixed_fields p' = fixed_fields p
  /\ (truthy (sp_hidden p) = true -> truthy (sp_hidden p') = true).

(** Some stored entry carries the correlation id. *)
Definition has_target (s : PayloadStore) (uuid : string) : bool :=
  List.existsb (fun p => String.eqb (sp_uuid p) uuid) (payloads s).

(** The events on which [processPayload] throws. *)
Definition throwing (s : PayloadStore) (uuid : string) (payload : RayPayload) : bool :=
  nullish (rp_content payload)
  && (String.eqb (rp_type payload) "new_screen"
      || (List.existsb (String.eqb (rp_type payload)) ["color"; "label"; "size"]
          && has_target s uuid)).

(** The directives that look for a target, and those that are ignored. *)
Definition targeted (type : string) : bool :=
  List.existsb (String.eqb type) ["color"; "label"; "size"; "hide"].

Definition ignored (type : string) : bool :=
  List.existsb (String.eqb type) ["show_app"; "hide_app"; "confetti"].

(** The number of entry-creating events of a batch. *)
Definition creations (l : list RayPayload) : nat :=
  length (List.filter (fun payload => creates_entry (rp_type payload)) l).

(** The directives that shorten the history. *)
Definition deleting (type : string) : bool :=
  String.eqb type "clear_all" || String.eqb type "remove".

(** No two values of the list are equal for [===], the later compared to
    the earlier as [Set.prototype.add] does. *)
Definition pairwise_distinct (l : list value) : Prop :=
  forall i j x y, i < j -> l !! i = Some x -> l !! j = Some y -> strict_equal y x = false.

(** ** Vocabulary of the further properties of the classifier *)

(** Every character of [s] is white space. *)
Fixpoint all_space (s : string) : bool :=
  match s with
  | EmptyString => true
  | String c rest => Str.is_space c && all_space rest
  end.

(** The types of the values, as [src/types.ts] declares the fields. *)
Definition is_string (v : value) : bool :=
  match v with JStr _ => true | _ => false end.
Definition is_number (v : value) : bool :=
  match v with JNum _ => true | _ => false end.
Definition is_boolean (v : value) : bool :=
  match v with JBool _ => true | _ => false end.
Definition is_array (v : value) : bool :=
  match v with JArr _ _ => true | _ => false end.
Definition is_object (v : value) : bool :=
  match v with JObj _ _ => true | _ => false end.
Definition is_native (v : value) : bool :=
  match v with JNative _ _ => true | _ => false end.

(** An optional field: absent, or of the type. *)
Definition optional (test : value -> bool) (v : value) : bool :=
  match v with
  | JUndefined => true
  | _ => test v
  end.

(** The field [k] of a content that is an object; [undefined] otherwise. *)
Definition field (content : value) (k : string) : value :=
  match content with
  | JObj _ props =>
      match own_prop k props with
      | Some x => x
      | None => JUndefined
      end
  | _ => JUndefined
  end.

(** The content has the fields that the preview of its tag reads, of the
    types that the interface of the tag declares ([LogContent],
    [ExceptionContent], ...). *)
Definition previewable (type : string) (content : value) : bool :=
  if String.eqb type "log" then is_array (field content "values")
  else if String.eqb type "custom" then is_string (field content "content")
  else if String.eqb type "exception" then
    is_string (field content "class") && is_string (field content "message")
  else if is_query type then is_string (field content "sql")
  else if String.eqb type "table" then is_array (field content "values")
  else if String.eqb type "trace" then is_array (field content "frames")
  else if String.eqb type "notify" then is_string (field content "value")
  else if String.eqb type "measure" then
    is_string (field content "name") && optional is_number (field content "total_time")
  else if String.eqb type "bool" then is_boolean (field content "value")
  else if String.eqb type "null" then true
  else if String.eqb type "carbon" then is_string (field content "formatted")
  else if String.eqb type "application_log" then is_string (field content "value")
  else if is_textual type then
    is_string (field content "content")
    || (is_object content
        && match content with
           | JObj _ props =>
               match own_prop "content" props with Some _ => false | None => true end
           | _ => false
           end
        && is_string (field content "value"))
  else if String.eqb type "json" then
    is_object content && negb (is_native (field content "value"))
  else if String.eqb type "image" then
    is_object content
    && optional is_string (field content "url")
    && optional is_string (field content "path")
  else if String.eqb type "caller" then
    is_string (field (field content "frame") "file_name")
    && is_number (field (field content "frame") "line_number")
  else if String.eqb type "file_contents" then is_string (field content "file")
  else true.

(** ** Object literals used as tables

    [table[key]] on an object literal finds the own property of the
    literal, and otherwise what [Object.prototype] holds under the key. *)

Module Table.

(** The functions that [Object.prototype] holds. *)
Definition Object_prototype_functions : list (string * value) :=
  [("constructor", JNative "Object" 1);
   ("__defineGetter__", JNative "__defineGetter__" 2);
   ("__defineSetter__", JNative "__defineSetter__" 2);
   ("hasOwnProperty", JNative "hasOwnProperty" 1);
   ("__lookupGetter__", JNative "__lookupGetter__" 1);
   ("__lookupSetter__", JNative "__lookupSetter__" 1);
   ("isPrototypeOf", JNative "isPrototypeOf" 1);
   ("propertyIsEnumerable", JNative "propertyIsEnumerable" 1);
   ("toString", JNative "toString" 0);
   ("valueOf", JNative "valueOf" 0);
   ("toLocaleString", JNative "toLocaleString" 0)].

(** What an object literal inherits: the functions, and the accessor
    [__proto__], which answers [Object.prototype] itself (the object at
    address 0). *)
Definition Object_prototype : list (string * value) :=
  Object_prototype_functions
  ++ [("__proto__", JObj 0 Object_prototype_functions)].

(** [table[key]]. *)
Definition get (table : list (string * value)) (key : string) : value :=
  match own_prop key table with
  | Some v => v
  | None =>
      match own_prop key Object_prototype with
      | Some v => v
      | None => JUndefined
      end
  end.

(** [a || b]. *)
Definition or_else (a b : value) : value := if truthy a then a else b.

Definition strings (entries : list (string * string)) : list (string * value) :=
  List.map (fun kv => (fst kv, JStr (snd kv))) entries.

End Table.

(** ** The colours of the types ([getTypeColor]) *)

Module Colors.

Definition colors : list (string * value) :=
  Table.strings
    [("log", "greenBright"); ("custom", "cyanBright"); ("exception", "redBright");
     ("executed_query", "blueBright"); ("slow_query", "yellowBright");
     ("duplicate_query", "magentaBright"); ("table", "cyanBright"); ("trace", "white");
     ("notify", "yellowBright"); ("measure", "blueBright"); ("bool", "greenBright");
     ("null", "white"); ("carbon", "cyanBright"); ("application_log", "greenBright");
     ("text", "whiteBright"); ("html", "magentaBright"); ("xml", "magentaBright");
     ("json", "cyanBright"); ("image", "yellowBright"); ("caller", "white");
     ("file_contents", "blueBright"); ("separator", "white")].

(** [getTypeColor]: [colors[type] || 'whiteBright']. *)
Definition getTypeColor (type : string) : value :=
  Table.or_else (Table.get colors type) (JStr "whiteBright").

(** [payload.color || getTypeColor(payload.type)], the colour that the
    list and the detail panel give an entry. *)
Definition typeColor (payload : StoredPayload) : value :=
  Table.or_else (sp_color payload) (getTypeColor (sp_type payload)).

End Colors.

(** ** The list of payloads ([src/components/PayloadList.tsx]) *)

Module PayloadList.

Definition shortNames : list (string * value) :=
  Table.strings
    [("executed_query", "query"); ("slow_query", "slow"); ("duplicate_query", "dup");
     ("application_log", "app_log"); ("file_contents", "file")].

(** [formatTypeLabel]: [shortNames[type] || type]. *)
Definition formatTypeLabel (type : string) : value :=
  Table.or_else (Table.get shortNames type) (JStr type).

(** [array.slice(start, end)] on integers. *)
Definition slice {A} (l : list A) (start stop : Z) : list A :=
  let len := Z.of_nat (length l) in
  let k := if (start <? 0)%Z then Z.max (len + start) 0 else Z.min start len in
  let final := if (stop <? 0)%Z then Z.max (len + stop) 0 else Z.min stop len in
  take (Z.to_nat (final - k)) (drop (Z.to_nat k) l).

Definition itemHeight : Z := 2.

(** [Math.floor(height / itemHeight)], for a whole number of rows. *)
Definition visibleItems (height : Z) : Z := (height / itemHeight)%Z.

Definition startIndex (selectedIndex height : Z) : Z :=
  if (visibleItems height <=? selectedIndex)%Z
  then (selectedIndex - visibleItems height + 1)%Z
  else 0%Z.

Definition visiblePayloads (payloads : list StoredPayload) (selectedIndex height : Z)
    : list StoredPayload :=
  slice payloads (startIndex selectedIndex height)
    (startIndex selectedIndex height + visibleItems height).

End PayloadList.

(** ** The detail panel ([src/components/PayloadDetail.tsx]) *)

Module PayloadDetail.

(** [formatRelativeTime(date)]; [now] is the reading of [Date.now()]. *)
Definition formatRelativeTime (date : Z) (now : Z) : string :=
  let seconds := ((now - date) / 1000)%Z in
  if (seconds <? 60)%Z then (Z_to_string seconds ++ "s ago")%string
  else
    let minutes := (seconds / 60)%Z in
    if (minutes <? 60)%Z then (Z_to_string minutes ++ "m ago")%string
    else
      let hours := (minutes / 60)%Z in
      (Z_to_string hours ++ "h ago")%string.

End PayloadDetail.

(** ** The language of a file ([FileContentsRenderer]) *)

Module FileContents.

(** [file.split('.').pop()]: the text after the last dot, the whole text
    when there is no dot. *)
Definition last_segment (file : string) : string :=
  match after_last "." file with
  | Some ext => ext
  | None => file
  end.

Definition langMap : list (string * value) :=
  Table.strings
    [("php", "php"); ("js", "javascript"); ("ts", "typescript"); ("jsx", "javascript");
     ("tsx", "typescript"); ("json", "json"); ("html", "html"); ("css", "css");
     ("sql", "sql"); ("py", "python"); ("rb", "ruby"); ("go", "go"); ("rs", "rust");
     ("java", "java"); ("xml", "xml"); ("yml", "yaml"); ("yaml", "yaml");
     ("md", "markdown"); ("sh", "bash"); ("bash", "bash")].

(** [content.file.split('.').pop()?.toLowerCase() || ''] *)
Definition ext (file : string) : string := Str.toLowerCase (last_segment file).

(** [langMap[ext] || 'plaintext'] *)
Definition language (file : string) : value :=
  Table.or_else (Table.get langMap (ext file)) (JStr "plaintext").

End FileContents.

(** ** The port argument ([src/index.tsx]) *)

Module Port.

Fixpoint digits_prefix (s : string) : string :=
  match s with
  | String c rest => if Regex.digit c then String c (digits_prefix rest) else EmptyString
  | EmptyString => EmptyString
  end.

(** The number that a text of decimal digits writes. *)
Definition decimal_value (digits : string) : Z :=
  match NilEmpty.uint_of_string digits with
  | Some u => Z.of_N (N.of_uint u)
  | None => 0%Z
  end.

(** [parseInt(text, 10)]: white space is skipped, a sign is read, then the
    decimal digits up to the first other character; [None] is [NaN]. The
    number is exact here; a number holds it rounded beyond 2^53, which
    does not change how it compares with a port. *)
Definition parseInt (text : string) : option Z :=
  let s := Str.trimStart text in
  let '(negative, s1) :=
    match s with
    | String "-" rest => (true, rest)
    | String "+" rest => (false, rest)
    | _ => (false, s)
    end in
  let digits := digits_prefix s1 in
  if Str.is_empty digits then None
  else Some (if negative then (- decimal_value digits)%Z else decimal_value digits).

(** The port the program listens on, [None] when it exits with
    [Invalid port]: [isNaN(port) || port < 1 || port > 65535]. *)
Definition port_of_argument (argument : string) : option Z :=
  match parseInt argument with
  | None => None
  | Some port => if (port <? 1)%Z || (65535 <? port)%Z then None else Some port
  end.

End Port.

(** The text does not start with a decimal digit. *)
Definition starts_without_digit (s : string) : bool :=
  match s with
  | String c _ => negb (Regex.digit c)
  | EmptyString => true
  end.

(** ** The application: the [App] component that has the search line *)

Module App.

(** [v.toLowerCase().includes(query)]: a call on a value that is no text
    throws. *)
Definition lowered_includes (v : value) (query : string) : completion bool :=
  match v with
  | JStr s => Return (Str.includes (Str.toLowerCase s) query)
  | _ => Throw TypeError
  end.

(** [v?.toLowerCase().includes(query)], as a test reads it. *)
Definition optional_lowered_includes (v : value) (query : string) : completion bool :=
  if nullish v then Return false else lowered_includes v query.

(** The callback of the filter in [filteredPayloads]. *)
Definition matches (query : string) (payload : StoredPayload) : completion bool :=
  if Str.includes (Str.toLowerCase (sp_type payload)) query then Return true
  else
    bind (optional_lowered_includes (sp_label payload) query) (fun in_label =>
    if in_label then Return true
    else
      bind (bind (getPreviewText payload)
              (fun preview => lowered_includes preview query)) (fun in_preview =>
      if in_preview then Return true
      else
        bind (if nullish (sp_origin payload) then Return false
              else bind (get_prop (sp_origin payload) "file")
                     (fun file => lowered_includes file query)) (fun in_file =>
        if in_file then Return true
        else
          bind (if nullish (sp_origin payload) then Return false
                else bind (get_prop (sp_origin payload) "function_name")
                       (fun name => optional_lowered_includes name query))
            (fun in_function => Return in_function)))).

(** [array.filter(callback)] with a callback that may throw. *)
Fixpoint filter {A} (callback : A -> completion bool) (l : list A)
    : completion (list A) :=
  match l with
  | [] => Return []
  | x :: rest =>
      bind (callback x) (fun keep =>
      bind (filter callback rest) (fun kept =>
      Return (if keep then x :: kept else kept)))
  end.

Definition filteredPayloads (payloads : list StoredPayload) (searchQuery : string)
    : completion (list StoredPayload) :=
  if Str.is_empty (Str.trim searchQuery) then Return payloads
  else filter (matches (Str.toLowerCase searchQuery)) payloads.

(** The flags of a key that the handler reads. *)
Record Key : Type := {
  upArrow : bool;
  downArrow : bool;
  pageUp : bool;
  pageDown : bool;
  return_ : bool;
  escape : bool;
  ctrl : bool;
  meta : bool;
  backspace : bool;
  delete : bool
}.

(** The state of the component. *)
Record State : Type := {
  st_payloads : list StoredPayload;
  selectedIndex : Z;
  showHelp : bool;
  followMode : bool;
  searchMode : bool;
  searchQuery : string
}.

Definition set_selectedIndex (st : State) (i : Z) : State :=
  {| st_payloads := st_payloads st; selectedIndex := i; showHelp := showHelp st;
     followMode := followMode st; searchMode := searchMode st;
     searchQuery := searchQuery st |}.
Definition set_showHelp (st : State) (b : bool) : State :=
  {| st_payloads := st_payloads st; selectedIndex := selectedIndex st; showHelp := b;
     followMode := followMode st; searchMode := searchMode st;
     searchQuery := searchQuery st |}.
Definition set_followMode (st : State) (b : bool) : State :=
  {| st_payloads := st_payloads st; selectedIndex := selectedIndex st;
     showHelp := showHelp st; followMode := b; searchMode := searchMode st;
     searchQuery := searchQuery st |}.
Definition set_searchMode (st : State) (b : bool) : State :=
  {| st_payloads := st_payloads st; selectedIndex := selectedIndex st;
     showHelp := showHelp st; followMode := followMode st; searchMode := b;
     searchQuery := searchQuery st |}.
Definition set_searchQuery (st : State) (q : string) : State :=
  {| st_payloads := st_payloads st; selectedIndex := selectedIndex st;
     showHelp := showHelp st; followMode := followMode st;
     searchMode := searchMode st; searchQuery := q |}.

(** What a key does besides changing the state: [exit()] and
    [store.clear()]. *)
Record Outcome : Type := {
  state : State;
  exited : bool;
  cleared : bool
}.

Definition stay (st : State) : Outcome :=
  {| state := st; exited := false; cleared := false |}.

(** The handler of [useInput], on the state and the filtered list of the
    last rendering. *)
Definition useInput (st : State) (filtered : list StoredPayload)
    (input : string) (key : Key) : Outcome :=
  let count := Z.of_nat (length filtered) in
  if showHelp st then stay (set_showHelp st false)
  else if searchMode st then
    if escape key || (return_ key && String.eqb input "") then
      stay (set_searchMode st false)
    else if return_ key then stay (set_searchMode st false)
    else if backspace key || delete key then
      stay (set_searchQuery st (Str.slice0 (searchQuery st) (-1)))
    else if negb (Str.is_empty input) && negb (ctrl key) && negb (meta key) then
      stay (set_searchQuery st (searchQuery st ++ input))
    else stay st
  else if String.eqb input "q" || String.eqb input "Q" then
    {| state := st; exited := true; cleared := false |}
  else if String.eqb input "?" || String.eqb input "h" then
    stay (set_showHelp st true)
  else if String.eqb input "c" || String.eqb input "C" then
    {| state := set_searchQuery (set_selectedIndex st 0) "";
       exited := false; cleared := true |}
  else if String.eqb input "/" || String.eqb input "s" then
    stay (set_followMode (set_searchMode st true) false)
  else if escape key then
    if negb (Str.is_empty (searchQuery st)) then
      stay (set_selectedIndex (set_searchQuery st "") 0)
    else stay st
  else if String.eqb input "f" || String.eqb input "F" then
    let toggled := set_followMode st (negb (followMode st)) in
    if negb (followMode st) then
      stay (set_selectedIndex (set_searchQuery toggled "")
              (Z.max 0 (Z.of_nat (length (st_payloads st)) - 1)))
    else stay toggled
  else if upArrow key || String.eqb input "k" then
    stay (set_selectedIndex (set_followMode st false) (Z.max 0 (selectedIndex st - 1)))
  else if downArrow key || String.eqb input "j" then
    stay (set_selectedIndex (set_followMode st false)
            (Z.min (count - 1) (selectedIndex st + 1)))
  else if String.eqb input "g" then
    stay (set_selectedIndex (set_followMode st false) 0)
  else if String.eqb input "G" then
    stay (set_selectedIndex (set_searchQuery (set_followMode st true) "")
            (Z.max 0 (Z.of_nat (length (st_payloads st)) - 1)))
  else if pageUp key then
    stay (set_selectedIndex (set_followMode st false) (Z.max 0 (selectedIndex st - 10)))
  else if pageDown key then
    stay (set_selectedIndex (set_followMode st false)
            (Z.min (count - 1) (selectedIndex st + 10)))
  else stay st.

(** The effect that follows a rendering: a selection at or past the end of
    the filtered list is put on its last entry. *)
Definition resetSelection (st : State) (filtered : list StoredPayload) : State :=
  let count := Z.of_nat (length filtered) in
  if (count <=? selectedIndex st)%Z then set_selectedIndex st (Z.max 0 (count - 1))
  else st.

End App.

(** ** The store on requests as they arrive

    The server hands the parsed body to [addRequest] after one test of its
    structure; the type [RayRequest] is a cast, nothing checks it. This is
    [src/store.ts] again, on a request whose [uuid] and whose payloads are
    any values that [JSON.parse] builds: an entry carries the [uuid] and
    the [type] it was given, whatever they are. *)

Module Untyped.

Record Entry : Type := {
  up_id : string;
  up_uuid : value;
  up_type : value;
  up_content : value;
  up_origin : value;
  up_meta : value;
  up_timestamp : Z;
  up_color : value;
  up_label : value;
  up_size : value;
  up_screen : value;
  up_hidden : value
}.

(** The fields of [PayloadStore], the listeners counted as in [Store]. *)
Record State : Type := {
  payloads : list Entry;
  currentScreen : value;
  payloadCounter : N;
  notifications : nat
}.

Definition set_payloads (s : State) (ps : list Entry) : State :=
  {| payloads := ps; currentScreen := currentScreen s;
     payloadCounter := payloadCounter s; notifications := notifications s |}.

Definition set_currentScreen (s : State) (v : value) : State :=
  {| payloads := payloads s; currentScreen := v;
     payloadCounter := payloadCounter s; notifications := notifications s |}.

Definition notify (s : State) : State :=
  {| payloads := payloads s; currentScreen := currentScreen s;
     payloadCounter := payloadCounter s; notifications := S (notifications s) |}.

Definition set_color (p : Entry) (v : value) : Entry :=
  {| up_id := up_id p; up_uuid := up_uuid p; up_type := up_type p;
     up_content := up_content p; up_origin := up_origin p; up_meta := up_meta p;
     up_timestamp := up_timestamp p; up_color := v; up_label := up_label p;
     up_size := up_size p; up_screen := up_screen p; up_hidden := up_hidden p |}.

Definition set_label (p : Entry) (v : value) : Entry :=
  {| up_id := up_id p; up_uuid := up_uuid p; up_type := up_type p;
     up_content := up_content p; up_origin := up_origin p; up_meta := up_meta p;
     up_timestamp := up_timestamp p; up_color := up_color p; up_label := v;
     up_size := up_size p; up_screen := up_screen p; up_hidden := up_hidden p |}.

Definition set_size (p : Entry) (v : value) : Entry :=
  {| up_id := up_id p; up_uuid := up_uuid p; up_type := up_type p;
     up_content := up_content p; up_origin := up_origin p; up_meta := up_meta p;
     up_timestamp := up_timestamp p; up_color := up_color p; up_label := up_label p;
     up_size := v; up_screen := up_screen p; up_hidden := up_hidden p |}.

Definition set_hidden (p : Entry) (v : value) : Entry :=
  {| up_id := up_id p; up_uuid := up_uuid p; up_type := up_type p;
     up_content := up_content p; up_origin := up_origin p; up_meta := up_meta p;
     up_timestamp := up_timestamp p; up_color := up_color p; up_label := up_label p;
     up_size := up_size p; up_screen := up_screen p; up_hidden := v |}.

(** The loop of [applyToPayload]; [payload.uuid === uuid] compares
    values. *)
Fixpoint applyToPayload_loop (uuid : value) (modifier : Entry -> completion Entry)
    (ps : list Entry) (n : nat) : list Entry * completion unit :=
  match n with
  | O => (ps, Return tt)
  | S i =>
      match ps !! i with
      | Some payload =>
          if strict_equal (up_uuid payload) uuid then
            match modifier payload with
            | Return payload' => (<[i := payload']> ps, Return tt)
            | Throw e => (ps, Throw e)
            end
          else applyToPayload_loop uuid modifier ps i
      | None => applyToPayload_loop uuid modifier ps i
      end
  end.

Definition applyToPayload (s : State) (uuid : value)
    (modifier : Entry -> completion Entry) : State * completion unit :=
  let '(ps, c) := applyToPayload_loop uuid modifier (payloads s) (length (payloads s)) in
  (set_payloads s ps, c).

(** [processPayload] on any element of the array. The destructuring
    [const { type, content, origin } = payload] throws on [null] and reads
    [undefined] from a primitive and from an array; the [switch] compares
    [type] with its strings by [===], so that a [type] that is no string
    is a regular payload. *)
Definition processPayload (s : State) (uuid : value) (payload : value)
    (meta : value) (timestamp : Z) (now : Z) : State * completion unit :=
  match get_prop payload "type", get_prop payload "content", get_prop payload "origin" with
  | Return type, Return content, Return origin =>
      let storedPayload :=
        {| up_id := make_id now (payloadCounter s);
           up_uuid := uuid;
           up_type := type;
           up_content := content;
           up_origin := origin;
           up_meta := meta;
           up_timestamp := timestamp;
           up_color := JUndefined;
           up_label := JUndefined;
           up_size := JUndefined;
           up_screen := currentScreen s;
           up_hidden := JUndefined |} in
      let regular :=
        ({| payloads := payloads s ++ [storedPayload];
            currentScreen := currentScreen s;
            payloadCounter := incr (payloadCounter s);
            notifications := notifications s |},
         Return tt) in
      match type with
      | JStr tag =>
          if String.eqb tag "color" then
            applyToPayload s uuid
              (fun p => bind (get_prop content "color") (fun v => Return (set_color p v)))
          else if String.eqb tag "label" then
            applyToPayload s uuid
              (fun p => bind (get_prop content "label") (fun v => Return (set_label p v)))
          else if String.eqb tag "size" then
            applyToPayload s uuid
              (fun p => bind (get_prop content "size") (fun v => Return (set_size p v)))
          else if String.eqb tag "new_screen" then
            match get_prop content "name" with
            | Return name => (set_currentScreen s name, Return tt)
            | Throw e => (s, Throw e)
            end
          else if String.eqb tag "clear_all" then
            (set_payloads s [], Return tt)
          else if String.eqb tag "hide" then
            applyToPayload s uuid (fun p => Return (set_hidden p (JBool true)))
          else if String.eqb tag "remove" then
            (set_payloads s
               (List.filter (fun p => negb (strict_equal (up_uuid p) uuid)) (payloads s)),
             Return tt)
          else if String.eqb tag "show_app" || String.eqb tag "hide_app"
                  || String.eqb tag "confetti" then
            (s, Return tt)
          else regular
      | _ => regular
      end
  | _, _, _ => (s, Throw TypeError)
  end.

Fixpoint process_all (s : State) (uuid : value) (meta : value)
    (timestamp : Z) (now : nat -> Z) (i : nat) (l : list value)
    : State * completion unit :=
  match l with
  | [] => (s, Return tt)
  | payload :: rest =>
      match processPayload s uuid payload meta timestamp (now i) with
      | (s', Return _) => process_all s' uuid meta timestamp now (S i) rest
      | (s', Throw e) => (s', Throw e)
      end
  end.

(** [addRequest] on a request whose [payloads] is an array: [uuid],
    [elems] and [meta] are what [request.uuid], [request.payloads] and
    [request.meta] hold. *)
Definition addRequest (s : State) (uuid : value) (elems : list value) (meta : value)
    (timestamp : Z) (now : nat -> Z) : State * completion unit :=
  match process_all s uuid meta timestamp now 0 elems with
  | (s1, Return _) =>
      let s2 :=
        if (MAX_PAYLOADS <? length (payloads s1))%nat
        then set_payloads s1 (drop (length (payloads s1) - MAX_PAYLOADS) (payloads s1))
        else s1 in
      (notify s2, Return tt)
  | (s1, Throw e) => (s1, Throw e)
  end.

(** A store of [Store] seen here: its uuids and its types are strings. *)
Definition of_entry (p : StoredPayload) : Entry :=
  {| up_id := sp_id p; up_uuid := JStr (sp_uuid p); up_type := JStr (sp_type p);
     up_content := sp_content p; up_origin := sp_origin p; up_meta := sp_meta p;
     up_timestamp := sp_timestamp p; up_color := sp_color p; up_label := sp_label p;
     up_size := sp_size p; up_screen := sp_screen p; up_hidden := sp_hidden p |}.

Definition of_store (s : PayloadStore) : State :=
  {| payloads := List.map of_entry (Store.payloads s);
     currentScreen := Store.currentScreen s;
     payloadCounter := Store.payloadCounter s;
     notifications := Store.notifications s |}.

End Untyped.

(** ** The server ([src/server.ts]) *)

Module Server.

Definition DEFAULT_PORT : Z := 23517.

Record Response : Type := {
  status : Z;
  body : option string;
  headers : list (string * string)
}.

Definition preflight : Response :=
  {| status := 200; body := None;
     headers := [("Access-Control-Allow-Origin", "*");
                 ("Access-Control-Allow-Methods", "POST, OPTIONS");
                 ("Access-Control-Allow-Headers", "Content-Type")] |}.
Definition method_not_allowed : Response :=
  {| status := 405; body := Some "Method not allowed"; headers := [] |}.
Definition invalid_structure : Response :=
  {| status := 400; body := Some "Invalid payload structure"; headers := [] |}.
Definition ok : Response :=
  {| status := 200; body := Some "OK";
     headers := [("Access-Control-Allow-Origin", "*")] |}.
Definition invalid_json : Response :=
  {| status := 400; body := Some "Invalid JSON"; headers := [] |}.

Definition isArray (v : value) : bool :=
  match v with JArr _ _ => true | _ => false end.

(** The handler [fetch] on the store: the method of the request, the
    outcome of [req.json()] ([None] when it rejects), and the clock that
    [addRequest] reads. An exception of the [try] block is answered by
    its [catch]. *)
Definition fetch (s : Untyped.State) (method : string) (json : option value)
    (timestamp : Z) (now : nat -> Z) : Untyped.State * Response :=
  if String.eqb method "OPTIONS" then (s, preflight)
  else if negb (String.eqb method "POST") then (s, method_not_allowed)
  else
    match json with
    | None => (s, invalid_json)
    | Some rayRequest =>
        match get_prop rayRequest "uuid" with
        | Throw _ => (s, invalid_json)
        | Return uuid =>
            if negb (truthy uuid) then (s, invalid_structure)
            else
              match get_prop rayRequest "payloads" with
              | Throw _ => (s, invalid_json)
              | Return (JArr _ elems) =>
                  match get_prop rayRequest "meta" with
                  | Throw _ => (s, invalid_json)
                  | Return meta =>
                      match Untyped.addRequest s uuid elems meta timestamp now with
                      | (s', Return _) => (s', ok)
                      | (s', Throw _) => (s', invalid_json)
                      end
                  end
              | Return _ => (s, invalid_structure)
              end
        end
    end.

End Server.

(** ** Vocabulary of the properties of the server *)

(** The value of a property of an object, [undefined] when it is absent. *)
Definition property (props : list (string * value)) (k : string) : value :=
  match own_prop k props with
  | Some v => v
  | None => JUndefined
  end.

(** The bodies that have the types of [RayRequest], read at these types:
    an object with a text [uuid] and an array [payloads] of objects with a
    text [type]. *)
Definition typed_payload (v : value) : option RayPayload :=
  match v with
  | JObj _ props =>
      match property props "type" with
      | JStr type =>
          Some {| rp_type := type; rp_content := property props "content";
                  rp_origin := property props "origin" |}
      | _ => None
      end
  | _ => None
  end.

Fixpoint typed_payloads (l : list value) : option (list RayPayload) :=
  match l with
  | [] => Some []
  | v :: rest =>
      match typed_payload v, typed_payloads rest with
      | Some payload, Some payloads => Some (payload :: payloads)
      | _, _ => None
      end
  end.

Definition typed_request (body : value) : option RayRequest :=
  match body with
  | JObj _ props =>
      match property props "uuid", property props "payloads" with
      | JStr uuid, JArr _ elems =>
          match typed_payloads elems with
          | Some payloads =>
              Some {| rq_uuid := uuid; rq_payloads := payloads;
                      rq_meta := property props "meta" |}
          | None => None
          end
      | _, _ => None
      end
  | _ => None
  end.

(** Keys and states of the examples. *)
Definition plain_key : App.Key :=
  {| App.upArrow := false; App.downArrow := false; App.pageUp := false;
     App.pageDown := false; App.return_ := false; App.escape := false;
     App.ctrl := false; App.meta := false; App.backspace := false;
     App.delete := false |}.

Definition down_key : App.Key :=
  {| App.upArrow := false; App.downArrow := true; App.pageUp := false;
     App.pageDown := false; App.return_ := false; App.escape := false;
     App.ctrl := false; App.meta := false; App.backspace := false;
     App.delete := false |}.

Definition backspace_key : App.Key :=
  {| App.upArrow := false; App.downArrow := false; App.pageUp := false;
     App.pageDown := false; App.return_ := false; App.escape := false;
     App.ctrl := false; App.meta := false; App.backspace := true;
     App.delete := false |}.

Definition browsing (l : list StoredPayload) (i : Z) (query : string) : App.State :=
  {| App.st_payloads := l; App.selectedIndex := i; App.showHelp := false;
     App.followMode := true; App.searchMode := false; App.searchQuery := query |}.

(** * Properties *)

(** ** The cases of [processPayload] *)

Section Cases.

Variables (s : PayloadStore) (uuid : string) (payload : RayPayload)
          (meta : value) (timestamp now : Z).

Lemma set_payloads_same : set_payloads s (payloads s) = s.
Proof. by destruct s. Qed.

Lemma creates_entry_tests :
  creates_entry (rp_type payload) = true ->
  String.eqb (rp_type payload) "color" = false
  /\ String.eqb (rp_type payload) "label" = false
  /\ String.eqb (rp_type payload) "size" = false
  /\ String.eqb (rp_type payload) "new_screen" = false
  /\ String.eqb (rp_type payload) "clear_all" = false
  /\ String.eqb (rp_type payload) "hide" = false
  /\ String.eqb (rp_type payload) "remove" = false
  /\ String.eqb (rp_type payload) "show_app" = false
  /\ String.eqb (rp_type payload) "hide_app" = false
  /\ String.eqb (rp_type payload) "confetti" = false.
Proof.
  unfold creates_entry, directive_types. cbn [List.existsb].
  rewrite negb_true_iff, !orb_false_iff. tauto.
Qed.

Lemma processPayload_create :
  creates_entry (rp_type payload) = true ->
  processPayload s uuid payload meta timestamp now
  = (with_entry s (new_entry s uuid payload meta timestamp now), Return tt).
Proof.
  intros H. apply creates_entry_tests in H.
  destruct H as (H1 & H2 & H3 & H4 & H5 & H6 & H7 & H8 & H9 & H10).
  unfold processPayload. cbv zeta.
  rewrite H1, H2, H3, H4, H5, H6, H7, H8, H9, H10. reflexivity.
Qed.

Lemma processPayload_new_screen :
  rp_type payload = "new_screen" ->
  processPayload s uuid payload meta timestamp now
  = match get_prop (rp_content payload) "name" with
    | Return name => (set_currentScreen s name, Return tt)
    | Throw e => (s, Throw e)
    end.
Proof. intros H. unfold processPayload. rewrite H. reflexivity. Qed.

Lemma processPayload_clear_all :
  rp_type payload = "clear_all" ->
  processPayload s uuid payload meta timestamp now = (set_payloads s [], Return tt).
Proof. intros H. unfold processPayload. rewrite H. reflexivity. Qed.

Lemma processPayload_remove :
  rp_type payload = "remove" ->
  processPayload s uuid payload meta timestamp now
  = (set_payloads s
       (List.filter (fun p => negb (String.eqb (sp_uuid p) uuid)) (payloads s)),
     Return tt).
Proof. intros H. unfold processPayload. rewrite H. reflexivity. Qed.

Lemma processPayload_ignored :
  rp_type payload = "show_app" \/ rp_type payload = "hide_app"
  \/ rp_type payload = "confetti" ->
  processPayload s uuid payload meta timestamp now = (s, Return tt).
Proof.
  intros [H | [H | H]]; unfold processPayload; rewrite H; reflexivity.
Qed.

Lemma processPayload_color :
  rp_type payload = "color" ->
  processPayload s uuid payload meta timestamp now
  = applyToPayload s uuid
      (fun p => bind (get_prop (rp_content payload) "color")
                  (fun v => Return (set_color p v))).
Proof. intros H. unfold processPayload. rewrite H. reflexivity. Qed.

Lemma processPayload_label :
  rp_type payload = "label" ->
  processPayload s uuid payload meta timestamp now
  = applyToPayload s uuid
      (fun p => bind (get_prop (rp_content payload) "label")
                  (fun v => Return (set_label p v))).
Proof. intros H. unfold processPayload. rewrite H. reflexivity. Qed.

Lemma processPayload_size :
  rp_type payload = "size" ->
  processPayload s uuid payload meta timestamp now
  = applyToPayload s uuid
      (fun p => bind (get_prop (rp_content payload) "size")
                  (fun v => Return (set_size p v))).
Proof. intros H. unfold processPayload. rewrite H. reflexivity. Qed.

Lemma processPayload_hide :
  rp_type payload = "hide" ->
  processPayload s uuid payload meta timestamp now
  = applyToPayload s uuid (fun p => Return (set_hidden p (JBool true))).
Proof. intros H. unfold processPayload. rewrite H. reflexivity. Qed.

(** Every tag falls in one of the cases. *)
Lemma type_cases :
  creates_entry (rp_type payload) = true
  \/ rp_type payload = "color" \/ rp_type payload = "label"
  \/ rp_type payload = "size" \/ rp_type payload = "hide"
  \/ rp_type payload = "new_screen" \/ rp_type payload = "clear_all"
  \/ rp_type payload = "remove"
  \/ (rp_type payload = "show_app" \/ rp_type payload = "hide_app"
      \/ rp_type payload = "confetti").
Proof.
  destruct (creates_entry (rp_type payload)) eqn:E; [by left | right].
  unfold creates_entry, directive_types in E. cbn [List.existsb] in E.
  rewrite negb_false_iff, !orb_true_iff in E.
  rewrite !String.eqb_eq in E. intuition discriminate.
Qed.

End Cases.

(** ** The scan of [applyToPayload] *)

Section Scan.

Variables (uuid : string) (modifier : StoredPayload -> completion StoredPayload).

Lemma other_eqb p : other uuid p -> String.eqb (sp_uuid p) uuid = false.
Proof. intros H. by apply String.eqb_neq. Qed.

Lemma loop_none ps n :
  Forall (other uuid) ps -> applyToPayload_loop uuid modifier ps n = (ps, Return tt).
Proof.
  intros Hall. induction n as [|i IH]; [reflexivity|]. simpl.
  destruct (ps !! i) as [p|] eqn:E; [|exact IH].
  rewrite other_eqb; [exact IH|].
  eapply Forall_lookup_1; eauto.
Qed.

Lemma loop_found pre p post k :
  sp_uuid p = uuid -> Forall (other uuid) post -> k <= length post ->
  applyToPayload_loop uuid modifier (pre ++ p :: post) (length pre + 1 + k)
  = match modifier p with
    | Return p' => (pre ++ p' :: post, Return tt)
    | Throw e => (pre ++ p :: post, Throw e)
    end.
Proof.
  intros Hp Hpost. induction k as [|k IH]; intros Hk.
  - replace (length pre + 1 + 0) with (S (length pre)) by lia. simpl.
    rewrite list_lookup_middle by reflexivity.
    rewrite Hp, String.eqb_refl.
    destruct (modifier p) as [p'|e]; [|reflexivity].
    rewrite insert_app_r_alt by lia.
    replace (length pre - length pre) with 0 by lia. reflexivity.
  - replace (length pre + 1 + S k) with (S (length pre + 1 + k)) by lia. simpl.
    rewrite lookup_app_r by lia.
    replace (length pre + 1 + k - length pre) with (S k) by lia. simpl.
    destruct (post !! k) as [q|] eqn:E; [|apply IH; lia].
    rewrite other_eqb; [apply IH; lia|].
    eapply Forall_lookup_1; eauto.
Qed.

(** Either no payload carries the uuid, or there is a last one that does. *)
Lemma scan_cases (ps : list StoredPayload) :
  Forall (other uuid) ps
  \/ exists pre p post,
      ps = pre ++ p :: post /\ sp_uuid p = uuid /\ Forall (other uuid) post.
Proof.
  induction ps as [|a l IH]; [left; constructor|].
  destruct IH as [Hnone | (pre & p & post & -> & Hp & Hpost)].
  - destruct (String.eqb (sp_uuid a) uuid) eqn:E.
    + right. exists [], a, l. apply String.eqb_eq in E. auto.
    + left. constructor; [by apply String.eqb_neq | exact Hnone].
  - right. exists (a :: pre), p, post. auto.
Qed.

Lemma applyToPayload_none s :
  Forall (other uuid) (payloads s) -> applyToPayload s uuid modifier = (s, Return tt).
Proof.
  intros H. unfold applyToPayload. rewrite loop_none by exact H.
  by rewrite set_payloads_same.
Qed.

Lemma applyToPayload_found s pre p post :
  payloads s = pre ++ p :: post -> sp_uuid p = uuid -> Forall (other uuid) post ->
  applyToPayload s uuid modifier
  = match modifier p with
    | Return p' => (set_payloads s (pre ++ p' :: post), Return tt)
    | Throw e => (s, Throw e)
    end.
Proof.
  intros Hs Hp Hpost. unfold applyToPayload. rewrite Hs.
  replace (length (pre ++ p :: post)) with (length pre + 1 + length post)
    by (rewrite length_app; simpl; lia).
  rewrite loop_found by (auto; lia).
  destruct (modifier p); [reflexivity|].
  by rewrite <- Hs, set_payloads_same.
Qed.

End Scan.

(** ** Identifiers *)

Lemma after_last_digits u : after_last "-" (NilEmpty.string_of_uint u) = None.
Proof. induction u; simpl; try rewrite IHu; reflexivity. Qed.

Lemma after_last_app c a d :
  after_last c d = None -> after_last c (a ++ String c d)%string = Some d.
Proof.
  intros H. induction a as [|x a IH]; simpl.
  - by rewrite H, Ascii.eqb_refl.
  - by rewrite IH.
Qed.

Lemma id_counter_make_id now c : id_counter (make_id now c) = Some c.
Proof.
  unfold id_counter, make_id, N_to_string. simpl String.append.
  rewrite after_last_app by apply after_last_digits.
  rewrite NilEmpty.usu. simpl. by rewrite DecimalN.Unsigned.of_to.
Qed.

Lemma id_lt_irrefl a : ~ id_lt a a.
Proof. intros (m & n & Hm & Hn & Hlt). rewrite Hm in Hn. inversion Hn. lia. Qed.

Lemma id_lt_sorted_NoDup ids : StronglySorted id_lt ids -> NoDup ids.
Proof.
  induction 1 as [|a l Hs IH Hall]; constructor; [|exact IH].
  intros Hin. rewrite Forall_forall in Hall. exact (id_lt_irrefl a (Hall a Hin)).
Qed.

Lemma sublist_sorted (R : string -> string -> Prop) (l1 l2 : list string) :
  sublist l1 l2 -> StronglySorted R l2 -> StronglySorted R l1.
Proof.
  induction 1 as [|x l1 l2 Hsub IH|x l1 l2 Hsub IH]; intros Hs.
  - constructor.
  - apply StronglySorted_cons in Hs as [Hall Hs]. apply StronglySorted_cons. split; [|auto].
    eapply Forall_forall. intros y Hy. rewrite Forall_forall in Hall. apply Hall.
    eapply sublist_subseteq; eauto.
  - apply StronglySorted_cons in Hs as [_ Hs]. auto.
Qed.

Lemma filter_sublist {A} (f : A -> bool) (l : list A) : sublist (List.filter f l) l.
Proof.
  induction l as [|a l IH]; simpl; [constructor|].
  destruct (f a); by constructor.
Qed.

Lemma map_sublist {A B} (f : A -> B) (l1 l2 : list A) :
  sublist l1 l2 -> sublist (List.map f l1) (List.map f l2).
Proof. induction 1; simpl; by constructor. Qed.

Lemma slice_last_sublist n ps : sublist (slice_last n ps) ps.
Proof. apply sublist_drop. Qed.

(** ** The invariant of the identifiers *)

Lemma store_ok_init : store_ok Store.store.
Proof. repeat split; constructor. Qed.

Lemma store_ok_sorted s : store_ok s -> StronglySorted id_lt (List.map sp_id (payloads s)).
Proof. intros (Hs & _ & Hsub). eapply sublist_sorted; eauto. Qed.

Lemma store_ok_NoDup s : store_ok s -> NoDup (List.map sp_id (payloads s)).
Proof. intros H. by apply id_lt_sorted_NoDup, store_ok_sorted. Qed.

Lemma store_ok_issued_NoDup s : store_ok s -> NoDup (issued s).
Proof. intros (Hs & _). by apply id_lt_sorted_NoDup. Qed.

(** Replacing the history by part of it keeps the invariant. *)
Lemma store_ok_set_payloads s ps :
  store_ok s -> sublist (List.map sp_id ps) (List.map sp_id (payloads s)) ->
  store_ok (set_payloads s ps).
Proof.
  intros (Hs & Hb & Hsub) H. repeat split; simpl; auto.
  by etrans.
Qed.

Lemma store_ok_notify s : store_ok s -> store_ok (notify s).
Proof. intros (Hs & Hb & Hsub). by repeat split. Qed.

Lemma store_ok_set_currentScreen s v : store_ok s -> store_ok (set_currentScreen s v).
Proof. intros (Hs & Hb & Hsub). by repeat split. Qed.

Lemma incr_below n : (n < MAX_EXACT)%N -> incr n = (n + 1)%N.
Proof. intros H. unfold incr. apply N.ltb_lt in H. by rewrite H. Qed.

Lemma incr_le n : (n <= incr n)%N.
Proof. unfold incr. destruct (n <? MAX_EXACT)%N; lia. Qed.

(** The identifier of a new entry is above all those handed out. *)
Lemma issued_before_new s now :
  store_ok s -> Forall (fun old => id_lt old (make_id now (payloadCounter s))) (issued s).
Proof.
  intros (_ & Hb & _). eapply Forall_impl; [exact Hb|].
  intros old (c & Hc & Hlt). exists c, (payloadCounter s).
  by rewrite id_counter_make_id.
Qed.

Lemma store_ok_with_entry s uuid payload meta timestamp now :
  store_ok s -> (payloadCounter s < MAX_EXACT)%N ->
  store_ok (with_entry s (new_entry s uuid payload meta timestamp now)).
Proof.
  intros Hok Hlt. pose proof (issued_before_new s now Hok) as Hnew.
  destruct Hok as (Hs & Hb & Hsub). repeat split; simpl.
  - apply StronglySorted_app. split; [|split].
    + intros x1 x2 H1 H2. apply list_elem_of_singleton in H2 as ->.
      rewrite Forall_forall in Hnew. by apply Hnew.
    + exact Hs.
    + repeat constructor.
  - rewrite incr_below by exact Hlt. apply Forall_app. split.
    + eapply Forall_impl; [exact Hb|]. intros old (c & Hc & Hc'). exists c. split; [done|lia].
    + constructor; [|constructor]. exists (payloadCounter s).
      rewrite id_counter_make_id. split; [done|lia].
  - rewrite map_app. simpl. by apply sublist_app.
Qed.

(** ** What one event changes *)

Section Step.

Variables (s : PayloadStore) (uuid : string) (payload : RayPayload)
          (meta : value) (timestamp now : Z).

(** A modifier that leaves the stamp alone leaves every stamp alone. *)
Lemma applyToPayload_frame (modifier : StoredPayload -> completion StoredPayload) :
  (forall p p', modifier p = Return p' -> stamp p' = stamp p) ->
  List.map stamp (payloads (fst (applyToPayload s uuid modifier)))
  = List.map stamp (payloads s)
  /\ issued (fst (applyToPayload s uuid modifier)) = issued s
  /\ payloadCounter (fst (applyToPayload s uuid modifier)) = payloadCounter s
  /\ currentScreen (fst (applyToPayload s uuid modifier)) = currentScreen s.
Proof.
  intros Hm.
  destruct (scan_cases uuid (payloads s)) as [Hnone | (pre & p & post & Hs & Hp & Hpost)].
  - by rewrite applyToPayload_none.
  - rewrite (applyToPayload_found uuid modifier s pre p post) by assumption.
    destruct (modifier p) as [p'|e] eqn:E; [|done]. simpl.
    rewrite Hs, !map_app. simpl. by rewrite (Hm p p' E).
Qed.

(** A directive creates nothing: it keeps or drops what is stored, and
    never touches a stamp, the counter or the identifiers handed out. *)
Lemma directive_frame :
  creates_entry (rp_type payload) = false ->
  let s' := fst (processPayload s uuid payload meta timestamp now) in
  sublist (List.map stamp (payloads s')) (List.map stamp (payloads s))
  /\ issued s' = issued s /\ payloadCounter s' = payloadCounter s.
Proof.
  intros Hc. cbv zeta.
  destruct (type_cases payload) as [H|[H|[H|[H|[H|[H|[H|[H|H]]]]]]]].
  - congruence.
  - rewrite processPayload_color by exact H.
    edestruct applyToPayload_frame as (-> & -> & -> & _); [|done].
    intros p p'. destruct (get_prop _ _); simpl; [|done]. by intros [= <-].
  - rewrite processPayload_label by exact H.
    edestruct applyToPayload_frame as (-> & -> & -> & _); [|done].
    intros p p'. destruct (get_prop _ _); simpl; [|done]. by intros [= <-].
  - rewrite processPayload_size by exact H.
    edestruct applyToPayload_frame as (-> & -> & -> & _); [|done].
    intros p p'. destruct (get_prop _ _); simpl; [|done]. by intros [= <-].
  - rewrite processPayload_hide by exact H.
    edestruct applyToPayload_frame as (-> & -> & -> & _); [|done].
    intros p p'. by intros [= <-].
  - rewrite processPayload_new_screen by exact H.
    by destruct (get_prop _ _).
  - rewrite processPayload_clear_all by exact H. simpl.
    split; [apply sublist_nil_l | done].
  - rewrite processPayload_remove by exact H. simpl.
    split; [apply map_sublist, filter_sublist | done].
  - by rewrite processPayload_ignored.
Qed.

Lemma step_counter :
  let s' := fst (processPayload s uuid payload meta timestamp now) in
  (payloadCounter s <= payloadCounter s' <= payloadCounter s + 1)%N.
Proof.
  cbv zeta.
  destruct (creates_entry (rp_type payload)) eqn:E.
  - rewrite processPayload_create by exact E. simpl.
    unfold incr. destruct (_ <? _)%N; lia.
  - destruct (directive_frame E) as (_ & _ & ->). lia.
Qed.

Lemma step_ok :
  store_ok s -> (payloadCounter s < MAX_EXACT)%N ->
  store_ok (fst (processPayload s uuid payload meta timestamp now)).
Proof.
  intros Hok Hlt. destruct (creates_entry (rp_type payload)) eqn:E.
  - rewrite processPayload_create by exact E. by apply store_ok_with_entry.
  - destruct (directive_frame E) as (Hsub & Hi & Hc).
    destruct Hok as (Hs & Hb & Hsub'). repeat split.
    + by rewrite Hi.
    + by rewrite Hi, Hc.
    + rewrite Hi. etrans; [|exact Hsub'].
      apply (map_sublist fst) in Hsub. apply (map_sublist fst) in Hsub.
      apply (map_sublist fst) in Hsub.
      by rewrite !List.map_map in Hsub.
Qed.

(** Where an entry of the next store comes from. *)
Lemma step_origin p :
  p ∈ payloads (fst (processPayload s uuid payload meta timestamp now)) ->
  (exists p0, p0 ∈ payloads s /\ stamp p = stamp p0)
  \/ (creates_entry (rp_type payload) = true
      /\ p = new_entry s uuid payload meta timestamp now).
Proof.
  destruct (creates_entry (rp_type payload)) eqn:E.
  - rewrite processPayload_create by exact E. simpl.
    intros [H | H%list_elem_of_singleton]%elem_of_app; eauto.
  - destruct (directive_frame E) as (Hsub & _). intros Hp. left.
    assert (stamp p ∈ List.map stamp (payloads s)) as Hin.
    { eapply sublist_subseteq; [exact Hsub|]. apply list_elem_of_In, in_map.
      by apply list_elem_of_In. }
    apply list_elem_of_In, in_map_iff in Hin as (p0 & Heq & Hin).
    exists p0. split; [by apply list_elem_of_In | done].
Qed.

End Step.

(** ** What one batch changes *)

Lemma slice_last_short n (ps : list StoredPayload) :
  length ps <= n -> slice_last n ps = ps.
Proof. intros H. unfold slice_last. by replace (length ps - n) with 0 by lia. Qed.

Lemma slice_last_length n (ps : list StoredPayload) :
  length (slice_last n ps) = Nat.min n (length ps).
Proof. unfold slice_last. rewrite length_drop. lia. Qed.

Lemma slice_last_app n (ps qs : list StoredPayload) :
  slice_last n (slice_last n ps ++ qs) = slice_last n (ps ++ qs).
Proof.
  destruct (Nat.le_gt_cases (length ps) n) as [H|H].
  - by rewrite (slice_last_short n ps).
  - unfold slice_last at 1 3. rewrite !length_app, slice_last_length.
    unfold slice_last.
    replace (length ps + length qs - n) with (length ps - n + length qs) by lia.
    replace (n `min` length ps + length qs - n) with (length qs) by lia.
    rewrite <- (drop_drop (ps ++ qs)).
    by rewrite (drop_app_le ps qs) by lia.
Qed.

(** The two branches of the trimming test give the same history. *)
Lemma addRequest_eq s request timestamp now :
  addRequest s request timestamp now
  = match process_all s (rq_uuid request) (rq_meta request) timestamp now 0
            (rq_payloads request) with
    | (s1, Return _) =>
        (notify (set_payloads s1 (slice_last MAX_PAYLOADS (payloads s1))), Return tt)
    | (s1, Throw e) => (s1, Throw e)
    end.
Proof.
  unfold addRequest. destruct (process_all _ _ _ _ _ _ _) as [s1 [[]|e]]; [|done].
  destruct (MAX_PAYLOADS <? length (payloads s1))%nat eqn:E; [done|].
  apply Nat.ltb_ge in E. by rewrite slice_last_short, set_payloads_same.
Qed.

Section Batch.

Variables (uuid : string) (meta : value) (timestamp : Z) (now : nat -> Z).

Lemma process_all_app l1 l2 : forall s i,
  process_all s uuid meta timestamp now i (l1 ++ l2)
  = match process_all s uuid meta timestamp now i l1 with
    | (s1, Return _) => process_all s1 uuid meta timestamp now (i + length l1) l2
    | (s1, Throw e) => (s1, Throw e)
    end.
Proof.
  induction l1 as [|a l1 IH]; intros s i; simpl.
  - by replace (i + 0) with i by lia.
  - destruct (processPayload _ _ _ _ _ _) as [s1 [[]|e]]; [|done].
    rewrite IH. by replace (S i + length l1) with (i + S (length l1)) by lia.
Qed.

(** The identifiers stay in order as long as the counter is exact. *)
Lemma process_all_ok l : forall s i,
  store_ok s -> (payloadCounter s + N.of_nat (length l) <= MAX_EXACT)%N ->
  store_ok (fst (process_all s uuid meta timestamp now i l))
  /\ (payloadCounter s
      <= payloadCounter (fst (process_all s uuid meta timestamp now i l))
      <= payloadCounter s + N.of_nat (length l))%N.
Proof.
  induction l as [|a l IH]; intros s i Hok Hle; simpl.
  - split; [done|lia].
  - simpl length in Hle.
    pose proof (step_ok s uuid a meta timestamp (now i) Hok ltac:(lia)) as H1.
    pose proof (step_counter s uuid a meta timestamp (now i)) as H2.
    cbv zeta in H2.
    destruct (processPayload _ _ _ _ _ _) as [s1 [[]|e]]; simpl in *.
    + destruct (IH s1 (S i) H1 ltac:(lia)) as [H3 H4]. split; [done|lia].
    + split; [done|lia].
Qed.

(** An entry of the store a batch leaves was there before, or carries
    the time of the batch. *)
Lemma process_all_origin l : forall s i p,
  p ∈ payloads (fst (process_all s uuid meta timestamp now i l)) ->
  (exists p0, p0 ∈ payloads s /\ stamp p = stamp p0) \/ sp_timestamp p = timestamp.
Proof.
  induction l as [|a l IH]; intros s i p; simpl.
  - intros H. left. by exists p.
  - pose proof (step_origin s uuid a meta timestamp (now i)) as H1.
    assert (forall q, q ∈ payloads (fst (processPayload s uuid a meta timestamp (now i))) ->
              (exists p0, p0 ∈ payloads s /\ stamp q = stamp p0)
              \/ sp_timestamp q = timestamp) as H2.
    { intros q Hq. destruct (H1 q Hq) as [H | [_ ->]]; [by left | by right]. }
    clear H1. destruct (processPayload _ _ _ _ _ _) as [s1 [[]|e]]; simpl in *.
    + intros Hp. destruct (IH s1 (S i) p Hp) as [(p1 & Hin1 & Heq1) | H]; [|by right].
      destruct (H2 p1 Hin1) as [(p0 & Hin0 & Heq0) | H].
      * left. exists p0. split; [done | congruence].
      * right. unfold stamp in Heq1. congruence.
    + apply H2.
Qed.

(** The identifiers a batch hands out extend those handed out before. *)
Lemma process_all_issued l : forall s i,
  exists ids, issued (fst (process_all s uuid meta timestamp now i l)) = issued s ++ ids.
Proof.
  induction l as [|a l IH]; intros s i; simpl.
  - exists []. by rewrite app_nil_r.
  - assert (exists ids, issued (fst (processPayload s uuid a meta timestamp (now i)))
                        = issued s ++ ids) as (ids1 & H1).
    { destruct (creates_entry (rp_type a)) eqn:E.
      - rewrite processPayload_create by exact E. simpl. eauto.
      - destruct (directive_frame s uuid a meta timestamp (now i) E) as (_ & -> & _).
        exists []. by rewrite app_nil_r. }
    destruct (processPayload _ _ _ _ _ _) as [s1 [[]|e]]; simpl in *; [|eauto].
    destruct (IH s1 (S i)) as (ids2 & ->). rewrite H1, <- app_assoc. eauto.
Qed.

End Batch.

Lemma addRequest_ok s request timestamp now :
  store_ok s ->
  (payloadCounter s + N.of_nat (length (rq_payloads request)) <= MAX_EXACT)%N ->
  store_ok (fst (addRequest s request timestamp now))
  /\ (payloadCounter s <= payloadCounter (fst (addRequest s request timestamp now))
      <= payloadCounter s + N.of_nat (length (rq_payloads request)))%N.
Proof.
  intros Hok Hle. rewrite addRequest_eq.
  destruct (process_all_ok (rq_uuid request) (rq_meta request) timestamp now
              (rq_payloads request) s 0 Hok Hle) as [H1 H2].
  destruct (process_all _ _ _ _ _ _ _) as [s1 [[]|e]]; simpl in *; [|done].
  split; [|done]. apply store_ok_notify, store_ok_set_payloads; [done|].
  apply map_sublist, slice_last_sublist.
Qed.

Lemma store_ok_clear s : store_ok s -> store_ok (clear s).
Proof.
  intros H. apply store_ok_notify, store_ok_set_payloads; [done|]. apply sublist_nil_l.
Qed.

(** Every store reached from the new one satisfies the invariant, as long
    as the counter is exact. *)
Lemma run_ok calls : forall s,
  store_ok s -> (payloadCounter s + N.of_nat (events calls) <= MAX_EXACT)%N ->
  store_ok (fst (run s calls)).
Proof.
  induction calls as [|c calls IH]; intros s Hok Hle; [exact Hok|].
  simpl in *.
  destruct (addRequest_ok s (call_request c) (call_timestamp c) (call_now c) Hok
              ltac:(lia)) as [H1 H2].
  destruct (addRequest _ _ _ _) as [s1 [[]|e]]; simpl in *; [|exact H1].
  apply IH; [exact H1 | lia].
Qed.

(** ** Retention *)

Lemma process_all_creating uuid meta timestamp now l : forall s i,
  Forall (fun payload => creates_entry (rp_type payload) = true) l ->
  (payloadCounter s + N.of_nat (length l) <= MAX_EXACT)%N ->
  exists s1,
    process_all s uuid meta timestamp now i l = (s1, Return tt)
    /\ payloads s1
       = payloads s
         ++ imap (created_entry uuid meta timestamp (fun k => now (i + k))
                    (payloadCounter s) (currentScreen s)) l.
Proof.
  induction l as [|a l IH]; intros s i Hall Hle.
  - exists s. split; [reflexivity|]. simpl. by rewrite app_nil_r.
  - apply Forall_cons in Hall as [Ha Hall]. simpl in Hle |- *.
    rewrite processPayload_create by exact Ha.
    destruct (IH (with_entry s (new_entry s uuid a meta timestamp (now i))) (S i) Hall)
      as (s1 & Hrun & Hps).
    { simpl. rewrite incr_below by lia. lia. }
    exists s1. split; [exact Hrun|]. rewrite Hps. simpl.
    rewrite <- app_assoc. simpl. f_equal. f_equal.
    + unfold new_entry, created_entry. simpl.
      by rewrite Nat.add_0_r, N.add_0_r.
    + apply imap_ext. intros k x _. unfold created_entry. simpl.
      rewrite incr_below by lia.
      replace (i + S k) with (S (i + k)) by lia.
      by replace (payloadCounter s + 1 + N.of_nat k)%N
        with (payloadCounter s + N.of_nat (S k))%N by lia.
Qed.

Lemma process_all_creating_uuid uuid meta timestamp now l : forall s i,
  Forall (fun payload => creates_entry (rp_type payload) = true) l ->
  exists s1 news,
    process_all s uuid meta timestamp now i l = (s1, Return tt)
    /\ payloads s1 = payloads s ++ news
    /\ Forall (fun p => sp_uuid p = uuid) news
    /\ List.map summary news
       = List.map (fun payload => (uuid, rp_type payload, rp_content payload)) l.
Proof.
  induction l as [|a l IH]; intros s i Hall.
  - exists s, []. split; [reflexivity|]. split; [by rewrite app_nil_r|].
    split; [constructor | reflexivity].
  - apply Forall_cons in Hall as [Ha Hall]. simpl.
    rewrite processPayload_create by exact Ha.
    destruct (IH (with_entry s (new_entry s uuid a meta timestamp (now i))) (S i) Hall)
      as (s1 & news & Hrun & Hps & Hnews & Hsum).
    exists s1, (new_entry s uuid a meta timestamp (now i) :: news).
    split; [exact Hrun|]. split; [|split].
    + rewrite Hps. simpl. by rewrite <- app_assoc.
    + by constructor.
    + simpl. by rewrite Hsum.
Qed.

Lemma filter_other uuid (old news : list StoredPayload) :
  Forall (other uuid) old -> Forall (fun p => sp_uuid p = uuid) news ->
  List.filter (fun p => negb (String.eqb (sp_uuid p) uuid)) (old ++ news) = old.
Proof.
  intros Hold Hnews. rewrite List.filter_app.
  assert (List.filter (fun p => negb (String.eqb (sp_uuid p) uuid)) news = []) as ->.
  { induction Hnews as [|p news Hp _ IH]; [reflexivity|]. simpl.
    by rewrite Hp, String.eqb_refl. }
  rewrite app_nil_r. induction Hold as [|p old Hp _ IH]; [reflexivity|]. simpl.
  rewrite other_eqb by exact Hp. simpl. by rewrite IH.
Qed.

(** C4. When [addRequest] returns, the history holds at most
    [MAX_PAYLOADS] = 1000 entries: it is the end of the history built by
    the whole batch, the entries dropped being its oldest ones. A batch of
    entry-creating events, however long, returns and leaves the last 1000
    entries of the old history followed by the entries of the batch, in
    their order, whatever the flags and the screens of the entries. Nothing
    is dropped while the events are applied: a batch that creates entries
    and then removes them leaves the whole old history of a store within
    the bound, however far above the bound the entries of the batch have
    brought the history in between. *)
Theorem retention_bound s request timestamp now :
  MAX_PAYLOADS = 1000
  /\ (forall s',
        addRequest s request timestamp now = (s', Return tt) ->
        length (getAllPayloads s') <= 1000
        /\ exists s1 dropped,
             process_all s (rq_uuid request) (rq_meta request) timestamp now 0
               (rq_payloads request) = (s1, Return tt)
             /\ payloads s1 = dropped ++ getAllPayloads s'
             /\ length dropped = length (payloads s1) - 1000
             /\ length (getAllPayloads s') = Nat.min 1000 (length (payloads s1))
             /\ (store_ok s ->
                 (payloadCounter s + N.of_nat (length (rq_payloads request))
                  <= MAX_EXACT)%N ->
                 forall old kept,
                   In old dropped -> In kept (getAllPayloads s') ->
                   id_lt (sp_id old) (sp_id kept)))
  /\ (Forall (fun payload => creates_entry (rp_type payload) = true)
        (rq_payloads request) ->
      (payloadCounter s + N.of_nat (length (rq_payloads request)) <= MAX_EXACT)%N ->
      exists s',
        addRequest s request timestamp now = (s', Return tt)
        /\ getAllPayloads s'
           = drop (length (getAllPayloads s ++ created s request timestamp now) - 1000)
               (getAllPayloads s ++ created s request timestamp now)
        /\ length (getAllPayloads s')
           = Nat.min 1000 (length (getAllPayloads s) + length (rq_payloads request)))
  /\ (forall creating removal,
        rq_payloads request = creating ++ [removal] ->
        Forall (fun payload => creates_entry (rp_type payload) = true) creating ->
        rp_type removal = "remove" ->
        Forall (other (rq_uuid request)) (getAllPayloads s) ->
        length (getAllPayloads s) <= 1000 ->
        exists s',
          addRequest s request timestamp now = (s', Return tt)
          /\ getAllPayloads s' = getAllPayloads s).
Proof.
  split; [reflexivity|]. split; [|split].
  - intros s'. rewrite addRequest_eq.
    destruct (process_all _ _ _ _ _ _ _) as [s1 [[]|e]] eqn:E; [|discriminate].
    intros [= <-]. unfold getAllPayloads. simpl.
    rewrite slice_last_length. split; [unfold MAX_PAYLOADS; lia|].
    exists s1, (take (length (payloads s1) - MAX_PAYLOADS) (payloads s1)).
    assert (payloads s1
            = take (length (payloads s1) - MAX_PAYLOADS) (payloads s1)
              ++ slice_last MAX_PAYLOADS (payloads s1)) as Hsplit.
    { unfold slice_last. by rewrite take_drop. }
    split; [reflexivity|]. split; [exact Hsplit|]. split; [|split].
    + rewrite list_basics.list.length_take. unfold MAX_PAYLOADS. lia.
    + reflexivity.
    + intros Hok Hle old kept Hold Hkept.
      destruct (process_all_ok (rq_uuid request) (rq_meta request) timestamp now
                  (rq_payloads request) s 0 Hok Hle) as [Hok1 _].
      rewrite E in Hok1. simpl in Hok1. apply store_ok_sorted in Hok1.
      rewrite Hsplit, map_app in Hok1.
      eapply StronglySorted_app_1_elem_of; [exact Hok1 | |];
        by apply list_elem_of_In, in_map.
  - intros Hall Hle. rewrite addRequest_eq.
    destruct (process_all_creating (rq_uuid request) (rq_meta request) timestamp now
                (rq_payloads request) s 0 Hall Hle) as (s1 & -> & Hps).
    eexists. split; [reflexivity|]. unfold getAllPayloads, created. simpl.
    rewrite Hps. simpl. split; [reflexivity|].
    rewrite slice_last_length, length_app, length_imap. reflexivity.
  - intros creating removal Hl Hall Hrm Hother Hlen. rewrite addRequest_eq, Hl.
    rewrite process_all_app.
    destruct (process_all_creating_uuid (rq_uuid request) (rq_meta request) timestamp now
                creating s 0 Hall) as (s1 & news & -> & Hps & Hnews & _).
    simpl. rewrite processPayload_remove by exact Hrm.
    eexists. split; [reflexivity|]. unfold getAllPayloads in *. simpl.
    rewrite Hps, filter_other by assumption.
    by apply slice_last_short.
Qed.

Lemma Forall_creating_check (l : list RayPayload) :
  forallb (fun payload => creates_entry (rp_type payload)) l = true ->
  Forall (fun payload => creates_entry (rp_type payload) = true) l.
Proof.
  intros H. apply Forall_forall. intros x Hx.
  apply (proj1 (forallb_forall _ l) H). by apply list_elem_of_In.
Qed.

Lemma Forall_other_check uuid (l : list StoredPayload) :
  forallb (fun p => negb (String.eqb (sp_uuid p) uuid)) l = true ->
  Forall (other uuid) l.
Proof.
  intros H. apply Forall_forall. intros p Hp. apply list_elem_of_In in Hp.
  pose proof (proj1 (forallb_forall _ l) H p Hp) as E.
  apply negb_true_iff in E. by apply String.eqb_neq.
Qed.

Lemma retention_bound_witness :
  let logs := List.repeat (log_payload "x") 1000 in
  exists s' s'',
    addRequest two_logs (request "new" logs) 6 (fun _ => 6%Z) = (s', Return tt)
    /\ List.map sp_uuid (getAllPayloads two_logs) = ["0"; "1"]
    /\ length (getAllPayloads s') = 1000
    /\ List.map sp_uuid (take 2 (getAllPayloads s')) = ["new"; "new"]
    /\ addRequest two_logs (request "new" (logs ++ [directive "remove" JNull])) 6
         (fun _ => 6%Z)
       = (s'', Return tt)
    /\ getAllPayloads s'' = getAllPayloads two_logs.
Proof.
  cbv zeta.
  assert (Forall (fun payload => creates_entry (rp_type payload) = true)
            (List.repeat (log_payload "x") 1000)) as Hall
    by (apply Forall_creating_check; vm_compute; reflexivity).
  destruct (retention_bound two_logs (request "new" (List.repeat (log_payload "x") 1000))
              6 (fun _ => 6%Z)) as (_ & _ & Hcreate & _).
  destruct Hcreate as (s' & Hrun & Hps & Hlen);
    [exact Hall | vm_compute; discriminate |].
  destruct (retention_bound two_logs
              (request "new" (List.repeat (log_payload "x") 1000
                              ++ [directive "remove" JNull]))
              6 (fun _ => 6%Z)) as (_ & _ & _ & Hremove).
  destruct (Hremove (List.repeat (log_payload "x") 1000) (directive "remove" JNull)
              eq_refl Hall eq_refl) as (s'' & Hrun' & Hps').
  { apply Forall_other_check. vm_compute. reflexivity. }
  { vm_compute. lia. }
  exists s', s''. split; [exact Hrun|]. split; [reflexivity|].
  split; [rewrite Hlen; vm_compute; reflexivity|].
  split; [rewrite Hps; vm_compute; reflexivity|].
  split; [exact Hrun'|exact Hps'].
Defined.

(** With 1000 entries stored, a batch of two leaves the last 1000 of the
    1002: the two oldest entries are gone, whatever their flags. *)
Example retention_slides :
  let s := fst (run Store.store (log_calls 1000)) in
  let s' := fst (addRequest s (request "new" [log_payload "y"; log_payload "z"]) 6
                   (fun _ => 6%Z)) in
  length (getAllPayloads s) = 1000
  /\ length (getAllPayloads s') = 1000
  /\ List.map sp_id (take 2 (getAllPayloads s)) = ["5-0"; "5-1"]
  /\ List.map sp_id (take 1 (getAllPayloads s')) = ["5-2"]
  /\ List.map sp_id (drop 998 (getAllPayloads s')) = ["6-1000"; "6-1001"].
Proof. vm_compute. repeat split. Qed.

(** ** Targeted directives *)

(** What a directive does to the entry it reaches, field by field. *)
Lemma directive_fields s uuid payload meta timestamp now pre p post v :
  In (rp_type payload) ["color"; "label"; "size"; "hide"] ->
  payloads s = pre ++ p :: post -> sp_uuid p = uuid -> Forall (other uuid) post ->
  (if String.eqb (rp_type payload) "hide" then v = JBool true
   else get_prop (rp_content payload) (rp_type payload) = Return v) ->
  exists p',
    processPayload s uuid payload meta timestamp now
    = (set_payloads s (pre ++ p' :: post), Return tt)
    /\ fixed_fields p' = fixed_fields p
    /\ sp_color p' = (if String.eqb (rp_type payload) "color" then v else sp_color p)
    /\ sp_label p' = (if String.eqb (rp_type payload) "label" then v else sp_label p)
    /\ sp_size p' = (if String.eqb (rp_type payload) "size" then v else sp_size p)
    /\ sp_hidden p' = (if String.eqb (rp_type payload) "hide" then v else sp_hidden p).
Proof.
  intros Htype Hs Hp Hpost Hv. simpl in Htype.
  destruct Htype as [H | [H | [H | [H | []]]]]; symmetry in H; rewrite H in Hv |- *;
    simpl in Hv.
  - rewrite processPayload_color by exact H.
    rewrite (applyToPayload_found _ _ s pre p post) by assumption. rewrite Hv. simpl.
    exists (set_color p v). by repeat split.
  - rewrite processPayload_label by exact H.
    rewrite (applyToPayload_found _ _ s pre p post) by assumption. rewrite Hv. simpl.
    exists (set_label p v). by repeat split.
  - rewrite processPayload_size by exact H.
    rewrite (applyToPayload_found _ _ s pre p post) by assumption. rewrite Hv. simpl.
    exists (set_size p v). by repeat split.
  - rewrite processPayload_hide by exact H.
    rewrite (applyToPayload_found _ _ s pre p post) by assumption. subst v.
    exists (set_hidden p (JBool true)). by repeat split.
Qed.

(** C5. A set-color, set-label, set-size or hide directive changes the most
    recently created entry that carries the correlation id of the batch,
    the last one of the history that does, and nothing else in the store;
    when no entry carries the id the store is left as it was. The entry
    reached gets the value the directive carries in the field it names
    ([true] in [hidden] for a hide directive) and keeps every other field.
    In particular, of two entries [E1] then [E2] with the id, a set-color
    directive sets the colour of [E2] only. A set-color, set-label or
    set-size directive whose content is [null] or [undefined] throws when
    it finds its entry, and leaves the store as it was. *)
Theorem directive_targets_latest s uuid payload meta timestamp now :
  In (rp_type payload) ["color"; "label"; "size"; "hide"] ->
  (Forall (other uuid) (payloads s) ->
   processPayload s uuid payload meta timestamp now = (s, Return tt))
  /\ (forall pre p post v,
        payloads s = pre ++ p :: post -> sp_uuid p = uuid -> Forall (other uuid) post ->
        (if String.eqb (rp_type payload) "hide" then v = JBool true
         else get_prop (rp_content payload) (rp_type payload) = Return v) ->
        exists s' p',
          processPayload s uuid payload meta timestamp now = (s', Return tt)
          /\ getAllPayloads s' = pre ++ p' :: post
          /\ getCurrentScreen s' = getCurrentScreen s
          /\ payloadCounter s' = payloadCounter s
          /\ notifications s' = notifications s
          /\ issued s' = issued s
          /\ fixed_fields p' = fixed_fields p
          /\ sp_color p'
             = (if String.eqb (rp_type payload) "color" then v else sp_color p)
          /\ sp_label p'
             = (if String.eqb (rp_type payload) "label" then v else sp_label p)
          /\ sp_size p'
             = (if String.eqb (rp_type payload) "size" then v else sp_size p)
          /\ sp_hidden p'
             = (if String.eqb (rp_type payload) "hide" then v else sp_hidden p))
  /\ (forall pre E1 mid E2 post v,
        rp_type payload = "color" ->
        get_prop (rp_content payload) "color" = Return v ->
        payloads s = pre ++ E1 :: mid ++ E2 :: post ->
        sp_uuid E1 = uuid -> sp_uuid E2 = uuid -> Forall (other uuid) post ->
        exists s' E2',
          processPayload s uuid payload meta timestamp now = (s', Return tt)
          /\ getAllPayloads s' = pre ++ E1 :: mid ++ E2' :: post
          /\ sp_color E2' = v
          /\ fixed_fields E2' = fixed_fields E2
          /\ (sp_label E2', sp_size E2', sp_hidden E2')
             = (sp_label E2, sp_size E2, sp_hidden E2))
  /\ (forall pre p post,
        rp_type payload <> "hide" -> nullish (rp_content payload) = true ->
        payloads s = pre ++ p :: post -> sp_uuid p = uuid -> Forall (other uuid) post ->
        processPayload s uuid payload meta timestamp now = (s, Throw TypeError)).
Proof.
  intros Htype.
  assert (forall pre p post v,
            payloads s = pre ++ p :: post -> sp_uuid p = uuid ->
            Forall (other uuid) post ->
            (if String.eqb (rp_type payload) "hide" then v = JBool true
             else get_prop (rp_content payload) (rp_type payload) = Return v) ->
            exists p',
              processPayload s uuid payload meta timestamp now
              = (set_payloads s (pre ++ p' :: post), Return tt)
              /\ fixed_fields p' = fixed_fields p
              /\ sp_color p'
                 = (if String.eqb (rp_type payload) "color" then v else sp_color p)
              /\ sp_label p'
                 = (if String.eqb (rp_type payload) "label" then v else sp_label p)
              /\ sp_size p'
                 = (if String.eqb (rp_type payload) "size" then v else sp_size p)
              /\ sp_hidden p'
                 = (if String.eqb (rp_type payload) "hide" then v else sp_hidden p))
    as Hfound
    by (intros pre p post v; by apply directive_fields).
  split; [|split; [|split]].
  - intros Hnone. simpl in Htype.
    destruct Htype as [H | [H | [H | [H | []]]]]; symmetry in H.
    + rewrite processPayload_color by exact H. by apply applyToPayload_none.
    + rewrite processPayload_label by exact H. by apply applyToPayload_none.
    + rewrite processPayload_size by exact H. by apply applyToPayload_none.
    + rewrite processPayload_hide by exact H. by apply applyToPayload_none.
  - intros pre p post v Hs Hp Hpost Hv.
    destruct (Hfound pre p post v Hs Hp Hpost Hv) as (p' & Hrun & Hrest).
    exists (set_payloads s (pre ++ p' :: post)), p'.
    split; [exact Hrun|]. by repeat split; try apply Hrest.
  - intros pre E1 mid E2 post v Ht Hv Hs _ H2 Hpost.
    destruct (Hfound (pre ++ E1 :: mid) E2 post v) as (E2' & Hrun & Hf & Hc & Hl & Hz & Hh);
      try assumption.
    + by rewrite Hs, <- app_assoc.
    + by rewrite Ht.
    + rewrite Ht in Hc, Hl, Hz, Hh. simpl in Hc, Hl, Hz, Hh.
      exists (set_payloads s ((pre ++ E1 :: mid) ++ E2' :: post)), E2'.
      split; [exact Hrun|]. split; [simpl; by rewrite <- app_assoc|].
      split; [exact Hc|]. split; [exact Hf|]. by rewrite Hl, Hz, Hh.
  - intros pre p post Hhide Hnull Hs Hp Hpost. simpl in Htype.
    destruct Htype as [H | [H | [H | [H | []]]]]; symmetry in H.
    + rewrite processPayload_color by exact H.
      rewrite (applyToPayload_found _ _ s pre p post) by assumption.
      destruct (rp_content payload); simpl in *; first [discriminate Hnull | reflexivity].
    + rewrite processPayload_label by exact H.
      rewrite (applyToPayload_found _ _ s pre p post) by assumption.
      destruct (rp_content payload); simpl in *; first [discriminate Hnull | reflexivity].
    + rewrite processPayload_size by exact H.
      rewrite (applyToPayload_found _ _ s pre p post) by assumption.
      destruct (rp_content payload); simpl in *; first [discriminate Hnull | reflexivity].
    + contradiction.
Qed.

Lemma directive_targets_latest_witness :
  let s := set_payloads Store.store
             [set_color (entry "1-0" "abc") (JStr "red");
              set_color (entry "1-1" "abc") (JStr "red"); entry "1-2" "zzz"] in
  let green := directive "color" (JObj 7 [("color", JStr "green")]) in
  In (rp_type green) ["color"; "label"; "size"; "hide"]
  /\ exists s' E2',
       processPayload s "abc" green JUndefined 9 9 = (s', Return tt)
       /\ getAllPayloads s'
          = [set_color (entry "1-0" "abc") (JStr "red"); E2'; entry "1-2" "zzz"]
       /\ sp_color E2' = JStr "green"
       /\ fixed_fields E2' = fixed_fields (entry "1-1" "abc").
Proof.
  split; [left; reflexivity|].
  destruct (directive_targets_latest
              (set_payloads Store.store
                 [set_color (entry "1-0" "abc") (JStr "red");
                  set_color (entry "1-1" "abc") (JStr "red"); entry "1-2" "zzz"])
              "abc" (directive "color" (JObj 7 [("color", JStr "green")]))
              JUndefined 9 9 (or_introl eq_refl)) as (_ & _ & H & _).
  destruct (H [] (set_color (entry "1-0" "abc") (JStr "red")) []
              (set_color (entry "1-1" "abc") (JStr "red")) [entry "1-2" "zzz"]
              (JStr "green") eq_refl eq_refl eq_refl eq_refl eq_refl)
    as (s' & E2' & Hrun & Hall & Hc & Hf & _).
  - repeat constructor. discriminate.
  - exists s', E2'. by repeat split.
Defined.

(** ** Screens *)

(** C8. A switch-screen directive sets the current screen of the store to
    the name it carries and does nothing else: the correlation id of the
    batch plays no part, and the entries stored keep the screen they were
    created with. An entry created afterwards is stamped with the new
    screen, [debug] for a switch to [debug], the older entries still
    unchanged. *)
Theorem switch_screen_stamps_later_entries s uuid payload meta timestamp now name :
  rp_type payload = "new_screen" ->
  get_prop (rp_content payload) "name" = Return name ->
  let s1 := fst (processPayload s uuid payload meta timestamp now) in
  processPayload s uuid payload meta timestamp now = (set_currentScreen s name, Return tt)
  /\ getCurrentScreen s1 = name
  /\ getAllPayloads s1 = getAllPayloads s
  /\ (forall uuid' payload' meta' timestamp' now',
        creates_entry (rp_type payload') = true ->
        exists e,
          getAllPayloads (fst (processPayload s1 uuid' payload' meta' timestamp' now'))
          = getAllPayloads s ++ [e]
          /\ sp_screen e = name /\ summary e = (uuid', rp_type payload', rp_content payload')).
Proof.
  intros Ht Hn. cbv zeta. rewrite processPayload_new_screen by exact Ht. rewrite Hn.
  simpl. repeat split.
  intros uuid' payload' meta' timestamp' now' Hc.
  rewrite processPayload_create by exact Hc. simpl. eauto.
Qed.

Lemma switch_screen_stamps_later_entries_witness :
  let s := set_payloads Store.store [entry "1-0" "abc"] in
  let switch := directive "new_screen" (JObj 7 [("name", JStr "debug")]) in
  let s2 := fst (processPayload (fst (processPayload s "abc" switch JUndefined 9 9))
                   "xyz" (log_payload "x") JUndefined 9 9) in
  rp_type switch = "new_screen"
  /\ get_prop (rp_content switch) "name" = Return (JStr "debug")
  /\ List.map sp_screen (getAllPayloads s2) = [JStr "default"; JStr "debug"].
Proof.
  split; [reflexivity|]. split; [reflexivity|].
  destruct (switch_screen_stamps_later_entries
              (set_payloads Store.store [entry "1-0" "abc"]) "abc"
              (directive "new_screen" (JObj 7 [("name", JStr "debug")]))
              JUndefined 9 9 (JStr "debug") eq_refl eq_refl) as (_ & _ & _ & H).
  destruct (H "xyz" (log_payload "x") JUndefined 9%Z 9%Z eq_refl) as (e & He & Hscreen & _).
  cbv zeta. rewrite He. rewrite map_app. simpl. by rewrite Hscreen.
Defined.

(** ** Hide and remove *)

Lemma filter_visible_hidden p :
  visible (set_hidden p (JBool true)) = false.
Proof. reflexivity. Qed.

(** C9. A hide directive marks its target, which stays in the all-entries
    view at its place and leaves the non-hidden view, where the entries
    around it are still listed. A remove directive deletes every entry
    that carries the correlation id of the batch, however many there are:
    none is left in either view, and the other entries are all kept. *)
Theorem hide_keeps_remove_deletes s uuid payload meta timestamp now :
  (rp_type payload = "hide" ->
   forall pre p post,
     payloads s = pre ++ p :: post -> sp_uuid p = uuid -> Forall (other uuid) post ->
     let s' := fst (processPayload s uuid payload meta timestamp now) in
     getAllPayloads s' = pre ++ set_hidden p (JBool true) :: post
     /\ getPayloads s' = List.filter visible pre ++ List.filter visible post)
  /\ (rp_type payload = "remove" ->
      let s' := fst (processPayload s uuid payload meta timestamp now) in
      Forall (other uuid) (getAllPayloads s')
      /\ Forall (other uuid) (getPayloads s')
      /\ getAllPayloads s'
         = List.filter (fun p => negb (String.eqb (sp_uuid p) uuid)) (getAllPayloads s)
      /\ (forall p, In p (getAllPayloads s) -> other uuid p -> In p (getAllPayloads s'))).
Proof.
  split.
  - intros Ht pre p post Hs Hp Hpost. cbv zeta.
    rewrite processPayload_hide by exact Ht.
    rewrite (applyToPayload_found _ _ s pre p post) by assumption.
    unfold getAllPayloads, getPayloads. simpl. split; [reflexivity|].
    rewrite List.filter_app. simpl. reflexivity.
  - intros Ht. cbv zeta. rewrite processPayload_remove by exact Ht.
    unfold getAllPayloads, getPayloads. simpl.
    assert (Forall (other uuid)
              (List.filter (fun p => negb (String.eqb (sp_uuid p) uuid)) (payloads s)))
      as Hall.
    { apply Forall_forall. intros p Hp%list_elem_of_In%filter_In.
      destruct Hp as [_ Hp]. apply negb_true_iff in Hp. by apply String.eqb_neq. }
    split; [exact Hall|]. split; [|split; [reflexivity|]].
    + eapply Forall_forall. intros p Hp%list_elem_of_In%filter_In.
      destruct Hp as [Hp _]. rewrite Forall_forall in Hall. apply Hall.
      by apply list_elem_of_In.
    + intros p Hin Hother. apply filter_In. split; [exact Hin|].
      apply negb_true_iff. by apply String.eqb_neq.
Qed.

Lemma hide_keeps_remove_deletes_witness :
  let s := set_payloads Store.store [entry "1-0" "abc"; entry "1-1" "abc"; entry "1-2" "zzz"] in
  let hidden := fst (processPayload s "abc" (directive "hide" JNull) JUndefined 9 9) in
  let removed := fst (processPayload s "abc" (directive "remove" JNull) JUndefined 9 9) in
  List.map sp_id (getAllPayloads hidden) = ["1-0"; "1-1"; "1-2"]
  /\ List.map sp_id (getPayloads hidden) = ["1-0"; "1-2"]
  /\ getAllPayloads removed = [entry "1-2" "zzz"].
Proof.
  destruct (hide_keeps_remove_deletes
              (set_payloads Store.store
                 [entry "1-0" "abc"; entry "1-1" "abc"; entry "1-2" "zzz"])
              "abc" (directive "hide" JNull) JUndefined 9 9) as [Hhide _].
  destruct (Hhide eq_refl [entry "1-0" "abc"] (entry "1-1" "abc") [entry "1-2" "zzz"]
              eq_refl eq_refl) as [H1 H2].
  { repeat constructor. discriminate. }
  destruct (hide_keeps_remove_deletes
              (set_payloads Store.store
                 [entry "1-0" "abc"; entry "1-1" "abc"; entry "1-2" "zzz"])
              "abc" (directive "remove" JNull) JUndefined 9 9) as [_ Hremove].
  destruct (Hremove eq_refl) as (_ & _ & H3 & _).
  cbv zeta. rewrite H1, H2, H3. repeat split.
Defined.

(** ** Timestamps *)

Lemma addRequest_origin s request timestamp now p :
  p ∈ payloads (fst (addRequest s request timestamp now)) ->
  (exists p0, p0 ∈ payloads s /\ stamp p = stamp p0) \/ sp_timestamp p = timestamp.
Proof.
  rewrite addRequest_eq.
  pose proof (process_all_origin (rq_uuid request) (rq_meta request) timestamp now
                (rq_payloads request) s 0 p) as H.
  destruct (process_all _ _ _ _ _ _ _) as [s1 [[]|e]]; simpl in *; [|exact H].
  intros Hp. apply H. eapply sublist_subseteq; [apply slice_last_sublist | exact Hp].
Qed.

(** C10. The entries created by one call of [addRequest], those of the
    store it leaves whose identifier had not been handed out before the
    call, all carry the time read when the call started, whether the call
    returns or throws. So two entries of one batch never differ by their
    timestamp; their identifiers alone, with their increasing sequence
    numbers, tell which was created first. *)
Theorem batch_shares_timestamp s request timestamp now :
  store_ok s ->
  let s' := fst (addRequest s request timestamp now) in
  (forall p, In p (getAllPayloads s') -> ~ In (sp_id p) (issued s) ->
             sp_timestamp p = timestamp)
  /\ (forall p q, In p (getAllPayloads s') -> In q (getAllPayloads s') ->
                  ~ In (sp_id p) (issued s) -> ~ In (sp_id q) (issued s) ->
                  sp_timestamp p = sp_timestamp q)
  /\ ((payloadCounter s + N.of_nat (length (rq_payloads request)) <= MAX_EXACT)%N ->
      StronglySorted id_lt (List.map sp_id (getAllPayloads s'))).
Proof.
  intros Hok. cbv zeta.
  assert (forall p, In p (getAllPayloads (fst (addRequest s request timestamp now))) ->
                    ~ In (sp_id p) (issued s) -> sp_timestamp p = timestamp) as Hnew.
  { intros p Hp Hfresh.
    destruct (addRequest_origin s request timestamp now p) as [(p0 & Hin & Heq) | H];
      [by apply list_elem_of_In | | exact H].
    exfalso. apply Hfresh. destruct Hok as (_ & _ & Hsub).
    apply list_elem_of_In. eapply sublist_subseteq; [exact Hsub|].
    apply list_elem_of_In. unfold stamp in Heq.
    replace (sp_id p) with (sp_id p0) by congruence.
    by apply in_map, list_elem_of_In. }
  split; [exact Hnew|]. split.
  - intros p q Hp Hq Hfp Hfq. by rewrite (Hnew p), (Hnew q).
  - intros Hle. apply store_ok_sorted. by apply addRequest_ok.
Qed.

Lemma store_ok_two_logs : store_ok two_logs.
Proof.
  repeat split.
  - repeat constructor. exists 0%N, 1%N. by vm_compute.
  - repeat constructor; [exists 0%N | exists 1%N]; by vm_compute.
  - vm_compute. reflexivity.
Qed.

Lemma batch_shares_timestamp_witness :
  store_ok two_logs
  /\ (forall p,
        In p (getAllPayloads
                (fst (addRequest two_logs (request "new" [log_payload "y"; log_payload "z"])
                        6 (fun i => (7 + Z.of_nat i)%Z)))) ->
        ~ In (sp_id p) (issued two_logs) -> sp_timestamp p = 6%Z).
Proof.
  split; [exact store_ok_two_logs|].
  exact (proj1 (batch_shares_timestamp two_logs
                  (request "new" [log_payload "y"; log_payload "z"]) 6
                  (fun i => (7 + Z.of_nat i)%Z) store_ok_two_logs)).
Defined.

(** The two entries of the batch: one timestamp, two identifiers. *)
Example batch_shares_timestamp_run :
  let s' := fst (addRequest two_logs (request "new" [log_payload "y"; log_payload "z"]) 6
                   (fun i => (7 + Z.of_nat i)%Z)) in
  List.map sp_timestamp (getAllPayloads s') = [5; 5; 6; 6]%Z
  /\ List.map sp_id (getAllPayloads s') = ["5-0"; "5-1"; "7-2"; "8-3"].
Proof. vm_compute. split; reflexivity. Qed.

(** ** Clear-all *)

Ltac id_lt_compute :=
  unfold id_lt; eexists _, _;
  split; [vm_compute; reflexivity | split; [vm_compute; reflexivity | reflexivity]].

Ltac issued_before_compute :=
  unfold issued_before; eexists; split; [vm_compute; reflexivity | reflexivity].

Lemma store_ok_ten_logs : store_ok ten_logs.
Proof.
  repeat split.
  - vm_compute issued.
    repeat (apply SSorted_cons; [| repeat (constructor; [id_lt_compute|]); constructor]).
    apply SSorted_nil.
  - vm_compute issued. vm_compute payloadCounter.
    repeat (constructor; [issued_before_compute|]). constructor.
  - vm_compute. reflexivity.
Qed.

(** C6. A clear-all event discards every stored entry at once, those
    added earlier by the same batch included, and the events after it
    append to the empty history. The counter and the current screen are
    kept. Right after it the all-entries view and the set of screens are
    empty, and the next entry created receives an identifier that was
    never handed out before and is greater than every identifier handed
    out before, in the order of their sequence numbers. *)
Theorem clear_all_empties_history s uuid payload meta timestamp now :
  rp_type payload = "clear_all" ->
  let s' := fst (processPayload s uuid payload meta timestamp now) in
  snd (processPayload s uuid payload meta timestamp now) = Return tt
  /\ getAllPayloads s' = [] /\ getPayloads s' = [] /\ getScreens s' = []
  /\ payloadCounter s' = payloadCounter s
  /\ getCurrentScreen s' = getCurrentScreen s
  /\ (forall nowf i before after s1,
        process_all s uuid meta timestamp nowf i before = (s1, Return tt) ->
        process_all s uuid meta timestamp nowf i (before ++ payload :: after)
        = process_all (set_payloads s1 []) uuid meta timestamp nowf
            (i + length before + 1) after)
  /\ (forall uuid' payload' meta' timestamp' now',
        creates_entry (rp_type payload') = true ->
        let e := new_entry s uuid' payload' meta' timestamp' now' in
        getAllPayloads (fst (processPayload s' uuid' payload' meta' timestamp' now')) = [e]
        /\ sp_screen e = getCurrentScreen s
        /\ id_counter (sp_id e) = Some (payloadCounter s)
        /\ (store_ok s ->
            ~ In (sp_id e) (issued s)
            /\ Forall (fun old => id_lt old (sp_id e)) (issued s))).
Proof.
  intros Ht. cbv zeta. rewrite processPayload_clear_all by exact Ht. simpl.
  repeat split.
  - intros nowf i before after s1 Hbefore.
    rewrite process_all_app, Hbefore. simpl.
    rewrite processPayload_clear_all by exact Ht.
    by replace (S (i + length before)) with (i + length before + 1) by lia.
  - rewrite processPayload_create by assumption. reflexivity.
  - apply id_counter_make_id.
  - intros Hin.
    match goal with
    | Hok : store_ok s |- _ => pose proof (issued_before_new s now' Hok) as Hall
    end.
    rewrite Forall_forall in Hall. apply list_elem_of_In in Hin.
    exact (id_lt_irrefl _ (Hall _ Hin)).
  - by apply issued_before_new.
Qed.

Lemma clear_all_empties_history_witness :
  rp_type (directive "clear_all" JNull) = "clear_all"
  /\ store_ok ten_logs
  /\ getAllPayloads
       (fst (processPayload ten_logs "abc" (directive "clear_all" JNull) JUndefined 5 5))
     = []
  /\ Forall (fun old => id_lt old (make_id 5 10)) (issued ten_logs).
Proof.
  destruct (clear_all_empties_history ten_logs "abc" (directive "clear_all" JNull)
              JUndefined 5 5 eq_refl) as (_ & H1 & _ & _ & _ & _ & _ & H2).
  destruct (H2 "abc" (log_payload "x") JUndefined 5%Z 5%Z eq_refl) as (_ & _ & _ & H3).
  split; [reflexivity|]. split; [exact store_ok_ten_logs|]. split; [exact H1|].
  exact (proj2 (H3 store_ok_ten_logs)).
Defined.

(** The batch [log, clear_all, log] on the new store leaves the second
    entry only, under the sequence number 1. *)
Example clear_all_within_batch :
  List.map sp_id
    (getAllPayloads
       (fst (addRequest Store.store
               (request "abc" [log_payload "a"; directive "clear_all" JNull; log_payload "b"])
               5 (fun _ => 5%Z))))
  = ["5-1"].
Proof. reflexivity. Qed.

(** ** Order of the history and identifiers *)

Lemma addRequest_single s c payload :
  rq_payloads (call_request c) = [payload] ->
  creates_entry (rp_type payload) = true ->
  addRequest s (call_request c) (call_timestamp c) (call_now c)
  = (notify
       (set_payloads
          (with_entry s (new_entry s (rq_uuid (call_request c)) payload
                           (rq_meta (call_request c)) (call_timestamp c) (call_now c 0)))
          (slice_last MAX_PAYLOADS
             (payloads s ++ [new_entry s (rq_uuid (call_request c)) payload
                               (rq_meta (call_request c)) (call_timestamp c)
                               (call_now c 0)]))),
     Return tt).
Proof.
  intros Hp Hc. rewrite addRequest_eq, Hp. simpl.
  by rewrite processPayload_create by exact Hc.
Qed.

Lemma run_single_entries (calls : list call) : forall s,
  store_ok s -> length (payloads s) <= MAX_PAYLOADS ->
  (payloadCounter s + N.of_nat (length calls) <= MAX_EXACT)%N ->
  Forall single_entry calls ->
  exists s' created,
    run s calls = (s', Return tt)
    /\ store_ok s'
    /\ payloads s' = slice_last MAX_PAYLOADS (payloads s ++ created)
    /\ List.map summary created = List.flat_map submitted calls
    /\ List.map sp_id created
       = imap (fun k c => make_id (call_now c 0) (payloadCounter s + N.of_nat k)) calls
    /\ issued s' = issued s ++ List.map sp_id created.
Proof.
  induction calls as [|c calls IH]; intros s Hok Hlen Hcount Hall.
  - exists s, []. simpl. rewrite !app_nil_r, slice_last_short by exact Hlen. done.
  - apply Forall_cons in Hall as [(payload & Hp & Hc) Hall]. simpl length in Hcount.
    set (e := new_entry s (rq_uuid (call_request c)) payload (rq_meta (call_request c))
                (call_timestamp c) (call_now c 0)).
    set (s1 := notify (set_payloads (with_entry s e)
                         (slice_last MAX_PAYLOADS (payloads s ++ [e])))).
    assert (store_ok s1) as Hok1.
    { apply store_ok_notify, store_ok_set_payloads.
      - apply store_ok_with_entry; [exact Hok | lia].
      - apply map_sublist, slice_last_sublist. }
    destruct (IH s1 Hok1) as (s' & created & Hrun & Hok' & Hpay & Hsum & Hids & Hiss).
    { simpl. rewrite slice_last_length. lia. }
    { simpl. rewrite incr_below by lia. lia. }
    { exact Hall. }
    exists s', (e :: created). simpl run.
    rewrite (addRequest_single s c payload Hp Hc). fold e. fold s1.
    split; [exact Hrun|]. split; [exact Hok'|]. split; [|split; [|split]].
    + rewrite Hpay. simpl payloads. rewrite slice_last_app. by rewrite <- app_assoc.
    + simpl. rewrite Hsum. unfold submitted at 2. by rewrite Hp.
    + simpl. rewrite Hids. f_equal.
      * by rewrite N.add_0_r.
      * apply imap_ext. intros k c' _. simpl. f_equal.
        rewrite incr_below by lia. lia.
    + rewrite Hiss. simpl. by rewrite <- app_assoc.
Qed.

Lemma sorted_lookup {A} (R : A -> A -> Prop) (l : list A) i j a b :
  StronglySorted R l -> l !! i = Some a -> l !! j = Some b -> i < j -> R a b.
Proof.
  intros Hs Ha Hb Hlt. rewrite <- (take_drop j l) in Hs.
  eapply StronglySorted_app_1_elem_of; [exact Hs | |].
  - apply list_elem_of_lookup. exists i. by rewrite lookup_take_lt.
  - apply list_elem_of_lookup. exists 0. by rewrite lookup_drop, Nat.add_0_r.
Qed.

(** C3, as it is worded, fails: after 1001 batches of one log event the
    all-entries view holds 1000 entries, the first one submitted is gone. *)
Lemma ordered_history_fails : ~ ordered_history (log_calls 1001).
Proof.
  intros (s' & Hrun & Hsum & _).
  assert (length (getAllPayloads (fst (run Store.store (log_calls 1001)))) = 1000)
    as Hlen by (vm_compute; reflexivity).
  rewrite Hrun in Hlen. simpl fst in Hlen.
  apply (f_equal length) in Hsum. rewrite length_map, Hlen in Hsum.
  vm_compute in Hsum. discriminate.
Qed.

(** The identifiers are ordered by their sequence numbers and not as
    strings: the eleventh identifier made at time 5 is 5-10, which comes
    before 5-9 in the order of strings. *)
Example identifiers_not_ordered_as_strings :
  List.map sp_id (getAllPayloads (fst (run Store.store (log_calls 11))))
  = ["5-0"; "5-1"; "5-2"; "5-3"; "5-4"; "5-5"; "5-6"; "5-7"; "5-8"; "5-9"; "5-10"]
  /\ id_lt "5-9" "5-10" /\ ~ js_lt "5-9" "5-10".
Proof.
  split; [vm_compute; reflexivity|]. split; [id_lt_compute|].
  unfold js_lt. vm_compute. discriminate.
Qed.

(** C3, amended. Batches of one entry-creating event each, applied to a
    store that satisfies the invariant of the identifiers (the new store
    does), all return; the all-entries view is then the end of the old
    history followed by the entries created, one per batch in the order
    the batches were submitted: the most recent [MAX_PAYLOADS] of them,
    and all of them when there is room. The identifiers ever handed out,
    those of discarded entries included, are pairwise distinct and
    strictly increasing in the order of creation, and so are the
    identifiers in the view; identifiers are compared by their sequence
    number, the value of the counter they end with. The counter is
    assumed to stay within the integers a number holds exactly. *)
Theorem history_keeps_submission_order calls s :
  store_ok s -> length (payloads s) <= MAX_PAYLOADS ->
  (payloadCounter s + N.of_nat (length calls) <= MAX_EXACT)%N ->
  Forall single_entry calls ->
  exists s' created,
    run s calls = (s', Return tt)
    /\ getAllPayloads s' = slice_last MAX_PAYLOADS (payloads s ++ created)
    /\ (length (payloads s) + length calls <= MAX_PAYLOADS ->
        getAllPayloads s' = payloads s ++ created)
    /\ List.map summary created = List.flat_map submitted calls
    /\ List.map sp_id created
       = imap (fun k c => make_id (call_now c 0) (payloadCounter s + N.of_nat k)) calls
    /\ issued s' = issued s ++ List.map sp_id created
    /\ NoDup (issued s') /\ StronglySorted id_lt (issued s')
    /\ NoDup (List.map sp_id (getAllPayloads s'))
    /\ StronglySorted id_lt (List.map sp_id (getAllPayloads s')).
Proof.
  intros Hok Hlen Hcount Hall.
  destruct (run_single_entries calls s Hok Hlen Hcount Hall)
    as (s' & created & Hrun & Hok' & Hpay & Hsum & Hids & Hiss).
  exists s', created. unfold getAllPayloads.
  split; [exact Hrun|]. split; [exact Hpay|]. split; [|split; [exact Hsum|]].
  - intros Hroom. rewrite Hpay. apply slice_last_short.
    apply (f_equal length) in Hids. rewrite length_map, length_imap in Hids.
    rewrite length_app. lia.
  - split; [exact Hids|]. split; [exact Hiss|].
    split; [by apply store_ok_issued_NoDup|]. split; [by destruct Hok'|].
    split; [by apply store_ok_NoDup | by apply store_ok_sorted].
Qed.

Lemma history_keeps_submission_order_witness :
  store_ok Store.store
  /\ length (payloads Store.store) <= MAX_PAYLOADS
  /\ (payloadCounter Store.store + N.of_nat (length (log_calls 3)) <= MAX_EXACT)%N
  /\ Forall single_entry (log_calls 3)
  /\ exists s' created,
       run Store.store (log_calls 3) = (s', Return tt)
       /\ getAllPayloads s' = created
       /\ List.map sp_id created = ["5-0"; "5-1"; "5-2"].
Proof.
  assert (Forall single_entry (log_calls 3)) as Hall.
  { repeat constructor; eexists; split; reflexivity. }
  assert (payloadCounter Store.store + N.of_nat (length (log_calls 3)) <= MAX_EXACT)%N
    as Hcount by (vm_compute; discriminate).
  assert (length (payloads Store.store) <= MAX_PAYLOADS) as Hlen by (simpl; lia).
  split; [exact store_ok_init|]. split; [exact Hlen|]. split; [exact Hcount|].
  split; [exact Hall|].
  destruct (history_keeps_submission_order (log_calls 3) Store.store store_ok_init
              Hlen Hcount Hall)
    as (s' & created & Hrun & _ & Hview & _ & Hids & _).
  exists s', created. split; [exact Hrun|]. split.
  - apply Hview. vm_compute. lia.
  - exact Hids.
Defined.

(** ** Failures *)

Lemma get_prop_defined v k : nullish v = false -> exists x, get_prop v k = Return x.
Proof.
  destruct v; simpl; try discriminate; intros _; eauto.
  - destruct (String.eqb k "length"); eauto.
  - destruct (String.eqb k "length"); [eauto|]. destruct (String.eqb k "values"); eauto.
  - destruct (own_prop k props); eauto.
  - destruct (String.eqb k "length"); [eauto|]. destruct (String.eqb k "name"); eauto.
Qed.

Lemma get_prop_nullish v k : nullish v = true -> get_prop v k = Throw TypeError.
Proof. by destruct v. Qed.

Lemma applyToPayload_returns s uuid modifier :
  (forall p, exists p', modifier p = Return p') ->
  snd (applyToPayload s uuid modifier) = Return tt.
Proof.
  intros Hm.
  destruct (scan_cases uuid (payloads s)) as [Hnone | (pre & p & post & Hs & Hp & Hpost)].
  - by rewrite applyToPayload_none.
  - rewrite (applyToPayload_found uuid modifier s pre p post) by assumption.
    by destruct (Hm p) as [p' ->].
Qed.

Lemma step_returns s uuid payload meta timestamp now :
  (reads_content (rp_type payload) = true -> nullish (rp_content payload) = false) ->
  snd (processPayload s uuid payload meta timestamp now) = Return tt.
Proof.
  intros Hc.
  destruct (type_cases payload) as [H|[H|[H|[H|[H|[H|[H|[H|H]]]]]]]].
  - by rewrite processPayload_create.
  - rewrite processPayload_color by exact H. apply applyToPayload_returns. intros p.
    destruct (get_prop_defined (rp_content payload) "color") as [x ->]; [|simpl; eauto].
    apply Hc. by rewrite H.
  - rewrite processPayload_label by exact H. apply applyToPayload_returns. intros p.
    destruct (get_prop_defined (rp_content payload) "label") as [x ->]; [|simpl; eauto].
    apply Hc. by rewrite H.
  - rewrite processPayload_size by exact H. apply applyToPayload_returns. intros p.
    destruct (get_prop_defined (rp_content payload) "size") as [x ->]; [|simpl; eauto].
    apply Hc. by rewrite H.
  - rewrite processPayload_hide by exact H. apply applyToPayload_returns. eauto.
  - rewrite processPayload_new_screen by exact H.
    destruct (get_prop_defined (rp_content payload) "name") as [x ->]; [|done].
    apply Hc. by rewrite H.
  - by rewrite processPayload_clear_all.
  - by rewrite processPayload_remove.
  - by rewrite processPayload_ignored.
Qed.

Lemma applyToPayload_store s uuid modifier :
  exists ps, fst (applyToPayload s uuid modifier) = set_payloads s ps.
Proof.
  unfold applyToPayload. destruct (applyToPayload_loop _ _ _ _) as [ps c]. by exists ps.
Qed.

Lemma step_notifications s uuid payload meta timestamp now :
  notifications (fst (processPayload s uuid payload meta timestamp now)) = notifications s.
Proof.
  destruct (type_cases payload) as [H|[H|[H|[H|[H|[H|[H|[H|H]]]]]]]].
  - by rewrite processPayload_create.
  - rewrite processPayload_color by exact H.
    by destruct (applyToPayload_store s uuid
                   (fun p => bind (get_prop (rp_content payload) "color")
                               (fun v => Return (set_color p v)))) as [ps ->].
  - rewrite processPayload_label by exact H.
    by destruct (applyToPayload_store s uuid
                   (fun p => bind (get_prop (rp_content payload) "label")
                               (fun v => Return (set_label p v)))) as [ps ->].
  - rewrite processPayload_size by exact H.
    by destruct (applyToPayload_store s uuid
                   (fun p => bind (get_prop (rp_content payload) "size")
                               (fun v => Return (set_size p v)))) as [ps ->].
  - rewrite processPayload_hide by exact H.
    by destruct (applyToPayload_store s uuid
                   (fun p => Return (set_hidden p (JBool true)))) as [ps ->].
  - rewrite processPayload_new_screen by exact H. by destruct (get_prop _ _).
  - by rewrite processPayload_clear_all.
  - by rewrite processPayload_remove.
  - by rewrite processPayload_ignored.
Qed.

Lemma process_all_notifications uuid meta timestamp now l : forall s i,
  notifications (fst (process_all s uuid meta timestamp now i l)) = notifications s.
Proof.
  induction l as [|a l IH]; intros s i; [reflexivity|]. simpl.
  pose proof (step_notifications s uuid a meta timestamp (now i)) as H.
  destruct (processPayload _ _ _ _ _ _) as [s1 [[]|e]]; simpl in *; [|exact H].
  by rewrite IH.
Qed.

Lemma process_all_returns uuid meta timestamp now l : forall s i,
  Forall (fun payload =>
            reads_content (rp_type payload) = true -> nullish (rp_content payload) = false) l ->
  snd (process_all s uuid meta timestamp now i l) = Return tt.
Proof.
  induction l as [|a l IH]; intros s i Hall; [reflexivity|]. simpl.
  apply Forall_cons in Hall as [Ha Hall].
  pose proof (step_returns s uuid a meta timestamp (now i) Ha) as H.
  destruct (processPayload _ _ _ _ _ _) as [s1 [[]|e]]; simpl in H; [|discriminate].
  by apply IH.
Qed.

(** C1, as it is worded, fails: a switch-screen event whose content is
    [null] makes [addRequest] throw. *)
Lemma never_throws_fails :
  ~ never_throws Store.store (request "abc" [directive "new_screen" JNull]) 5 (fun _ => 5%Z).
Proof. intros (s' & H). vm_compute in H. discriminate. Qed.

(** The exception leaves the batch half applied: the entry of the first
    event is stored, the history is not trimmed and nobody is notified. *)
Example throw_keeps_earlier_events :
  let r := addRequest Store.store
             (request "abc" [log_payload "x"; directive "new_screen" JNull; log_payload "y"])
             5 (fun _ => 5%Z) in
  snd r = Throw TypeError
  /\ List.map sp_id (getAllPayloads (fst r)) = ["5-0"]
  /\ notifications (fst r) = 0.
Proof. vm_compute. repeat split. Qed.

(** A set-color event with [null] content throws when it has a target. *)
Example color_null_throws_on_target :
  snd (addRequest two_logs (request "1" [directive "color" JNull]) 6 (fun _ => 6%Z))
  = Throw TypeError
  /\ snd (addRequest two_logs (request "none" [directive "color" JNull]) 6 (fun _ => 6%Z))
     = Return tt.
Proof. vm_compute. split; reflexivity. Qed.

(** C1, amended. No event is ever skipped and no content is checked.
    [addRequest] returns, after notifying once, on every batch in which
    no set-color, set-label, set-size or switch-screen event has a [null]
    or missing content; every other content is accepted as it is: an
    entry-creating event stores its content unchanged whatever its shape,
    each event of a batch of such events leaving its entry, and a
    directive whose content lacks the property it reads stores
    [undefined] in the entry it reaches. A switch-screen event whose
    content is [null] or missing makes [addRequest] throw a [TypeError],
    whatever follows it; when it is the first event the store is left as
    it was. *)
Theorem addRequest_returns_unless_null_content s request timestamp now :
  Forall (fun payload =>
            reads_content (rp_type payload) = true -> nullish (rp_content payload) = false)
    (rq_payloads request) ->
  (exists s',
     addRequest s request timestamp now = (s', Return tt)
     /\ notifications s' = S (notifications s))
  /\ (forall s0 uuid payload meta now0,
        creates_entry (rp_type payload) = true ->
        processPayload s0 uuid payload meta timestamp now0
        = (with_entry s0 (new_entry s0 uuid payload meta timestamp now0), Return tt)
        /\ sp_content (new_entry s0 uuid payload meta timestamp now0) = rp_content payload)
  /\ (forall s0 uuid payload meta,
        creates_entry (rp_type payload) = true ->
        length (getAllPayloads s0) < 1000 ->
        exists s' e,
          addRequest s0 {| rq_uuid := uuid; rq_payloads := [payload]; rq_meta := meta |}
            timestamp now
          = (s', Return tt)
          /\ getAllPayloads s' = getAllPayloads s0 ++ [e]
          /\ (sp_uuid e, sp_type e, sp_content e)
             = (uuid, rp_type payload, rp_content payload))
  /\ (forall s0 request0,
        Forall (fun payload => creates_entry (rp_type payload) = true)
          (rq_payloads request0) ->
        length (getAllPayloads s0) + length (rq_payloads request0) <= 1000 ->
        exists s',
          addRequest s0 request0 timestamp now = (s', Return tt)
          /\ List.map summary (getAllPayloads s')
             = List.map summary (getAllPayloads s0)
               ++ List.map
                    (fun payload => (rq_uuid request0, rp_type payload, rp_content payload))
                    (rq_payloads request0))
  /\ (forall s0 uuid payload meta pre p post,
        In (rp_type payload) ["color"; "label"; "size"] ->
        get_prop (rp_content payload) (rp_type payload) = Return JUndefined ->
        payloads s0 = pre ++ p :: post -> sp_uuid p = uuid -> Forall (other uuid) post ->
        length (getAllPayloads s0) <= 1000 ->
        exists s' p',
          addRequest s0 {| rq_uuid := uuid; rq_payloads := [payload]; rq_meta := meta |}
            timestamp now
          = (s', Return tt)
          /\ getAllPayloads s' = pre ++ p' :: post
          /\ fixed_fields p' = fixed_fields p
          /\ sp_color p'
             = (if String.eqb (rp_type payload) "color" then JUndefined else sp_color p)
          /\ sp_label p'
             = (if String.eqb (rp_type payload) "label" then JUndefined else sp_label p)
          /\ sp_size p'
             = (if String.eqb (rp_type payload) "size" then JUndefined else sp_size p)
          /\ sp_hidden p' = sp_hidden p)
  /\ (forall s0 uuid meta before payload after,
        Forall (fun earlier =>
                  reads_content (rp_type earlier) = true ->
                  nullish (rp_content earlier) = false) before ->
        rp_type payload = "new_screen" -> nullish (rp_content payload) = true ->
        snd (addRequest s0
               {| rq_uuid := uuid; rq_payloads := before ++ payload :: after;
                  rq_meta := meta |} timestamp now)
        = Throw TypeError
        /\ addRequest s0
             {| rq_uuid := uuid; rq_payloads := payload :: after; rq_meta := meta |}
             timestamp now
           = (s0, Throw TypeError)).
Proof.
  intros Hall. split; [|split; [|split; [|split; [|split]]]].
  - rewrite addRequest_eq.
    pose proof (process_all_returns (rq_uuid request) (rq_meta request) timestamp now
                  (rq_payloads request) s 0 Hall) as H.
    pose proof (process_all_notifications (rq_uuid request) (rq_meta request) timestamp
                  now (rq_payloads request) s 0) as Hn.
    destruct (process_all _ _ _ _ _ _ _) as [s1 [[]|e]]; simpl in *; [|discriminate].
    eexists. split; [reflexivity|]. simpl. by rewrite Hn.
  - intros s0 uuid payload meta now0 Hc. split; [|reflexivity].
    by apply processPayload_create.
  - intros s0 uuid payload meta Hc Hlen. rewrite addRequest_eq. simpl.
    rewrite processPayload_create by exact Hc.
    exists (notify (set_payloads
                      (with_entry s0 (new_entry s0 uuid payload meta timestamp (now 0)))
                      (slice_last MAX_PAYLOADS
                         (payloads (with_entry s0
                                      (new_entry s0 uuid payload meta timestamp (now 0))))))),
      (new_entry s0 uuid payload meta timestamp (now 0)).
    split; [reflexivity|]. split; [|reflexivity].
    unfold getAllPayloads in *. simpl. apply slice_last_short.
    rewrite length_app. simpl. unfold MAX_PAYLOADS. lia.
  - intros s0 request0 Hcr Hlen. rewrite addRequest_eq.
    destruct (process_all_creating_uuid (rq_uuid request0) (rq_meta request0) timestamp
                now (rq_payloads request0) s0 0 Hcr)
      as (s1 & news & -> & Hps & _ & Hsum).
    eexists. split; [reflexivity|]. unfold getAllPayloads in *. simpl.
    rewrite slice_last_short.
    + by rewrite Hps, map_app, Hsum.
    + rewrite Hps, length_app.
      rewrite <- (List.length_map summary news), Hsum, List.length_map.
      unfold MAX_PAYLOADS. lia.
  - intros s0 uuid payload meta pre p post Htype Hv Hs Hp Hpost Hlen.
    assert (In (rp_type payload) ["color"; "label"; "size"; "hide"]) as Htype'
      by (simpl in *; tauto).
    assert (String.eqb (rp_type payload) "hide" = false) as Hh
      by (simpl in Htype; destruct Htype as [H|[H|[H|[]]]]; by rewrite <- H).
    destruct (directive_fields s0 uuid payload meta timestamp (now 0) pre p post JUndefined
                Htype' Hs Hp Hpost) as (p' & Hrun & Hf & Hc & Hl & Hz & Hhid).
    { by rewrite Hh. }
    rewrite Hh in Hhid.
    rewrite addRequest_eq. simpl. rewrite Hrun.
    eexists _, p'. split; [reflexivity|].
    split; [|by repeat split].
    unfold getAllPayloads in *. simpl. apply slice_last_short.
    rewrite Hs in Hlen. rewrite length_app in *. simpl in *. unfold MAX_PAYLOADS. lia.
  - intros s0 uuid meta before payload after Hbefore Ht Hn. split.
    + rewrite addRequest_eq. simpl. rewrite process_all_app.
      pose proof (process_all_returns uuid meta timestamp now before s0 0 Hbefore) as H.
      destruct (process_all s0 uuid meta timestamp now 0 before) as [s1 [[]|e]];
        simpl in H; [|discriminate].
      simpl. rewrite processPayload_new_screen by exact Ht.
      by rewrite get_prop_nullish.
    + rewrite addRequest_eq. simpl. rewrite processPayload_new_screen by exact Ht.
      by rewrite get_prop_nullish.
Qed.

Lemma addRequest_returns_unless_null_content_witness :
  let r := request "abc" [log_payload "x"; directive "color" (JObj 7 []);
                          directive "new_screen" (JStr "oops"); directive "log" JNull] in
  let red := set_payloads Store.store [set_color (entry "1-0" "abc") (JStr "red")] in
  Forall (fun payload =>
            reads_content (rp_type payload) = true -> nullish (rp_content payload) = false)
    (rq_payloads r)
  /\ (exists s', addRequest Store.store r 5 (fun _ => 5%Z) = (s', Return tt))
  /\ (exists s' p',
        addRequest red (request "abc" [directive "color" (JObj 7 [])]) 5 (fun _ => 5%Z)
        = (s', Return tt)
        /\ getAllPayloads s' = [p'] /\ sp_color p' = JUndefined)
  /\ snd (addRequest Store.store
            (request "abc" [log_payload "x"; directive "new_screen" JNull]) 5
            (fun _ => 5%Z))
     = Throw TypeError.
Proof.
  assert (Forall (fun payload =>
                    reads_content (rp_type payload) = true ->
                    nullish (rp_content payload) = false)
            (rq_payloads
               (request "abc" [log_payload "x"; directive "color" (JObj 7 []);
                               directive "new_screen" (JStr "oops");
                               directive "log" JNull]))) as Hall.
  { repeat constructor; simpl; intros; try reflexivity; discriminate. }
  split; [exact Hall|].
  destruct (addRequest_returns_unless_null_content Store.store _ 5 (fun _ => 5%Z) Hall)
    as ((s' & Hs' & _) & _ & _ & _ & Hlack & Hthrow).
  split; [by exists s'|]. split.
  - destruct (Hlack (set_payloads Store.store [set_color (entry "1-0" "abc") (JStr "red")])
                "abc" (directive "color" (JObj 7 [])) JUndefined []
                (set_color (entry "1-0" "abc") (JStr "red")) [])
      as (s1 & p' & Hrun & Hps & _ & Hc & _).
    + left. reflexivity.
    + reflexivity.
    + reflexivity.
    + reflexivity.
    + constructor.
    + simpl. lia.
    + exists s1, p'. split; [exact Hrun|]. split; [exact Hps|exact Hc].
  - apply (Hthrow Store.store "abc" JUndefined [log_payload "x"]
             (directive "new_screen" JNull) []).
    + repeat constructor.
    + reflexivity.
    + reflexivity.
Defined.

(** ** Language detection *)



(** The classification of some texts, one for each outcome. *)
Example detectLanguage_outcomes :
  detectLanguage "<div>hi</div>" = Some "html"
  /\ detectLanguage "<?xml version='1.0'?><a></a>" = Some "xml"
  /\ detectLanguage "<p><script>let x</script></p>" = Some "html"
  /\ detectLanguage "  select * from users" = Some "sql"
  /\ detectLanguage "<?php echo 1;" = Some "php"
  /\ detectLanguage "const x = 1" = Some "javascript"
  /\ detectLanguage ".title { color: red }" = Some "css"
  /\ detectLanguage "{not json}" = None
  /\ detectLanguage "hello world" = None.
Proof. vm_compute. repeat split. Qed.

(** ** Previews *)

Lemma length_append (a b : string) :
  String.length (a ++ b)%string = String.length a + String.length b.
Proof. induction a as [|c a IH]; simpl; [reflexivity | by rewrite IH]. Qed.

Lemma length_take n s : String.length (Str.take n s) = Nat.min n (String.length s).
Proof.
  revert s. induction n as [|n IH]; intros [|c s]; simpl; try reflexivity.
  by rewrite IH.
Qed.

Lemma no_newline_append a b :
  no_newline (a ++ b)%string = no_newline a && no_newline b.
Proof.
  induction a as [|c a IH]; simpl; [reflexivity|]. by rewrite IH, andb_assoc.
Qed.

Lemma no_newline_take n s : no_newline s = true -> no_newline (Str.take n s) = true.
Proof.
  revert s. induction n as [|n IH]; intros [|c s]; simpl; try reflexivity.
  intros [H1 H2]%andb_true_iff. by rewrite H1, IH.
Qed.

Lemma no_newline_trimStart s : no_newline s = true -> no_newline (Str.trimStart s) = true.
Proof.
  induction s as [|c s IH]; simpl; [reflexivity|].
  intros H. destruct (Str.is_space c); [|exact H].
  apply andb_true_iff in H as [_ H]. by apply IH.
Qed.

Lemma no_newline_trimEnd s : no_newline s = true -> no_newline (Str.trimEnd s) = true.
Proof.
  induction s as [|c s IH]; simpl; [reflexivity|].
  intros [H1 H2]%andb_true_iff.
  destruct (Str.is_space c && Str.is_empty (Str.trimEnd s)); [reflexivity|].
  simpl. by rewrite H1, IH.
Qed.

Lemma no_newline_replace s : no_newline (Str.replace_newlines s) = true.
Proof.
  unfold Str.replace_newlines. induction s as [|c s IH]; simpl; [reflexivity|].
  rewrite IH, andb_true_r. by destruct (Ascii.eqb c Str.newline) eqn:E; [|rewrite E].
Qed.

Lemma prefix_one c x s :
  String.prefix (String c EmptyString) (String x s) = if ascii_dec c x then true else false.
Proof. cbn [String.prefix]. by destruct (ascii_dec c x), s. Qed.

Lemma no_newline_single_line s : no_newline s = true -> single_line s.
Proof.
  unfold single_line. induction s as [|c s IH]; [reflexivity|].
  cbn [no_newline Str.includes]. intros [H1 H2]%andb_true_iff.
  rewrite (IH H2), orb_false_r, prefix_one.
  destruct (ascii_dec Str.newline c) as [<-|Hne]; [|reflexivity].
  by rewrite Ascii.eqb_refl in H1.
Qed.





(** Decide the tests of a [switch] on a known tag. *)
Ltac decide_tests :=
  repeat match goal with
         | |- context [String.eqb ?a ?b] =>
             let r := eval vm_compute in (String.eqb a b) in
             change (String.eqb a b) with r
         end;
  cbn [orb andb negb].





(** Nor is the preview of an unknown tag shortened, or that of a carbon
    entry made a single line; and a content that lacks what the rule of
    its tag reads makes [getPreviewText] throw. *)
Example unbounded_previews :
  getPreviewText (entry_of (repeat_char "x" 64) JNull) = Return (JStr (repeat_char "x" 64))
  /\ getPreviewText
       (entry_of "carbon" (JObj 1 [("formatted", JStr (String Str.newline "2024"))]))
     = Return (JStr (String Str.newline "2024"))
  /\ getPreviewText (entry_of "log" JNull) = Throw TypeError
  /\ getPreviewText (entry_of "log" (JObj 1 [])) = Throw TypeError.
Proof. vm_compute. repeat split. Qed.



(** * Further properties of the store *)

(** ** Lookup by identifier *)

Lemma find_unique (l : list StoredPayload) p :
  NoDup (List.map sp_id l) -> In p l ->
  List.find (fun q => String.eqb (sp_id q) (sp_id p)) l = Some p.
Proof.
  induction l as [|a l IH]; intros Hnd Hin; [contradiction|].
  simpl in *. apply NoDup_cons in Hnd as [Hna Hnd].
  destruct Hin as [-> | Hin].
  - by rewrite String.eqb_refl.
  - destruct (String.eqb (sp_id a) (sp_id p)) eqn:E; [|by apply IH].
    exfalso. apply String.eqb_eq in E. apply Hna. rewrite E.
    by apply list_elem_of_In, in_map.
Qed.

(** X1. In a store that satisfies the invariant of the identifiers,
    [getPayloadById] returns each stored entry when given its identifier;
    in any store it returns [undefined] exactly when no stored entry has
    the identifier, and what it returns is stored under that identifier. *)
Theorem getPayloadById_round_trip s :
  (store_ok s -> forall p, In p (getAllPayloads s) -> getPayloadById s (sp_id p) = Some p)
  /\ (forall id, getPayloadById s id = None <-> ~ In id (List.map sp_id (getAllPayloads s)))
  /\ (forall id p, getPayloadById s id = Some p -> In p (getAllPayloads s) /\ sp_id p = id).
Proof.
  unfold getPayloadById, getAllPayloads. split; [|split].
  - intros Hok p Hin. apply find_unique; [by apply store_ok_NoDup | exact Hin].
  - intros id. split.
    + intros Hnone (p & Hid & Hin)%in_map_iff.
      pose proof (find_none _ _ Hnone p Hin) as H. simpl in H.
      rewrite Hid, String.eqb_refl in H. discriminate.
    + intros Hnot. destruct (List.find _ _) as [p|] eqn:E; [|reflexivity].
      apply find_some in E as [Hin Heq]. apply String.eqb_eq in Heq.
      exfalso. apply Hnot. rewrite <- Heq. by apply in_map.
  - intros id p [Hin Heq]%find_some. by apply String.eqb_eq in Heq.
Qed.

Lemma getPayloadById_round_trip_witness :
  store_ok two_logs
  /\ (forall p, In p (getAllPayloads two_logs) -> getPayloadById two_logs (sp_id p) = Some p)
  /\ getPayloadById two_logs "5-7" = None.
Proof.
  destruct (getPayloadById_round_trip two_logs) as (H1 & H2 & _).
  split; [exact store_ok_two_logs|]. split; [exact (H1 store_ok_two_logs)|].
  apply H2. vm_compute. intuition discriminate.
Defined.

(** ** The set of screens *)

Lemma strict_equal_refl v : strict_equal v v = true.
Proof.
  destruct v; simpl; try reflexivity;
    auto using String.eqb_refl, N.eqb_refl, Bool.eqb_reflx.
Qed.

Lemma Set_add_spec v screens :
  pairwise_distinct screens ->
  pairwise_distinct (Set_add v screens)
  /\ (exists x, In x (Set_add v screens) /\ strict_equal v x = true)
  /\ (forall x, In x screens -> In x (Set_add v screens))
  /\ (forall x, In x (Set_add v screens) -> In x screens \/ x = v).
Proof.
  intros Hd. unfold Set_add. destruct (List.existsb (strict_equal v) screens) eqn:E.
  - split; [exact Hd|]. split; [|split; [auto | auto]].
    apply existsb_exists in E as (x & Hin & Heq). eauto.
  - split; [|split; [|split]].
    + intros i j x y Hlt Hi Hj.
      destruct (Nat.lt_ge_cases j (length screens)) as [Hj'|Hj'].
      * rewrite lookup_app_l in Hi, Hj by lia. eauto.
      * rewrite lookup_app_r in Hj by lia.
        destruct (j - length screens) as [|k] eqn:Ek; [|by destruct k].
        injection Hj as <-. rewrite lookup_app_l in Hi by lia.
        assert (In x screens) as Hin
          by (apply list_elem_of_In, list_elem_of_lookup; eauto).
        destruct (strict_equal v x) eqn:Ex; [|reflexivity].
        assert (List.existsb (strict_equal v) screens = true) as Hex
          by (apply existsb_exists; eauto).
        congruence.
    + exists v. split; [apply in_or_app; right; by left | apply strict_equal_refl].
    + intros x Hin. apply in_or_app. by left.
    + intros x [Hin | [<- | []]]%in_app_or; auto.
Qed.

Lemma screens_fold ps : forall acc,
  pairwise_distinct acc ->
  let screens :=
    List.fold_left
      (fun screens p =>
         if truthy (sp_screen p) then Set_add (sp_screen p) screens else screens)
      ps acc in
  pairwise_distinct screens
  /\ (forall x, In x acc -> In x screens)
  /\ (forall x, In x screens ->
        In x acc \/ (truthy x = true /\ exists p, In p ps /\ sp_screen p = x))
  /\ (forall p, In p ps -> truthy (sp_screen p) = true ->
        exists x, In x screens /\ strict_equal (sp_screen p) x = true).
Proof.
  induction ps as [|a ps IH]; intros acc Hd; cbv zeta.
  - simpl. repeat split; auto. intros p [].
  - simpl. destruct (truthy (sp_screen a)) eqn:Ea.
    + destruct (Set_add_spec (sp_screen a) acc Hd) as (Hd' & (x0 & Hx0 & Heq0) & Hsub & Hinv).
      destruct (IH _ Hd') as (H1 & H2 & H3 & H4). cbv zeta in *.
      split; [exact H1|]. split; [auto|]. split.
      * intros x Hx. destruct (H3 x Hx) as [Hacc | (Ht & p & Hp & Hs)].
        -- destruct (Hinv x Hacc) as [? | ->]; [by left|]. right. eauto.
        -- right. eauto 6.
      * intros p [<- | Hp] Ht; [|eauto]. exists x0. split; [auto | exact Heq0].
    + destruct (IH _ Hd) as (H1 & H2 & H3 & H4). cbv zeta in *.
      split; [exact H1|]. split; [auto|]. split.
      * intros x Hx. destruct (H3 x Hx) as [Hacc | (Ht & p & Hp & Hs)]; [by left|].
        right. eauto 6.
      * intros p [<- | Hp] Ht; [congruence | eauto].
Qed.

(** X2. [getScreens] returns a set of the screens of the stored entries:
    each value returned is the screen of a stored entry and is truthy (the
    empty string and [undefined] never appear), the screen of every stored
    entry that is truthy is represented, and no two values returned are
    equal for [===]. Hidden entries count like the others. *)
Theorem getScreens_is_the_set_of_screens s :
  pairwise_distinct (getScreens s)
  /\ (forall x, In x (getScreens s) ->
        truthy x = true /\ exists p, In p (getAllPayloads s) /\ sp_screen p = x)
  /\ (forall p, In p (getAllPayloads s) -> truthy (sp_screen p) = true ->
        exists x, In x (getScreens s) /\ strict_equal (sp_screen p) x = true)
  /\ ~ In (JStr "") (getScreens s) /\ ~ In JUndefined (getScreens s).
Proof.
  assert (pairwise_distinct []) as Hd by (intros i j x y _ Hi; by destruct i).
  destruct (screens_fold (payloads s) [] Hd) as (H1 & _ & H3 & H4). cbv zeta in *.
  assert (forall x, In x (getScreens s) ->
            truthy x = true /\ exists p, In p (getAllPayloads s) /\ sp_screen p = x) as H5.
  { intros x Hx. by destruct (H3 x Hx) as [[] | H]. }
  split; [exact H1|]. split; [exact H5|]. split; [exact H4|].
  split; intros Hin; by destruct (H5 _ Hin) as [Ht _].
Qed.

(** ** The views *)

Lemma strict_equal_JStr v text : strict_equal v (JStr text) = true <-> v = JStr text.
Proof.
  split; [|intros ->; apply strict_equal_refl].
  destruct v; simpl; try discriminate. by intros ->%String.eqb_eq.
Qed.

(** X3. The view of a screen lists, in the order of the history, the
    entries that are not hidden and whose screen is that very string: it
    is part of the non-hidden view, which is part of the history; the
    views of two different screens share no entry, and an entry whose
    screen is not a string (a switch-screen event without a name stamps
    [undefined]) is in the view of no screen. *)
Theorem views_partition_by_screen s :
  (forall screen, sublist (getPayloadsByScreen s screen) (getPayloads s))
  /\ sublist (getPayloads s) (getAllPayloads s)
  /\ (forall screen p,
        In p (getPayloadsByScreen s screen)
        <-> In p (getPayloads s) /\ sp_screen p = JStr screen)
  /\ (forall a b p,
        In p (getPayloadsByScreen s a) -> In p (getPayloadsByScreen s b) -> a = b)
  /\ (forall p screen,
        (forall text, sp_screen p <> JStr text) -> ~ In p (getPayloadsByScreen s screen)).
Proof.
  assert (forall screen p,
            In p (getPayloadsByScreen s screen)
            <-> In p (getPayloads s) /\ sp_screen p = JStr screen) as Hiff.
  { intros screen p. unfold getPayloadsByScreen, getPayloads.
    rewrite !filter_In, andb_true_iff, strict_equal_JStr. tauto. }
  split; [|split; [|split; [exact Hiff|split]]].
  - intros screen. unfold getPayloadsByScreen, getPayloads.
    induction (payloads s) as [|a l IH]; simpl; [constructor|].
    destruct (negb (truthy (sp_hidden a))); rewrite ?andb_true_r, ?andb_false_r.
    + destruct (strict_equal _ _); by constructor.
    + exact IH.
  - apply filter_sublist.
  - intros a b p [_ Ha]%Hiff [_ Hb]%Hiff. congruence.
  - intros p screen Hno [_ H]%Hiff. by apply (Hno screen).
Qed.

(** ** Clearing *)

(** X4. [clear()] does to the store what a batch made of one clear-all
    event does: both leave the same store, the history empty, the
    counter, the current screen and the identifiers handed out as they
    were, the listeners notified once; and the batch returns. *)
Theorem clear_is_a_clear_all_batch s uuid payload meta timestamp now :
  rp_type payload = "clear_all" ->
  addRequest s {| rq_uuid := uuid; rq_payloads := [payload]; rq_meta := meta |}
    timestamp now
  = (clear s, Return tt)
  /\ getAllPayloads (clear s) = []
  /\ payloadCounter (clear s) = payloadCounter s
  /\ getCurrentScreen (clear s) = getCurrentScreen s
  /\ notifications (clear s) = S (notifications s).
Proof.
  intros Ht. split; [|by repeat split].
  rewrite addRequest_eq. simpl.
  by rewrite processPayload_clear_all by exact Ht.
Qed.

Lemma clear_is_a_clear_all_batch_witness :
  rp_type (directive "clear_all" JNull) = "clear_all"
  /\ addRequest two_logs (request "abc" [directive "clear_all" JNull]) 9 (fun _ => 9%Z)
     = (clear two_logs, Return tt).
Proof.
  split; [reflexivity|].
  exact (proj1 (clear_is_a_clear_all_batch two_logs "abc" (directive "clear_all" JNull)
                  JUndefined 9 (fun _ => 9%Z) eq_refl)).
Defined.

(** ** Exceptions *)

Lemma has_target_false s uuid :
  has_target s uuid = false <-> Forall (other uuid) (payloads s).
Proof.
  unfold has_target. induction (payloads s) as [|a l IH]; simpl.
  - split; [constructor | reflexivity].
  - rewrite orb_false_iff, IH, Forall_cons. unfold other at 2.
    by rewrite String.eqb_neq.
Qed.

Lemma has_target_true s uuid :
  has_target s uuid = true ->
  exists pre p post,
    payloads s = pre ++ p :: post /\ sp_uuid p = uuid /\ Forall (other uuid) post.
Proof.
  intros H. destruct (scan_cases uuid (payloads s)) as [Hnone | Hsome]; [|exact Hsome].
  apply has_target_false in Hnone. congruence.
Qed.

(** The outcome of a directive that reads the property [k] of its content
    for the target. *)
Lemma reading_directive s uuid content k (set : StoredPayload -> value -> StoredPayload) :
  applyToPayload s uuid (fun p => bind (get_prop content k) (fun v => Return (set p v)))
  = if nullish content && has_target s uuid then (s, Throw TypeError)
    else (fst (applyToPayload s uuid
                 (fun p => bind (get_prop content k) (fun v => Return (set p v)))),
          Return tt).
Proof.
  destruct (has_target s uuid) eqn:Et.
  - destruct (has_target_true s uuid Et) as (pre & p & post & Hs & Hp & Hpost).
    rewrite (applyToPayload_found _ _ s pre p post) by assumption.
    destruct (nullish content) eqn:En; simpl.
    + by rewrite get_prop_nullish.
    + by destruct (get_prop_defined content k En) as [x ->].
  - rewrite andb_false_r. rewrite applyToPayload_none; [reflexivity|].
    by apply has_target_false.
Qed.

Lemma step_throws s uuid payload meta timestamp now :
  processPayload s uuid payload meta timestamp now
  = if throwing s uuid payload then (s, Throw TypeError)
    else (fst (processPayload s uuid payload meta timestamp now), Return tt).
Proof.
  unfold throwing.
  destruct (type_cases payload) as [H|[H|[H|[H|[H|[H|[H|[H|H]]]]]]]].
  - destruct (creates_entry_tests payload H) as (H1 & H2 & H3 & H4 & _).
    cbn [List.existsb]. rewrite H1, H2, H3, H4. cbn [orb andb]. rewrite andb_false_r.
    by rewrite processPayload_create.
  - rewrite processPayload_color by exact H. rewrite reading_directive at 1.
    rewrite H. cbn [List.existsb]. by destruct (nullish _), (has_target _ _).
  - rewrite processPayload_label by exact H. rewrite reading_directive at 1.
    rewrite H. cbn [List.existsb]. by destruct (nullish _), (has_target _ _).
  - rewrite processPayload_size by exact H. rewrite reading_directive at 1.
    rewrite H. cbn [List.existsb]. by destruct (nullish _), (has_target _ _).
  - replace (nullish _ && _) with false
      by (rewrite H; simpl; by rewrite andb_false_r).
    pose proof (step_returns s uuid payload meta timestamp now) as Hr.
    destruct (processPayload _ _ _ _ _ _) as [s' c]. simpl in *.
    rewrite Hr; [reflexivity|]. rewrite H. discriminate.
  - rewrite processPayload_new_screen by exact H. rewrite H.
    cbn [List.existsb]. simpl String.eqb. cbn [orb andb]. rewrite andb_true_r.
    destruct (nullish (rp_content payload)) eqn:En.
    + by rewrite get_prop_nullish.
    + by destruct (get_prop_defined (rp_content payload) "name" En) as [x ->].
  - rewrite processPayload_clear_all by exact H. rewrite H. simpl. by rewrite andb_false_r.
  - rewrite processPayload_remove by exact H. rewrite H. simpl. by rewrite andb_false_r.
  - rewrite processPayload_ignored by exact H.
    destruct H as [H|[H|H]]; rewrite H; simpl; by rewrite andb_false_r.
Qed.

(** X5. [processPayload] throws on exactly these events: a switch-screen
    event whose content is [null] or [undefined], and a set-color,
    set-label or set-size event with such a content when some stored entry
    carries the correlation id of the batch. An event that throws leaves
    the store as it was. *)
Theorem processPayload_throws_exactly_when s uuid payload meta timestamp now :
  (snd (processPayload s uuid payload meta timestamp now) = Throw TypeError
   <-> throwing s uuid payload = true)
  /\ (snd (processPayload s uuid payload meta timestamp now) = Return tt
      <-> throwing s uuid payload = false)
  /\ (throwing s uuid payload = true ->
      fst (processPayload s uuid payload meta timestamp now) = s).
Proof.
  rewrite step_throws. destruct (throwing s uuid payload); simpl.
  - repeat split; try done.
  - repeat split; try done.
Qed.

Lemma processPayload_throws_exactly_when_witness :
  throwing two_logs "1" (directive "label" JNull) = true
  /\ fst (processPayload two_logs "1" (directive "label" JNull) JUndefined 9 9) = two_logs
  /\ throwing two_logs "none" (directive "label" JNull) = false.
Proof.
  split; [reflexivity|]. split; [|reflexivity].
  apply (processPayload_throws_exactly_when two_logs "1" (directive "label" JNull)
           JUndefined 9 9).
  reflexivity.
Defined.

Lemma process_all_throw uuid meta timestamp now before payload after : forall s i s1,
  process_all s uuid meta timestamp now i before = (s1, Return tt) ->
  throwing s1 uuid payload = true ->
  process_all s uuid meta timestamp now i (before ++ payload :: after)
  = (s1, Throw TypeError).
Proof.
  intros s i s1 Hb Ht. rewrite process_all_app, Hb. simpl.
  by rewrite step_throws, Ht.
Qed.

Lemma process_all_throw_inv uuid meta timestamp now l : forall s i s' e,
  process_all s uuid meta timestamp now i l = (s', Throw e) ->
  exists before payload after,
    l = before ++ payload :: after
    /\ process_all s uuid meta timestamp now i before = (s', Return tt)
    /\ throwing s' uuid payload = true /\ e = TypeError.
Proof.
  induction l as [|a l IH]; intros s i s' e; simpl; [discriminate|].
  rewrite step_throws. destruct (throwing s uuid a) eqn:Et.
  - intros [= <- <-]. by exists [], a, l.
  - intros H. destruct (IH _ _ _ _ H) as (before & payload & after & -> & Hb & Hp & He).
    exists (a :: before), payload, after. simpl. rewrite step_throws, Et.
    by rewrite Hb.
Qed.

(** X6. When an event of a batch throws, [addRequest] throws with it: the
    events before it stay applied, the events after it are not processed
    (the store left does not depend on them), the history is not trimmed
    and the listeners are not notified. [addRequest] throws in no other
    way. *)
Theorem addRequest_throw_keeps_prefix s uuid meta timestamp now before payload after s1 :
  process_all s uuid meta timestamp now 0 before = (s1, Return tt) ->
  throwing s1 uuid payload = true ->
  addRequest s {| rq_uuid := uuid; rq_payloads := before ++ payload :: after;
                  rq_meta := meta |} timestamp now
  = (s1, Throw TypeError)
  /\ notifications s1 = notifications s
  /\ (forall request s' e,
        addRequest s request timestamp now = (s', Throw e) ->
        exists before' payload' after',
          rq_payloads request = before' ++ payload' :: after'
          /\ process_all s (rq_uuid request) (rq_meta request) timestamp now 0 before'
             = (s', Return tt)
          /\ throwing s' (rq_uuid request) payload' = true).
Proof.
  intros Hb Ht. split; [|split].
  - rewrite addRequest_eq. simpl.
    by rewrite (process_all_throw uuid meta timestamp now before payload after s 0 s1).
  - pose proof (process_all_notifications uuid meta timestamp now before s 0) as H.
    by rewrite Hb in H.
  - clear Hb Ht. intros request s' e. rewrite addRequest_eq.
    destruct (process_all _ _ _ _ _ _ _) as [s2 [[]|e2]] eqn:E;
      [intros H; discriminate H|].
    intros [= <- <-].
    destruct (process_all_throw_inv _ _ _ _ _ _ _ _ _ E)
      as (before' & payload' & after' & H1 & H2 & H3 & _).
    by exists before', payload', after'.
Qed.

Lemma addRequest_throw_keeps_prefix_witness :
  let before := [log_payload "x"] in
  let bad := directive "new_screen" JNull in
  process_all Store.store "abc" JUndefined 5 (fun _ => 5%Z) 0 before
  = (with_entry Store.store
       (new_entry Store.store "abc" (log_payload "x") JUndefined 5 5), Return tt)
  /\ throwing (with_entry Store.store
                 (new_entry Store.store "abc" (log_payload "x") JUndefined 5 5))
       "abc" bad = true
  /\ addRequest Store.store (request "abc" (before ++ bad :: [log_payload "y"])) 5
       (fun _ => 5%Z)
     = (with_entry Store.store
          (new_entry Store.store "abc" (log_payload "x") JUndefined 5 5),
        Throw TypeError).
Proof.
  split; [reflexivity|]. split; [reflexivity|].
  exact (proj1 (addRequest_throw_keeps_prefix Store.store "abc" JUndefined 5
                  (fun _ => 5%Z) [log_payload "x"] (directive "new_screen" JNull)
                  [log_payload "y"] _ eq_refl eq_refl)).
Defined.

(** X7. A call of [addRequest] that returns notifies the listeners once,
    whatever the number of events of the batch, none included; a call that
    throws does not notify. *)
Theorem addRequest_notifies_once s request timestamp now :
  notifications (fst (addRequest s request timestamp now))
  = match snd (addRequest s request timestamp now) with
    | Return _ => S (notifications s)
    | Throw _ => notifications s
    end.
Proof.
  rewrite addRequest_eq.
  pose proof (process_all_notifications (rq_uuid request) (rq_meta request) timestamp now
                (rq_payloads request) s 0) as H.
  destruct (process_all _ _ _ _ _ _ _) as [s1 [[]|e]]; simpl in *; by rewrite H.
Qed.

(** ** Events without effect *)

Lemma targeted_cases type :
  targeted type = true ->
  type = "color" \/ type = "label" \/ type = "size" \/ type = "hide".
Proof.
  unfold targeted. cbn [List.existsb]. rewrite !orb_true_iff, !String.eqb_eq.
  intuition discriminate.
Qed.

Lemma ignored_cases type :
  ignored type = true -> type = "show_app" \/ type = "hide_app" \/ type = "confetti".
Proof.
  unfold ignored. cbn [List.existsb]. rewrite !orb_true_iff, !String.eqb_eq.
  intuition discriminate.
Qed.

Lemma step_without_target s uuid payload meta timestamp now :
  targeted (rp_type payload) = true \/ ignored (rp_type payload) = true ->
  has_target s uuid = false ->
  processPayload s uuid payload meta timestamp now = (s, Return tt).
Proof.
  intros Ht Hn%has_target_false.
  destruct Ht as [[H|[H|[H|H]]]%targeted_cases | H%ignored_cases].
  - rewrite processPayload_color by exact H. by apply applyToPayload_none.
  - rewrite processPayload_label by exact H. by apply applyToPayload_none.
  - rewrite processPayload_size by exact H. by apply applyToPayload_none.
  - rewrite processPayload_hide by exact H. by apply applyToPayload_none.
  - by apply processPayload_ignored.
Qed.

Lemma process_all_without_target uuid meta timestamp now l : forall s i,
  Forall (fun payload =>
            targeted (rp_type payload) = true \/ ignored (rp_type payload) = true) l ->
  has_target s uuid = false ->
  process_all s uuid meta timestamp now i l = (s, Return tt).
Proof.
  induction l as [|a l IH]; intros s i Hall Hn; [reflexivity|]. simpl.
  apply Forall_cons in Hall as [Ha Hall].
  rewrite step_without_target by assumption. by apply IH.
Qed.

(** X8. A batch made of set-color, set-label, set-size and hide directives
    and of the ignored tags (show_app, hide_app, confetti), sent under a
    correlation id that no stored entry carries, changes nothing in a
    store within the retention bound but the count of notifications; it
    returns whatever the contents are, [null] included. *)
Theorem batch_without_target_only_notifies s request timestamp now :
  Forall (fun payload =>
            targeted (rp_type payload) = true \/ ignored (rp_type payload) = true)
    (rq_payloads request) ->
  has_target s (rq_uuid request) = false ->
  length (getAllPayloads s) <= MAX_PAYLOADS ->
  addRequest s request timestamp now = (notify s, Return tt).
Proof.
  intros Hall Hn Hlen. rewrite addRequest_eq.
  rewrite process_all_without_target by assumption.
  by rewrite slice_last_short, set_payloads_same.
Qed.

Lemma batch_without_target_only_notifies_witness :
  let r := request "none" [directive "color" JNull; directive "hide" JNull;
                           directive "confetti" JNull] in
  Forall (fun payload =>
            targeted (rp_type payload) = true \/ ignored (rp_type payload) = true)
    (rq_payloads r)
  /\ has_target two_logs (rq_uuid r) = false
  /\ length (getAllPayloads two_logs) <= MAX_PAYLOADS
  /\ addRequest two_logs r 9 (fun _ => 9%Z) = (notify two_logs, Return tt).
Proof.
  assert (Forall (fun payload =>
                    targeted (rp_type payload) = true \/ ignored (rp_type payload) = true)
            [directive "color" JNull; directive "hide" JNull; directive "confetti" JNull])
    as Hall.
  { repeat (constructor; [first [left; reflexivity | right; reflexivity]|]).
    constructor. }
  assert (length (getAllPayloads two_logs) <= MAX_PAYLOADS) as Hlen
    by (vm_compute; lia).
  split; [exact Hall|]. split; [reflexivity|]. split; [exact Hlen|].
  exact (batch_without_target_only_notifies two_logs
           (request "none" [directive "color" JNull; directive "hide" JNull;
                            directive "confetti" JNull]) 9 (fun _ => 9%Z)
           Hall eq_refl Hlen).
Defined.

(** X9. After a remove event no stored entry carries the correlation id of
    the batch, so the targeted directives that follow it in the batch find
    no target: the batch returns, even when their content is [null], and
    leaves the history without the entries of that id, the other entries
    untouched. *)
Theorem remove_disarms_later_directives s uuid meta timestamp now payload after :
  rp_type payload = "remove" ->
  Forall (fun later =>
            targeted (rp_type later) = true \/ ignored (rp_type later) = true) after ->
  process_all s uuid meta timestamp now 0 (payload :: after)
  = (set_payloads s
       (List.filter (fun p => negb (String.eqb (sp_uuid p) uuid)) (payloads s)),
     Return tt)
  /\ has_target
       (fst (process_all s uuid meta timestamp now 0 (payload :: after))) uuid = false.
Proof.
  intros Ht Hall.
  assert (has_target
            (set_payloads s
               (List.filter (fun p => negb (String.eqb (sp_uuid p) uuid)) (payloads s)))
            uuid = false) as Hn.
  { apply has_target_false. simpl. apply Forall_forall.
    intros p [_ Hp]%list_elem_of_In%filter_In.
    apply negb_true_iff in Hp. by apply String.eqb_neq. }
  simpl. rewrite processPayload_remove by exact Ht.
  rewrite process_all_without_target by assumption. by split.
Qed.

Lemma remove_disarms_later_directives_witness :
  let after := [directive "color" JNull; directive "hide" JNull] in
  rp_type (directive "remove" JNull) = "remove"
  /\ Forall (fun later =>
               targeted (rp_type later) = true \/ ignored (rp_type later) = true) after
  /\ List.map sp_uuid
       (payloads (fst (process_all two_logs "1" JUndefined 9 (fun _ => 9%Z) 0
                         (directive "remove" JNull :: after))))
     = ["0"].
Proof.
  assert (Forall (fun later =>
                    targeted (rp_type later) = true \/ ignored (rp_type later) = true)
            [directive "color" JNull; directive "hide" JNull]) as Hall.
  { repeat (constructor; [first [left; reflexivity | right; reflexivity]|]).
    constructor. }
  split; [reflexivity|]. split; [exact Hall|].
  cbv zeta.
  rewrite (proj1 (remove_disarms_later_directives two_logs "1" JUndefined 9
                    (fun _ => 9%Z) (directive "remove" JNull) _ eq_refl Hall)).
  reflexivity.
Defined.

(** ** Hidden entries *)

Lemma directive_on_target s uuid payload meta timestamp now f pre p post :
  directive_effect (rp_type payload) (rp_content payload) f ->
  payloads s = pre ++ p :: post -> sp_uuid p = uuid -> Forall (other uuid) post ->
  processPayload s uuid payload meta timestamp now
  = (set_payloads s (pre ++ f p :: post), Return tt).
Proof.
  intros Heff Hs Hp Hpost.
  inversion Heff as [c v Hv Ht | c v Hv Ht | c v Hv Ht | c Ht]; subst c; symmetry in Ht.
  - rewrite processPayload_color by exact Ht.
    rewrite (applyToPayload_found _ _ s pre p post) by assumption. by rewrite Hv.
  - rewrite processPayload_label by exact Ht.
    rewrite (applyToPayload_found _ _ s pre p post) by assumption. by rewrite Hv.
  - rewrite processPayload_size by exact Ht.
    rewrite (applyToPayload_found _ _ s pre p post) by assumption. by rewrite Hv.
  - rewrite processPayload_hide by exact Ht.
    by rewrite (applyToPayload_found _ _ s pre p post) by assumption.
Qed.

Lemma directive_effect_uuid type content f p :
  directive_effect type content f -> sp_uuid (f p) = sp_uuid p.
Proof. by destruct 1. Qed.

(** X10. The scan for a target does not look at the hidden flag: a
    directive that follows a hide directive in a batch reaches the entry
    that was just hidden, the most recent one of the correlation id, and
    hiding an entry twice leaves it as hiding it once does. *)
Theorem hidden_entry_stays_the_target s uuid meta timestamp now hide payload f pre p post :
  rp_type hide = "hide" ->
  directive_effect (rp_type payload) (rp_content payload) f ->
  payloads s = pre ++ p :: post -> sp_uuid p = uuid -> Forall (other uuid) post ->
  process_all s uuid meta timestamp now 0 [hide; payload]
  = (set_payloads s (pre ++ f (set_hidden p (JBool true)) :: post), Return tt)
  /\ process_all s uuid meta timestamp now 0 [hide; hide]
     = process_all s uuid meta timestamp now 0 [hide].
Proof.
  intros Hh Heff Hs Hp Hpost.
  assert (directive_effect (rp_type hide) (rp_content hide)
            (fun q => set_hidden q (JBool true))) as Hhide
    by (rewrite Hh; constructor).
  simpl.
  rewrite (directive_on_target s uuid hide meta timestamp (now 0) _ pre p post Hhide)
    by assumption.
  split.
  - by rewrite (directive_on_target _ uuid payload meta timestamp (now 1) f pre
                  (set_hidden p (JBool true)) post Heff).
  - by rewrite (directive_on_target _ uuid hide meta timestamp (now 1) _ pre
                  (set_hidden p (JBool true)) post Hhide).
Qed.

Lemma hidden_entry_stays_the_target_witness :
  let s := set_payloads Store.store [entry "1-0" "abc"; entry "1-1" "zzz"] in
  let hide := directive "hide" JNull in
  let label := directive "label" (JObj 7 [("label", JStr "seen")]) in
  rp_type hide = "hide"
  /\ directive_effect (rp_type label) (rp_content label)
       (fun p => set_label p (JStr "seen"))
  /\ process_all s "abc" JUndefined 9 (fun _ => 9%Z) 0 [hide; label]
     = (set_payloads s
          [set_label (set_hidden (entry "1-0" "abc") (JBool true)) (JStr "seen");
           entry "1-1" "zzz"],
        Return tt).
Proof.
  assert (directive_effect "label" (JObj 7 [("label", JStr "seen")])
            (fun p => set_label p (JStr "seen"))) as Heff by (by constructor).
  split; [reflexivity|]. split; [exact Heff|].
  apply (hidden_entry_stays_the_target
           (set_payloads Store.store [entry "1-0" "abc"; entry "1-1" "zzz"])
           "abc" JUndefined 9 (fun _ => 9%Z) (directive "hide" JNull)
           (directive "label" (JObj 7 [("label", JStr "seen")]))
           (fun p => set_label p (JStr "seen")) [] (entry "1-0" "abc")
           [entry "1-1" "zzz"] eq_refl Heff eq_refl eq_refl).
  repeat constructor. discriminate.
Defined.

(** ** What a stored entry keeps *)

Lemma evolves_refl p : evolves p p.
Proof. by split. Qed.

Lemma evolves_trans p q r : evolves p q -> evolves q r -> evolves p r.
Proof. intros [H1 H2] [H3 H4]. split; [congruence | auto]. Qed.

Lemma applyToPayload_evolves s uuid modifier :
  (forall p p', modifier p = Return p' -> evolves p p') ->
  forall p', In p' (payloads (fst (applyToPayload s uuid modifier))) ->
             exists p, In p (payloads s) /\ evolves p p'.
Proof.
  intros Hm p'.
  destruct (scan_cases uuid (payloads s)) as [Hnone | (pre & p & post & Hs & Hp & Hpost)].
  - rewrite applyToPayload_none by exact Hnone. intros H. exists p'. auto using evolves_refl.
  - rewrite (applyToPayload_found uuid modifier s pre p post) by assumption.
    destruct (modifier p) as [q|e] eqn:E; simpl.
    + rewrite Hs. intros [H | [<- | H]]%in_app_or.
      * exists p'. split; [apply in_or_app; by left | apply evolves_refl].
      * exists p. split; [apply in_or_app; right; by left | by apply Hm].
      * exists p'. split; [apply in_or_app; right; by right | apply evolves_refl].
    + intros H. exists p'. auto using evolves_refl.
Qed.

Lemma step_lineage s uuid payload meta timestamp now p' :
  In p' (payloads (fst (processPayload s uuid payload meta timestamp now))) ->
  (exists p, In p (payloads s) /\ evolves p p')
  \/ p' = new_entry s uuid payload meta timestamp now.
Proof.
  destruct (type_cases payload) as [H|[H|[H|[H|[H|[H|[H|[H|H]]]]]]]].
  - rewrite processPayload_create by exact H. simpl.
    intros [Hin | [<- | []]]%in_app_or; [left | by right].
    exists p'. auto using evolves_refl.
  - rewrite processPayload_color by exact H. intros Hin. left.
    eapply applyToPayload_evolves; [|exact Hin].
    intros p q. destruct (get_prop _ _); simpl; [|done]. by intros [= <-].
  - rewrite processPayload_label by exact H. intros Hin. left.
    eapply applyToPayload_evolves; [|exact Hin].
    intros p q. destruct (get_prop _ _); simpl; [|done]. by intros [= <-].
  - rewrite processPayload_size by exact H. intros Hin. left.
    eapply applyToPayload_evolves; [|exact Hin].
    intros p q. destruct (get_prop _ _); simpl; [|done]. by intros [= <-].
  - rewrite processPayload_hide by exact H. intros Hin. left.
    eapply applyToPayload_evolves; [|exact Hin].
    intros p q [= <-]. by split.
  - rewrite processPayload_new_screen by exact H. intros Hin. left. exists p'.
    split; [by destruct (get_prop _ _) | apply evolves_refl].
  - rewrite processPayload_clear_all by exact H. intros [].
  - rewrite processPayload_remove by exact H. simpl. intros [Hin _]%filter_In. left.
    exists p'. auto using evolves_refl.
  - rewrite processPayload_ignored by exact H. intros Hin. left.
    exists p'. auto using evolves_refl.
Qed.

Lemma process_all_lineage uuid meta timestamp now l : forall s i p',
  In p' (payloads (fst (process_all s uuid meta timestamp now i l))) ->
  (exists p, In p (payloads s) /\ evolves p p')
  \/ (exists c, id_counter (sp_id p') = Some c /\ (payloadCounter s <= c)%N).
Proof.
  induction l as [|a l IH]; intros s i p'; simpl.
  - intros H. left. exists p'. auto using evolves_refl.
  - pose proof (step_lineage s uuid a meta timestamp (now i)) as H1.
    pose proof (step_counter s uuid a meta timestamp (now i)) as H2. cbv zeta in H2.
    assert (forall q, In q (payloads (fst (processPayload s uuid a meta timestamp (now i)))) ->
              (exists p, In p (payloads s) /\ evolves p q)
              \/ (exists c, id_counter (sp_id q) = Some c /\ (payloadCounter s <= c)%N))
      as H3.
    { intros q Hq. destruct (H1 q Hq) as [H | ->]; [by left | right].
      exists (payloadCounter s). simpl. rewrite id_counter_make_id. split; [done|lia]. }
    clear H1. destruct (processPayload _ _ _ _ _ _) as [s1 [[]|e]]; simpl in *;
      [|exact (H3 p')].
    intros Hp. destruct (IH s1 (S i) p' Hp) as [(p1 & Hin1 & He1) | (c & Hc & Hle)].
    + destruct (H3 p1 Hin1) as [(p0 & Hin0 & He0) | (c & Hc & Hle)].
      * left. exists p0. split; [done | by eapply evolves_trans].
      * right. exists c. destruct He1 as [He1 _]. unfold fixed_fields in He1.
        replace (sp_id p') with (sp_id p1) by congruence. done.
    + right. exists c. split; [done|lia].
Qed.

Lemma NoDup_map_inj (l : list StoredPayload) a b :
  NoDup (List.map sp_id l) -> In a l -> In b l -> sp_id a = sp_id b -> a = b.
Proof.
  induction l as [|x l IH]; intros Hnd Ha Hb Heq; [contradiction|].
  simpl in Hnd. apply NoDup_cons in Hnd as [Hx Hnd].
  destruct Ha as [-> | Ha], Hb as [-> | Hb]; auto.
  - exfalso. apply Hx. rewrite Heq. by apply list_elem_of_In, in_map.
  - exfalso. apply Hx. rewrite <- Heq. by apply list_elem_of_In, in_map.
Qed.

(** X11. In a store that satisfies the invariant of the identifiers, an
    entry that is still stored after a call of [addRequest], found by its
    identifier, has the uuid, type, content, origin, meta, timestamp and
    screen it had before the call, and is hidden if it was: a batch
    changes only the colour, label, size and hidden flag of the entries it
    keeps, and no event shows a hidden entry again. *)
Theorem stored_entry_keeps_its_fields s request timestamp now p p' :
  store_ok s ->
  In p (getAllPayloads s) ->
  In p' (getAllPayloads (fst (addRequest s request timestamp now))) ->
  sp_id p' = sp_id p ->
  fixed_fields p' = fixed_fields p
  /\ (truthy (sp_hidden p) = true -> truthy (sp_hidden p') = true).
Proof.
  intros Hok Hp Hp' Hid. unfold getAllPayloads in *.
  assert (In p' (payloads (fst (process_all s (rq_uuid request) (rq_meta request)
                                  timestamp now 0 (rq_payloads request))))) as Hin.
  { rewrite addRequest_eq in Hp'.
    destruct (process_all _ _ _ _ _ _ _) as [s1 [[]|e]]; simpl in *; [|exact Hp'].
    apply list_elem_of_In. eapply sublist_subseteq; [apply slice_last_sublist|].
    by apply list_elem_of_In. }
  destruct (process_all_lineage _ _ _ _ _ _ _ _ Hin) as [(p0 & Hin0 & He) | (c & Hc & Hle)].
  - assert (p0 = p) as ->; [|exact He].
    apply (NoDup_map_inj (payloads s)); auto using store_ok_NoDup.
    destruct He as [He _]. unfold fixed_fields in He. congruence.
  - exfalso. destruct Hok as (_ & Hb & Hsub).
    assert (sp_id p ∈ issued s) as Hiss.
    { eapply sublist_subseteq; [exact Hsub|]. by apply list_elem_of_In, in_map. }
    rewrite Forall_forall in Hb. destruct (Hb _ Hiss) as (c' & Hc' & Hlt).
    rewrite Hid in Hc. rewrite Hc in Hc'. injection Hc' as <-. lia.
Qed.

Lemma stored_entry_keeps_its_fields_witness :
  exists p p',
    store_ok two_logs
    /\ In p (getAllPayloads two_logs)
    /\ In p' (getAllPayloads
                (fst (addRequest two_logs
                        (request "1" [directive "hide" JNull; directive "color" (JStr "red");
                                      log_payload "y"]) 9 (fun _ => 9%Z))))
    /\ sp_id p' = sp_id p
    /\ sp_id p = "5-1"
    /\ fixed_fields p' = fixed_fields p
    /\ (truthy (sp_hidden p) = true -> truthy (sp_hidden p') = true).
Proof.
  exists (nth 1 (getAllPayloads two_logs) (entry "" "")),
    (nth 1 (getAllPayloads
              (fst (addRequest two_logs
                      (request "1" [directive "hide" JNull; directive "color" (JStr "red");
                                    log_payload "y"]) 9 (fun _ => 9%Z))))
       (entry "" "")).
  assert (In (nth 1 (getAllPayloads two_logs) (entry "" "")) (getAllPayloads two_logs))
    as Hp by (right; left; reflexivity).
  assert (In (nth 1 (getAllPayloads
                       (fst (addRequest two_logs
                               (request "1" [directive "hide" JNull;
                                             directive "color" (JStr "red");
                                             log_payload "y"]) 9 (fun _ => 9%Z))))
                (entry "" ""))
            (getAllPayloads
               (fst (addRequest two_logs
                       (request "1" [directive "hide" JNull; directive "color" (JStr "red");
                                     log_payload "y"]) 9 (fun _ => 9%Z)))))
    as Hp' by (right; left; reflexivity).
  split; [exact store_ok_two_logs|]. split; [exact Hp|]. split; [exact Hp'|].
  split; [reflexivity|]. split; [reflexivity|].
  exact (stored_entry_keeps_its_fields two_logs _ 9 (fun _ => 9%Z) _ _
           store_ok_two_logs Hp Hp' eq_refl).
Defined.

(** ** The stores that can be reached *)

Lemma step_count s uuid payload meta timestamp now :
  payloadCounter s = N.of_nat (length (issued s)) -> (payloadCounter s < MAX_EXACT)%N ->
  payloadCounter (fst (processPayload s uuid payload meta timestamp now))
  = N.of_nat (length (issued (fst (processPayload s uuid payload meta timestamp now)))).
Proof.
  intros HJ Hlt. destruct (creates_entry (rp_type payload)) eqn:E.
  - rewrite processPayload_create by exact E. simpl.
    rewrite incr_below by exact Hlt. rewrite length_app. simpl. lia.
  - by destruct (directive_frame s uuid payload meta timestamp now E) as (_ & -> & ->).
Qed.

Lemma process_all_count uuid meta timestamp now l : forall s i,
  payloadCounter s = N.of_nat (length (issued s)) ->
  (payloadCounter s + N.of_nat (length l) <= MAX_EXACT)%N ->
  payloadCounter (fst (process_all s uuid meta timestamp now i l))
  = N.of_nat (length (issued (fst (process_all s uuid meta timestamp now i l)))).
Proof.
  induction l as [|a l IH]; intros s i HJ Hle; [exact HJ|]. simpl in *.
  pose proof (step_count s uuid a meta timestamp (now i) HJ ltac:(lia)) as H1.
  pose proof (step_counter s uuid a meta timestamp (now i)) as H2. cbv zeta in H2.
  destruct (processPayload _ _ _ _ _ _) as [s1 [[]|e]]; simpl in *; [|exact H1].
  apply IH; [exact H1 | lia].
Qed.

Lemma addRequest_count s request timestamp now :
  payloadCounter s = N.of_nat (length (issued s)) ->
  (payloadCounter s + N.of_nat (length (rq_payloads request)) <= MAX_EXACT)%N ->
  payloadCounter (fst (addRequest s request timestamp now))
  = N.of_nat (length (issued (fst (addRequest s request timestamp now)))).
Proof.
  intros HJ Hle. rewrite addRequest_eq.
  pose proof (process_all_count (rq_uuid request) (rq_meta request) timestamp now
                (rq_payloads request) s 0 HJ Hle) as H.
  by destruct (process_all _ _ _ _ _ _ _) as [s1 [[]|e]].
Qed.

Lemma exec_invariant ops : forall s,
  store_ok s -> payloadCounter s = N.of_nat (length (issued s)) ->
  (payloadCounter s + N.of_nat (submitted_events ops) <= MAX_EXACT)%N ->
  store_ok (exec s ops)
  /\ payloadCounter (exec s ops) = N.of_nat (length (issued (exec s ops)))
  /\ (payloadCounter (exec s ops) <= payloadCounter s + N.of_nat (submitted_events ops))%N.
Proof.
  induction ops as [|[c|] ops IH]; intros s Hok HJ Hle; simpl in *.
  - split; [done|]. split; [done|]. lia.
  - destruct (addRequest_ok s (call_request c) (call_timestamp c) (call_now c) Hok
                ltac:(lia)) as [H1 H2].
    pose proof (addRequest_count s (call_request c) (call_timestamp c) (call_now c) HJ
                  ltac:(lia)) as H3.
    destruct (IH _ H1 H3 ltac:(lia)) as (H4 & H5 & H6).
    split; [exact H4|]. split; [exact H5|]. lia.
  - apply (IH (clear s)); [by apply store_ok_clear | exact HJ | exact Hle].
Qed.

(** X12. Every store reached from the new store by calls of [addRequest],
    returning or throwing, and of [clear] has a history in the order of
    creation under pairwise distinct identifiers, and its counter is the
    number of entries created so far, at most the number of events
    submitted. This holds while that number can be counted exactly by a
    JavaScript number. *)
Theorem reachable_store_invariant ops :
  (N.of_nat (submitted_events ops) <= MAX_EXACT)%N ->
  let s := exec Store.store ops in
  NoDup (List.map sp_id (getAllPayloads s))
  /\ StronglySorted id_lt (List.map sp_id (getAllPayloads s))
  /\ NoDup (issued s)
  /\ payloadCounter s = N.of_nat (length (issued s))
  /\ (payloadCounter s <= N.of_nat (submitted_events ops))%N.
Proof.
  intros Hle.
  destruct (exec_invariant ops Store.store store_ok_init eq_refl) as (H1 & H2 & H3).
  { simpl. lia. }
  cbv zeta. split; [by apply store_ok_NoDup|]. split; [by apply store_ok_sorted|].
  split; [by apply store_ok_issued_NoDup|]. split; [exact H2|]. simpl in H3. lia.
Qed.

Lemma reachable_store_invariant_witness :
  let ops := [Request (call_at_5 (request "a" [log_payload "x"; log_payload "y"]));
              Request (call_at_5 (request "a" [directive "new_screen" JNull]));
              Clear;
              Request (call_at_5 (request "b" [log_payload "z"]))] in
  (N.of_nat (submitted_events ops) <= MAX_EXACT)%N
  /\ NoDup (List.map sp_id (getAllPayloads (exec Store.store ops)))
  /\ payloadCounter (exec Store.store ops) = 3%N.
Proof.
  assert (N.of_nat (submitted_events
                      [Request (call_at_5 (request "a" [log_payload "x"; log_payload "y"]));
                       Request (call_at_5 (request "a" [directive "new_screen" JNull]));
                       Clear;
                       Request (call_at_5 (request "b" [log_payload "z"]))])
          <= MAX_EXACT)%N as Hle by (vm_compute; discriminate).
  split; [exact Hle|]. split; [|reflexivity].
  exact (proj1 (reachable_store_invariant _ Hle)).
Defined.

(** ** The length of the history *)

Lemma creations_cons a l :
  creations (a :: l) = (if creates_entry (rp_type a) then 1 else 0) + creations l.
Proof. unfold creations. simpl. by destruct (creates_entry (rp_type a)). Qed.

Lemma step_length s uuid payload meta timestamp now :
  length (payloads (fst (processPayload s uuid payload meta timestamp now)))
  <= length (payloads s) + (if creates_entry (rp_type payload) then 1 else 0)
  /\ (deleting (rp_type payload) = false ->
      length (payloads (fst (processPayload s uuid payload meta timestamp now)))
      = length (payloads s) + (if creates_entry (rp_type payload) then 1 else 0)).
Proof.
  destruct (creates_entry (rp_type payload)) eqn:E.
  - rewrite processPayload_create by exact E. simpl. rewrite length_app. simpl. lia.
  - destruct (directive_frame s uuid payload meta timestamp now E) as (Hsub & _).
    apply sublist_length in Hsub. rewrite !length_map in Hsub. split; [lia|].
    intros Hd. unfold deleting in Hd. apply orb_false_iff in Hd as [Hc Hr].
    apply String.eqb_neq in Hc, Hr.
    assert (List.map stamp (payloads (fst (processPayload s uuid payload meta timestamp now)))
            = List.map stamp (payloads s)) as Heq.
    { destruct (type_cases payload) as [H|[H|[H|[H|[H|[H|[H|[H|H]]]]]]]];
        try congruence.
      - rewrite processPayload_color by exact H. apply applyToPayload_frame.
        intros p q. destruct (get_prop _ _); simpl; [|done]. by intros [= <-].
      - rewrite processPayload_label by exact H. apply applyToPayload_frame.
        intros p q. destruct (get_prop _ _); simpl; [|done]. by intros [= <-].
      - rewrite processPayload_size by exact H. apply applyToPayload_frame.
        intros p q. destruct (get_prop _ _); simpl; [|done]. by intros [= <-].
      - rewrite processPayload_hide by exact H. apply applyToPayload_frame.
        intros p q. by intros [= <-].
      - rewrite processPayload_new_screen by exact H. by destruct (get_prop _ _).
      - by rewrite processPayload_ignored. }
    apply (f_equal length) in Heq. rewrite !length_map in Heq. lia.
Qed.

Lemma process_all_length uuid meta timestamp now l : forall s i,
  length (payloads (fst (process_all s uuid meta timestamp now i l)))
  <= length (payloads s) + creations l
  /\ (Forall (fun payload => deleting (rp_type payload) = false) l ->
      snd (process_all s uuid meta timestamp now i l) = Return tt ->
      length (payloads (fst (process_all s uuid meta timestamp now i l)))
      = length (payloads s) + creations l).
Proof.
  induction l as [|a l IH]; intros s i.
  - simpl. unfold creations. simpl. split; [lia|]. intros _ _. lia.
  - rewrite creations_cons. simpl.
    destruct (step_length s uuid a meta timestamp (now i)) as [H1 H2].
    destruct (processPayload _ _ _ _ _ _) as [s1 [[]|e]]; simpl in *.
    + destruct (IH s1 (S i)) as [H3 H4]. split; [lia|].
      intros [Ha Hall]%Forall_cons Hret. rewrite (H4 Hall Hret), (H2 Ha). lia.
    + split; [lia|]. intros _ Hret. discriminate.
Qed.

(** X13. A batch lengthens the history by one entry for each of its
    entry-creating events at most, whatever its outcome; when it returns
    and holds no clear-all or remove event, the history it leaves has
    exactly that many entries more, cut down to [MAX_PAYLOADS]: no
    directive but those two ever shortens the history. *)
Theorem history_grows_by_creations s request timestamp now :
  length (getAllPayloads (fst (addRequest s request timestamp now)))
  <= length (getAllPayloads s) + creations (rq_payloads request)
  /\ (Forall (fun payload => deleting (rp_type payload) = false) (rq_payloads request) ->
      snd (addRequest s request timestamp now) = Return tt ->
      length (getAllPayloads (fst (addRequest s request timestamp now)))
      = Nat.min MAX_PAYLOADS
          (length (getAllPayloads s) + creations (rq_payloads request))).
Proof.
  unfold getAllPayloads. rewrite addRequest_eq.
  destruct (process_all_length (rq_uuid request) (rq_meta request) timestamp now
              (rq_payloads request) s 0) as [H1 H2].
  destruct (process_all _ _ _ _ _ _ _) as [s1 [[]|e]]; simpl in *.
  - rewrite slice_last_length. split; [lia|]. intros Hall _. by rewrite (H2 Hall).
  - split; [exact H1|]. intros _ H. discriminate.
Qed.

Lemma history_grows_by_creations_witness :
  let r := request "1" [log_payload "y"; directive "hide" JNull; log_payload "z";
                        directive "confetti" JNull] in
  Forall (fun payload => deleting (rp_type payload) = false) (rq_payloads r)
  /\ snd (addRequest two_logs r 9 (fun _ => 9%Z)) = Return tt
  /\ length (getAllPayloads (fst (addRequest two_logs r 9 (fun _ => 9%Z))))
     = Nat.min MAX_PAYLOADS (length (getAllPayloads two_logs) + creations (rq_payloads r)).
Proof.
  assert (Forall (fun payload => deleting (rp_type payload) = false)
            [log_payload "y"; directive "hide" JNull; log_payload "z";
             directive "confetti" JNull]) as Hall by (repeat constructor).
  split; [exact Hall|]. split; [reflexivity|].
  exact (proj2 (history_grows_by_creations two_logs
                  (request "1" [log_payload "y"; directive "hide" JNull; log_payload "z";
                                directive "confetti" JNull]) 9 (fun _ => 9%Z))
           Hall eq_refl).
Defined.

(** * Further properties of the classifier *)

(** ** Trimming *)

Lemma trimStart_head s :
  Str.trimStart s = EmptyString
  \/ exists c rest, Str.trimStart s = String c rest /\ Str.is_space c = false.
Proof.
  induction s as [|c s IH]; simpl; [by left|].
  destruct (Str.is_space c) eqn:E; [exact IH|]. right. eauto.
Qed.

Lemma trimStart_fixed c rest :
  Str.is_space c = false -> Str.trimStart (String c rest) = String c rest.
Proof. intros H. simpl. by rewrite H. Qed.

Lemma trimEnd_idem s : Str.trimEnd (Str.trimEnd s) = Str.trimEnd s.
Proof.
  induction s as [|c s IH]; simpl; [reflexivity|].
  destruct (Str.is_space c && Str.is_empty (Str.trimEnd s)) eqn:E; [reflexivity|].
  simpl. by rewrite IH, E.
Qed.

Lemma trimEnd_head c rest :
  Str.is_space c = false -> Str.trimEnd (String c rest) = String c (Str.trimEnd rest).
Proof. intros H. simpl. by rewrite H. Qed.

Lemma trim_head s :
  Str.trim s = EmptyString
  \/ exists c rest, Str.trim s = String c rest /\ Str.is_space c = false.
Proof.
  unfold Str.trim. destruct (trimStart_head s) as [-> | (c & rest & -> & Hc)]; [by left|].
  right. rewrite trimEnd_head by exact Hc. eauto.
Qed.

Lemma trim_idem s : Str.trim (Str.trim s) = Str.trim s.
Proof.
  destruct (trim_head s) as [H | (c & rest & H & Hc)].
  - by rewrite H.
  - unfold Str.trim at 1. rewrite H, trimStart_fixed by exact Hc. rewrite <- H.
    unfold Str.trim. apply trimEnd_idem.
Qed.

Lemma is_empty_append a b : Str.is_empty b = false -> Str.is_empty (a ++ b)%string = false.
Proof. by destruct a. Qed.

Lemma trimEnd_append a b :
  Str.is_empty b = false -> Str.trimEnd b = b -> Str.trimEnd (a ++ b)%string = (a ++ b)%string.
Proof.
  intros Hb Hfix. induction a as [|c a IH]; simpl; [exact Hfix|].
  by rewrite IH, is_empty_append, andb_false_r.
Qed.

Lemma replace_newlines_fixed s : no_newline s = true -> Str.replace_newlines s = s.
Proof.
  unfold Str.replace_newlines. induction s as [|c s IH]; simpl; [reflexivity|].
  intros [H1 H2]%andb_true_iff. apply negb_true_iff in H1. by rewrite H1, IH.
Qed.

Lemma no_newline_trim s : no_newline s = true -> no_newline (Str.trim s) = true.
Proof. intros H. by apply no_newline_trimEnd, no_newline_trimStart. Qed.

(** ** [truncate] with any bound *)

Lemma truncate_general text maxLength :
  (3 <= maxLength)%Z ->
  let singleLine := Str.trim (Str.replace_newlines text) in
  ((Z.of_nat (String.length singleLine) <= maxLength)%Z ->
   truncate text maxLength = singleLine)
  /\ ((maxLength < Z.of_nat (String.length singleLine))%Z ->
      truncate text maxLength
      = (Str.take (Z.to_nat (maxLength - 3)) singleLine ++ "...")%string
      /\ Z.of_nat (String.length (truncate text maxLength)) = maxLength).
Proof.
  intros Hm. cbv zeta. unfold truncate. split; intros H.
  - destruct (Z.leb_spec (Z.of_nat (String.length (Str.trim (Str.replace_newlines text))))
                maxLength); [reflexivity | lia].
  - destruct (Z.leb_spec (Z.of_nat (String.length (Str.trim (Str.replace_newlines text))))
                maxLength); [lia|].
    unfold Str.slice0. destruct (Z.ltb_spec (maxLength - 3) 0); [lia|].
    split; [reflexivity|]. rewrite length_append, length_take.
    change (String.length "...") with 3. lia.
Qed.

(** X14. For every bound of 3 or more, [truncate] returns a text that is
    no longer than the bound and has no line feed; the text is exactly as
    long as the bound when it was cut. Below 3 the bound is not kept: a
    text that has to be cut comes back with the three dots and is longer
    than the bound. *)
Theorem truncate_respects_bound text maxLength :
  ((3 <= maxLength)%Z ->
   (Z.of_nat (String.length (truncate text maxLength)) <= maxLength)%Z
   /\ single_line (truncate text maxLength)
   /\ ((maxLength < Z.of_nat (String.length (Str.trim (Str.replace_newlines text))))%Z ->
       Z.of_nat (String.length (truncate text maxLength)) = maxLength))
  /\ ((maxLength < 3)%Z ->
      (maxLength < Z.of_nat (String.length (Str.trim (Str.replace_newlines text))))%Z ->
      (maxLength < Z.of_nat (String.length (truncate text maxLength)))%Z).
Proof.
  split.
  - intros Hm. destruct (truncate_general text maxLength Hm) as [H1 H2]. cbv zeta in *.
    assert (no_newline (Str.trim (Str.replace_newlines text)) = true) as Hs
      by apply no_newline_trim, no_newline_replace.
    destruct (Z.le_gt_cases (Z.of_nat (String.length (Str.trim (Str.replace_newlines text))))
                maxLength) as [H|H].
    + rewrite (H1 H). split; [exact H|]. split; [by apply no_newline_single_line | lia].
    + destruct (H2 ltac:(lia)) as [Heq Hlen]. split; [lia|]. split; [|auto].
      rewrite Heq. apply no_newline_single_line.
      by rewrite no_newline_append, no_newline_take.
  - intros Hm Hcut. unfold truncate.
    destruct (Z.leb_spec (Z.of_nat (String.length (Str.trim (Str.replace_newlines text))))
                maxLength); [lia|].
    rewrite length_append. change (String.length "...") with 3. lia.
Qed.

Lemma truncate_respects_bound_witness :
  (3 <= 10)%Z
  /\ truncate ("a text, of two" ++ String Str.newline "lines")%string 10 = "a text,..."
  /\ (Z.of_nat (String.length
                  (truncate ("a text, of two" ++ String Str.newline "lines")%string 10))
      <= 10)%Z
  /\ (2 < 3)%Z
  /\ (2 < Z.of_nat (String.length (truncate "abcdef" 2)))%Z.
Proof.
  destruct (truncate_respects_bound
              ("a text, of two" ++ String Str.newline "lines")%string 10) as [H1 _].
  destruct (truncate_respects_bound "abcdef" 2) as [_ H2].
  split; [lia|]. split; [reflexivity|]. split; [exact (proj1 (H1 ltac:(lia)))|].
  split; [lia|]. apply H2; [lia|]. vm_compute. reflexivity.
Defined.

(** X15. [truncate] is idempotent for every bound of 3 or more: a preview
    that was truncated is not shortened again, so its three dots are never
    cut into. *)
Theorem truncate_idempotent text maxLength :
  (3 <= maxLength)%Z ->
  truncate (truncate text maxLength) maxLength = truncate text maxLength.
Proof.
  intros Hm.
  assert (no_newline (Str.trim (Str.replace_newlines text)) = true) as Hs
    by apply no_newline_trim, no_newline_replace.
  destruct (truncate_general text maxLength Hm) as [H1 H2]. cbv zeta in *.
  destruct (truncate_general (truncate text maxLength) maxLength Hm) as [H3 _].
  cbv zeta in *.
  destruct (Z.le_gt_cases (Z.of_nat (String.length (Str.trim (Str.replace_newlines text))))
              maxLength) as [H|H].
  - rewrite (H1 H) in *. rewrite replace_newlines_fixed, trim_idem in H3 by exact Hs.
    by apply H3.
  - destruct (H2 ltac:(lia)) as [Heq Hlen]. rewrite Heq in *.
    assert (no_newline (Str.take (Z.to_nat (maxLength - 3))
                          (Str.trim (Str.replace_newlines text)) ++ "...")%string = true)
      as Hn by (by rewrite no_newline_append, no_newline_take).
    rewrite replace_newlines_fixed in H3 by exact Hn.
    assert (Str.trim (Str.take (Z.to_nat (maxLength - 3))
                        (Str.trim (Str.replace_newlines text)) ++ "...")%string
            = (Str.take (Z.to_nat (maxLength - 3))
                 (Str.trim (Str.replace_newlines text)) ++ "...")%string) as Ht.
    { unfold Str.trim at 1.
      assert (Str.trimStart
                (Str.take (Z.to_nat (maxLength - 3))
                   (Str.trim (Str.replace_newlines text)) ++ "...")%string
              = (Str.take (Z.to_nat (maxLength - 3))
                   (Str.trim (Str.replace_newlines text)) ++ "...")%string) as ->.
      { destruct (trim_head (Str.replace_newlines text)) as [-> | (c & rest & -> & Hc)].
        - by destruct (Z.to_nat (maxLength - 3)).
        - destruct (Z.to_nat (maxLength - 3)); [reflexivity|].
          simpl. by rewrite Hc. }
      by apply trimEnd_append. }
    rewrite Ht in H3. apply H3. lia.
Qed.

Lemma truncate_idempotent_witness :
  (3 <= 50)%Z
  /\ truncate (truncate (repeat_char "a" 60) 50) 50 = truncate (repeat_char "a" 60) 50.
Proof.
  split; [lia|]. apply truncate_idempotent. lia.
Defined.

(** ** White space around a text *)

Lemma trimStart_spaces a s : all_space a = true -> Str.trimStart (a ++ s)%string = Str.trimStart s.
Proof.
  induction a as [|c a IH]; simpl; [reflexivity|].
  intros [Hc Ha]%andb_true_iff. rewrite Hc. by apply IH.
Qed.

Lemma trimEnd_all_space b : all_space b = true -> Str.trimEnd b = EmptyString.
Proof.
  induction b as [|c b IH]; simpl; [reflexivity|].
  intros [Hc Hb]%andb_true_iff. by rewrite (IH Hb), Hc.
Qed.

Lemma trimEnd_spaces s b : all_space b = true -> Str.trimEnd (s ++ b)%string = Str.trimEnd s.
Proof.
  intros Hb. induction s as [|c s IH]; simpl; [by apply trimEnd_all_space|].
  by rewrite IH.
Qed.

Lemma trimStart_all_space b : all_space b = true -> Str.trimStart b = EmptyString.
Proof.
  induction b as [|c b IH]; simpl; [reflexivity|].
  intros [Hc Hb]%andb_true_iff. rewrite Hc. by apply IH.
Qed.

Lemma trim_spaces_after s b : all_space b = true -> Str.trim (s ++ b)%string = Str.trim s.
Proof.
  intros Hb. unfold Str.trim. induction s as [|c s IH].
  - simpl. by rewrite trimStart_all_space.
  - cbn [String.append Str.trimStart]. destruct (Str.is_space c); [exact IH|].
    by apply (trimEnd_spaces (String c s)).
Qed.

Lemma trim_spaces_around a s b :
  all_space a = true -> all_space b = true -> Str.trim (a ++ s ++ b)%string = Str.trim s.
Proof.
  intros Ha Hb. unfold Str.trim at 1. rewrite trimStart_spaces by exact Ha.
  by apply trim_spaces_after.
Qed.

Lemma detectLanguage_trim x y : Str.trim x = Str.trim y -> detectLanguage x = detectLanguage y.
Proof. intros H. unfold detectLanguage. by rewrite H. Qed.

(** X16. The classification of a text does not depend on the white space
    around it: spaces, tabs and line breaks before and after a text leave
    the result of [detectLanguage] as it is, and so does trimming it. *)
Theorem detectLanguage_ignores_outer_space a s b :
  all_space a = true -> all_space b = true ->
  detectLanguage (a ++ s ++ b)%string = detectLanguage s
  /\ detectLanguage (Str.trim s) = detectLanguage s.
Proof.
  intros Ha Hb. split; apply detectLanguage_trim.
  - by apply trim_spaces_around.
  - apply trim_idem.
Qed.

Lemma detectLanguage_ignores_outer_space_witness :
  let pad := String Str.newline "  " in
  all_space pad = true
  /\ detectLanguage (pad ++ "select 1 from t" ++ pad)%string = Some "sql".
Proof.
  split; [reflexivity|].
  rewrite (proj1 (detectLanguage_ignores_outer_space (String Str.newline "  ")
                    "select 1 from t" (String Str.newline "  ") eq_refl eq_refl)).
  reflexivity.
Defined.

(** ** Previews of contents of the declared shape *)

Ltac decide_tests_in H :=
  repeat match type of H with
         | context [String.eqb ?a ?b] =>
             let r := eval vm_compute in (String.eqb a b) in
             change (String.eqb a b) with r in H
         end;
  cbn [orb andb negb] in H.

Ltac solve_shape p H :=
  destruct (sp_content p) as [| | | | | |? props|]; simpl in H; try discriminate H;
  cbn [get_prop has_property bind];
  repeat match goal with
         | H : context [own_prop ?k ?ps] |- _ =>
             destruct (own_prop k ps) as [[]|]; simpl in H; try discriminate H;
             cbn [get_prop has_property bind]
         end;
  cbn [get_prop has_property bind ToString truncate_call strict_equal negb truthy
         stringify];
  repeat match goal with
         | |- context [if ?b then _ else _] => destruct b
         end;
  eauto.

Lemma preview_type_cases type :
  In type preview_types \/ List.existsb (String.eqb type) preview_types = false.
Proof.
  destruct (List.existsb (String.eqb type) preview_types) eqn:E; [left | by right].
  apply existsb_exists in E as (k & Hin & Heq). apply String.eqb_eq in Heq. by subst.
Qed.

(** X17. [getPreviewText] returns a string for every entry whose content
    has the fields that the rule of its tag reads, with the types that
    the interface of the tag declares; an entry of a tag without a rule
    needs nothing of its content. *)
Theorem getPreviewText_total_on_declared_shapes p :
  previewable (sp_type p) (sp_content p) = true ->
  exists text, getPreviewText p = Return (JStr text).
Proof.
  intros H. destruct (preview_type_cases (sp_type p)) as [Hin | Hunknown].
  - unfold previewable, is_query, is_textual in H.
    unfold getPreviewText, is_query, is_textual. cbv zeta.
    unfold preview_types, truncated_types in Hin. cbn [app In] in Hin.
    repeat (destruct Hin as [Ht | Hin];
            [rewrite <- Ht in H |- *; decide_tests_in H; decide_tests;
             try (solve_shape p H)|]);
      try contradiction.
    all: eauto.
  - unfold preview_types, truncated_types in Hunknown.
    cbn [app List.existsb] in Hunknown. rewrite !orb_false_iff in Hunknown.
    unfold getPreviewText, is_query, is_textual. cbv zeta.
    destruct Hunknown as
      (H1 & H2 & H3 & H4 & H5 & H6 & H7 & H8 & H9 & H10 & H11 & H12 & H13 & H14 & H15
       & H16 & H17 & H18 & H19 & H20 & H21 & H22 & _).
    rewrite H1, H2, H3, H4, H5, H6, H7, H8, H9, H10, H11, H12, H13, H14, H15, H16, H17,
      H18, H19, H20, H21, H22.
    eauto.
Qed.

Lemma getPreviewText_total_on_declared_shapes_witness :
  let p := entry_of "caller"
             (JObj 1 [("frame", JObj 2 [("file_name", JStr "app/Http/Kernel.php");
                                        ("line_number", JNum "42")])]) in
  previewable (sp_type p) (sp_content p) = true
  /\ getPreviewText p = Return (JStr "app/Http/Kernel.php:42")
  /\ exists text, getPreviewText p = Return (JStr text).
Proof.
  split; [reflexivity|]. split; [reflexivity|].
  exact (getPreviewText_total_on_declared_shapes
           (entry_of "caller"
              (JObj 1 [("frame", JObj 2 [("file_name", JStr "app/Http/Kernel.php");
                                         ("line_number", JNum "42")])]))
           eq_refl).
Defined.

(** ** Tables, colours and labels *)

Lemma own_prop_In k props v : own_prop k props = Some v -> In (k, v) props.
Proof.
  induction props as [|[k' v'] rest IH]; simpl; [discriminate|].
  destruct (String.eqb k k') eqn:E.
  - apply String.eqb_eq in E. intros [= ->]. left. by subst.
  - intros H. right. by apply IH.
Qed.

Lemma inherited_cases k v :
  own_prop k Table.Object_prototype = Some v ->
  In k (List.map fst Table.Object_prototype) /\ forall c, v <> JStr c.
Proof.
  intros H. apply own_prop_In in H. split.
  - by apply (in_map fst) in H.
  - simpl in H. intuition (match goal with E : (_, _) = (_, _) |- _ => inversion E end; discriminate).
Qed.

Lemma strings_get entries k :
  own_prop k Table.Object_prototype = None ->
  Table.get (Table.strings entries) k
  = match own_prop k (Table.strings entries) with Some v => v | None => JUndefined end.
Proof. intros H. unfold Table.get. by rewrite H. Qed.

Lemma strings_own entries k v :
  own_prop k (Table.strings entries) = Some v ->
  exists c, v = JStr c /\ In (k, c) entries.
Proof.
  intros H. apply own_prop_In in H. unfold Table.strings in H.
  apply in_map_iff in H as [[k' c] [E Hin]]. simpl in E. inversion E; subst. eauto.
Qed.

Lemma inherited_get table k v :
  own_prop k table = None -> own_prop k Table.Object_prototype = Some v ->
  Table.get table k = v.
Proof. intros H1 H2. unfold Table.get. by rewrite H1, H2. Qed.

Lemma inherited_or_else k v d :
  own_prop k Table.Object_prototype = Some v -> Table.or_else v d = v.
Proof.
  intros H. apply own_prop_In in H. simpl in H.
  intuition (match goal with E : (_, _) = (_, _) |- _ => inversion E end; reflexivity).
Qed.

(** X18. [getTypeColor] answers a colour name, and never the empty text,
    exactly for the types that are not the name of a property of
    [Object.prototype]; for an unlisted type the name is [whiteBright]. For
    the other types, such as [constructor], the answer is the inherited
    value, which is no text. Each type with a preview rule is listed. *)
Theorem getTypeColor_answers_a_colour type :
  ((exists c, Colors.getTypeColor type = JStr c)
   <-> own_prop type Table.Object_prototype = None)
  /\ (forall c, Colors.getTypeColor type = JStr c ->
        c <> ""%string
        /\ (own_prop type Colors.colors = None -> c = "whiteBright"%string))
  /\ (In type preview_types -> own_prop type Colors.colors <> None).
Proof.
  assert (Hnone : own_prop type Table.Object_prototype = None ->
                  exists c, Colors.getTypeColor type = JStr c /\ c <> ""%string
                            /\ (own_prop type Colors.colors = None -> c = "whiteBright"%string)).
  { intros H. unfold Colors.getTypeColor, Colors.colors. rewrite strings_get by exact H.
    fold Colors.colors. destruct (own_prop type Colors.colors) as [v|] eqn:E.
    - destruct (strings_own _ _ _ E) as [c [-> Hin]].
      exists c. simpl in Hin.
      assert (c <> ""%string)
        by (intuition (match goal with E : (_, _) = (_, _) |- _ => inversion E end; subst; discriminate)).
      unfold Table.or_else. simpl. destruct c; [contradiction|]. simpl.
      split; [reflexivity|]. split; [discriminate|discriminate].
    - exists "whiteBright"%string. by repeat split. }
  assert (Hsome : forall v, own_prop type Table.Object_prototype = Some v ->
                  Colors.getTypeColor type = v /\ forall c, v <> JStr c).
  { intros v H. destruct (inherited_cases _ _ H) as [Hk Hv]. split; [|exact Hv].
    unfold Colors.getTypeColor. rewrite (inherited_get _ _ v); [by eapply inherited_or_else| |exact H].
    simpl in Hk. intuition (subst; reflexivity). }
  split; [split|split].
  - intros [c Hc]. destruct (own_prop type Table.Object_prototype) as [v|] eqn:E; [|reflexivity].
    destruct (Hsome v eq_refl) as [Hg Hv]. rewrite Hg in Hc. by destruct (Hv c).
  - intros H. destruct (Hnone H) as [c [Hc _]]. eauto.
  - intros c Hc. destruct (own_prop type Table.Object_prototype) as [v|] eqn:E.
    + destruct (Hsome v eq_refl) as [Hg Hv]. rewrite Hg in Hc. by destruct (Hv c).
    + destruct (Hnone eq_refl) as [c' [Hc' H]]. rewrite Hc in Hc'. by inversion Hc'; subst.
  - intros Hin. unfold preview_types, truncated_types in Hin. simpl in Hin.
    intuition (subst; discriminate).
Qed.

Example getTypeColor_outcomes :
  Colors.getTypeColor "exception" = JStr "redBright"
  /\ Colors.getTypeColor "dump" = JStr "whiteBright"
  /\ Colors.getTypeColor "constructor" = JNative "Object" 1.
Proof. by repeat split. Qed.

(** X19. [formatTypeLabel] answers a text exactly for the types that are
    not the name of a property of [Object.prototype]. The text is never
    longer than the type, it is the type itself unless the type is one of
    the five listed ones, and it is its own label. *)
Theorem formatTypeLabel_shortens type :
  ((exists l, PayloadList.formatTypeLabel type = JStr l)
   <-> own_prop type Table.Object_prototype = None)
  /\ (forall l, PayloadList.formatTypeLabel type = JStr l ->
        String.length l <= String.length type
        /\ (own_prop type PayloadList.shortNames = None -> l = type)
        /\ PayloadList.formatTypeLabel l = JStr l).
Proof.
  assert (Hnone : own_prop type Table.Object_prototype = None ->
                  exists l, PayloadList.formatTypeLabel type = JStr l
                            /\ String.length l <= String.length type
                            /\ (own_prop type PayloadList.shortNames = None -> l = type)
                            /\ PayloadList.formatTypeLabel l = JStr l).
  { intros H. unfold PayloadList.formatTypeLabel at 1, PayloadList.shortNames.
    rewrite strings_get by exact H. fold PayloadList.shortNames.
    destruct (own_prop type PayloadList.shortNames) as [v|] eqn:E.
    - destruct (strings_own _ _ _ E) as [l [-> Hin]]. exists l. simpl in Hin.
      destruct Hin as [X|[X|[X|[X|[X|[]]]]]]; inversion X; subst; simpl; repeat split;
        solve [lia | discriminate].
    - exists type. unfold Table.or_else. simpl. repeat split; try lia.
      unfold PayloadList.formatTypeLabel, PayloadList.shortNames.
      rewrite strings_get by exact H. fold PayloadList.shortNames. by rewrite E. }
  assert (Hsome : forall v, own_prop type Table.Object_prototype = Some v ->
                  PayloadList.formatTypeLabel type = v /\ forall c, v <> JStr c).
  { intros v H. destruct (inherited_cases _ _ H) as [Hk Hv]. split; [|exact Hv].
    unfold PayloadList.formatTypeLabel.
    rewrite (inherited_get _ _ v); [by eapply inherited_or_else| |exact H].
    simpl in Hk. intuition (subst; reflexivity). }
  split; [split|].
  - intros [c Hc]. destruct (own_prop type Table.Object_prototype) as [v|] eqn:E; [|reflexivity].
    destruct (Hsome v eq_refl) as [Hg Hv]. rewrite Hg in Hc. by destruct (Hv c).
  - intros H. destruct (Hnone H) as [c [Hc _]]. eauto.
  - intros c Hc. destruct (own_prop type Table.Object_prototype) as [v|] eqn:E.
    + destruct (Hsome v eq_refl) as [Hg Hv]. rewrite Hg in Hc. by destruct (Hv c).
    + destruct (Hnone eq_refl) as [c' [Hc' H]]. rewrite Hc in Hc'. by inversion Hc'; subst.
Qed.

Example formatTypeLabel_outcomes :
  PayloadList.formatTypeLabel "executed_query" = JStr "query"
  /\ PayloadList.formatTypeLabel "log" = JStr "log"
  /\ PayloadList.formatTypeLabel "valueOf" = JNative "valueOf" 0.
Proof. by repeat split. Qed.

(** X20. The colour an entry is shown in after a colour directive reached
    it: the colour of the directive when that is a truthy value, and
    otherwise the colour of the entry's type, whatever colour the entry had
    before. *)
Theorem colour_directive_decides_the_colour
    s uuid content origin meta timestamp now pre p post v :
  payloads s = pre ++ p :: post -> sp_uuid p = uuid -> Forall (other uuid) post ->
  get_prop content "color" = Return v ->
  exists p',
    processPayload s uuid
      {| rp_type := "color"; rp_content := content; rp_origin := origin |}
      meta timestamp now
    = (set_payloads s (pre ++ p' :: post), Return tt)
    /\ sp_id p' = sp_id p /\ sp_type p' = sp_type p
    /\ Colors.typeColor p'
       = if truthy v then v else Colors.getTypeColor (sp_type p).
Proof.
  intros Hs Hp Hpost Hv. exists (set_color p v). split; [|by repeat split].
  apply (directive_on_target s uuid _ meta timestamp now (fun q => set_color q v) pre p post);
    try assumption.
  simpl. by constructor.
Qed.

Lemma colour_directive_decides_the_colour_witness :
  let s := set_payloads Store.store [entry "1-0" "a"; entry "1-1" "b"] in
  let content := JObj 1 [("color", JStr "")] in
  payloads s = [entry "1-0" "a"] ++ entry "1-1" "b" :: []
  /\ sp_uuid (entry "1-1" "b") = "b"%string
  /\ Forall (other "b") []
  /\ get_prop content "color" = Return (JStr "")
  /\ exists p',
       processPayload s "b"
         {| rp_type := "color"; rp_content := content; rp_origin := JUndefined |}
         JUndefined 6 6
       = (set_payloads s ([entry "1-0" "a"] ++ p' :: []), Return tt)
       /\ sp_id p' = "1-1"%string /\ sp_type p' = "log"%string
       /\ Colors.typeColor p' = JStr "greenBright".
Proof.
  cbv zeta.
  split; [reflexivity|]. split; [reflexivity|]. split; [constructor|].
  split; [reflexivity|].
  exact (colour_directive_decides_the_colour
           (set_payloads Store.store [entry "1-0" "a"; entry "1-1" "b"]) "b"
           (JObj 1 [("color", JStr "")]) JUndefined JUndefined 6 6
           [entry "1-0" "a"] (entry "1-1" "b") [] (JStr "")
           eq_refl eq_refl (Forall_nil_2 _) eq_refl).
Defined.

(** ** The window of the list *)

Lemma take_min {A} (l : list A) n : take (Nat.min n (length l)) l = take n l.
Proof.
  destruct (Nat.le_gt_cases n (length l)) as [H|H].
  - by rewrite Nat.min_l.
  - rewrite Nat.min_r by lia. rewrite !firstn_all2; [reflexivity|lia|lia].
Qed.

Lemma slice_window {A} (l : list A) start count :
  (0 <= start <= Z.of_nat (length l))%Z -> (0 <= count)%Z ->
  PayloadList.slice l start (start + count)
  = take (Z.to_nat count) (drop (Z.to_nat start) l).
Proof.
  intros Hs Hc. unfold PayloadList.slice.
  destruct (Z.ltb_spec start 0); [lia|]. destruct (Z.ltb_spec (start + count) 0); [lia|].
  rewrite (Z.min_l start) by lia.
  rewrite <- (take_min (drop _ _) (Z.to_nat count)). f_equal.
  rewrite length_drop. lia.
Qed.

(** X21. The window of the list, for a selection inside the list and a
    height that is not negative: it is the run of [floor(height / 2)]
    entries from the start index, cut at the end of the list. With room
    for one entry at least the selected entry is in the window, in the
    last row once the list has scrolled; under a height of 2 the window is
    empty. *)
Theorem window_shows_the_selection (payloads : list StoredPayload) sel height :
  (0 <= sel < Z.of_nat (length payloads))%Z -> (0 <= height)%Z ->
  PayloadList.visiblePayloads payloads sel height
  = take (Z.to_nat (PayloadList.visibleItems height))
      (drop (Z.to_nat (PayloadList.startIndex sel height)) payloads)
  /\ (Z.of_nat (length (PayloadList.visiblePayloads payloads sel height))
      <= PayloadList.visibleItems height)%Z
  /\ ((2 <= height)%Z ->
      (0 <= PayloadList.startIndex sel height <= sel)%Z
      /\ PayloadList.visiblePayloads payloads sel height
           !! Z.to_nat (sel - PayloadList.startIndex sel height)
         = payloads !! Z.to_nat sel
      /\ ((0 < PayloadList.startIndex sel height)%Z ->
          (sel - PayloadList.startIndex sel height
           = PayloadList.visibleItems height - 1)%Z))
  /\ ((height < 2)%Z -> PayloadList.visiblePayloads payloads sel height = []).
Proof.
  intros Hsel Hh.
  assert (0 <= PayloadList.visibleItems height)%Z as Hv
    by (unfold PayloadList.visibleItems, PayloadList.itemHeight; apply Z.div_pos; lia).
  assert (0 <= PayloadList.startIndex sel height <= Z.of_nat (length payloads))%Z as Hst.
  { unfold PayloadList.startIndex.
    destruct (Z.leb_spec (PayloadList.visibleItems height) sel); lia. }
  assert (PayloadList.visiblePayloads payloads sel height
          = take (Z.to_nat (PayloadList.visibleItems height))
              (drop (Z.to_nat (PayloadList.startIndex sel height)) payloads)) as Heq
    by (unfold PayloadList.visiblePayloads; by apply slice_window).
  split; [exact Heq|]. rewrite Heq. split; [|split].
  - rewrite list_basics.list.length_take. lia.
  - intros H2.
    assert (1 <= PayloadList.visibleItems height)%Z as Hv1.
    { unfold PayloadList.visibleItems, PayloadList.itemHeight.
      apply (Z.div_le_lower_bound height 2 1); lia. }
    unfold PayloadList.startIndex in *.
    destruct (Z.leb_spec (PayloadList.visibleItems height) sel) as [Hle|Hlt].
    + split; [lia|]. split; [|lia].
      rewrite lookup_take_lt by lia. rewrite lookup_drop. f_equal. lia.
    + split; [lia|]. split; [|lia].
      rewrite lookup_take_lt by lia. rewrite lookup_drop. f_equal. lia.
  - intros H2.
    assert (PayloadList.visibleItems height = 0)%Z as ->
      by (unfold PayloadList.visibleItems, PayloadList.itemHeight; apply Z.div_small; lia).
    reflexivity.
Qed.

Lemma window_shows_the_selection_witness :
  let l := List.map (fun i => entry (nat_to_string i) "u") (seq 0 10) in
  (0 <= 7 < Z.of_nat (length l))%Z /\ (0 <= 6)%Z
  /\ List.map sp_id (PayloadList.visiblePayloads l 7 6) = ["5"; "6"; "7"]
  /\ PayloadList.visiblePayloads l 7 6 !! 2 = l !! 7.
Proof.
  cbv zeta.
  assert (0 <= 7 < Z.of_nat
            (length (List.map (fun i => entry (nat_to_string i) "u") (seq 0 10))))%Z as H1
    by (vm_compute; split; [discriminate|reflexivity]).
  assert (0 <= 6)%Z as H2 by lia.
  split; [exact H1|]. split; [exact H2|].
  destruct (window_shows_the_selection
              (List.map (fun i => entry (nat_to_string i) "u") (seq 0 10)) 7 6 H1 H2)
    as [Heq [_ [Hsel _]]].
  split; [by rewrite Heq|].
  assert (2 <= 6)%Z as H3 by lia.
  exact (proj1 (proj2 (Hsel H3))).
Defined.

(** ** Elapsed time *)

Lemma div_bounds a b : (0 < b)%Z -> (a / b * b <= a < (a / b + 1) * b)%Z.
Proof.
  intros Hb. pose proof (Z.div_mod a b ltac:(lia)). pose proof (Z.mod_pos_bound a b Hb). nia.
Qed.

(** X22. [formatRelativeTime] writes the elapsed time rounded down to a
    whole number of one unit: seconds under a minute, minutes under an
    hour, and hours from there on, with no larger unit. A date after the
    clock gives a negative number of seconds. *)
Theorem formatRelativeTime_rounds_down date now :
  exists n unit suffix,
    PayloadDetail.formatRelativeTime date now = (Z_to_string n ++ suffix)%string
    /\ (n * unit <= now - date < (n + 1) * unit)%Z
    /\ (((now - date < 60000)%Z /\ unit = 1000%Z /\ suffix = "s ago"%string)
        \/ ((60000 <= now - date < 3600000)%Z /\ unit = 60000%Z /\ suffix = "m ago"%string)
        \/ ((3600000 <= now - date)%Z /\ unit = 3600000%Z /\ suffix = "h ago"%string)).
Proof.
  unfold PayloadDetail.formatRelativeTime. cbv zeta.
  pose proof (div_bounds (now - date) 1000 ltac:(lia)) as H1.
  pose proof (div_bounds (now - date) 60000 ltac:(lia)) as H2.
  pose proof (div_bounds (now - date) 3600000 ltac:(lia)) as H3.
  assert ((now - date) / 1000 / 60 = (now - date) / 60000)%Z as E2
    by (rewrite Z.div_div by lia; reflexivity).
  assert ((now - date) / 1000 / 60 / 60 = (now - date) / 3600000)%Z as E3
    by (rewrite !Z.div_div by lia; reflexivity).
  rewrite E3, E2.
  destruct (Z.ltb_spec ((now - date) / 1000) 60) as [Hs|Hs].
  - exists ((now - date) / 1000)%Z, 1000%Z, "s ago"%string.
    split; [reflexivity|]. split; [exact H1|]. left. split; [lia|done].
  - destruct (Z.ltb_spec ((now - date) / 60000) 60) as [Hm|Hm].
    + exists ((now - date) / 60000)%Z, 60000%Z, "m ago"%string.
      split; [reflexivity|]. split; [exact H2|]. right. left. split; [lia|done].
    + exists ((now - date) / 3600000)%Z, 3600000%Z, "h ago"%string.
      split; [reflexivity|]. split; [exact H3|]. right. right. split; [lia|done].
Qed.

Example formatRelativeTime_outcomes :
  PayloadDetail.formatRelativeTime 0 59999 = "59s ago"%string
  /\ PayloadDetail.formatRelativeTime 0 60000 = "1m ago"%string
  /\ PayloadDetail.formatRelativeTime 0 172800000 = "48h ago"%string
  /\ PayloadDetail.formatRelativeTime 500 0 = "-1s ago"%string.
Proof. by repeat split. Qed.

(** ** The language of a file *)

Lemma lower_idem c : Str.lower (Str.lower c) = Str.lower c.
Proof. destruct c as [[] [] [] [] [] [] [] []]; reflexivity. Qed.

Lemma toLowerCase_idem s : Str.toLowerCase (Str.toLowerCase s) = Str.toLowerCase s.
Proof.
  unfold Str.toLowerCase. induction s as [|c s IH]; simpl; [reflexivity|].
  by rewrite lower_idem, IH.
Qed.

(** X23. The language of a file is read off the text after its last dot,
    whatever the case of its letters and whatever precedes the dot; a file
    name without a dot is read as an extension. *)
Theorem language_reads_the_last_segment name e :
  after_last "." e = None ->
  FileContents.ext (name ++ String "." e) = Str.toLowerCase e
  /\ FileContents.language (name ++ String "." e) = FileContents.language e
  /\ FileContents.language (Str.toLowerCase e) = FileContents.language e.
Proof.
  intros H.
  assert (FileContents.ext (name ++ String "." e) = Str.toLowerCase e) as E1
    by (unfold FileContents.ext, FileContents.last_segment; by rewrite after_last_app).
  assert (FileContents.ext e = Str.toLowerCase e) as E2
    by (unfold FileContents.ext, FileContents.last_segment; by rewrite H).
  assert (FileContents.ext (Str.toLowerCase e) = Str.toLowerCase e) as E3.
  { unfold FileContents.ext, FileContents.last_segment.
    destruct (after_last "." (Str.toLowerCase e)) as [tail|] eqn:E;
      [|apply toLowerCase_idem].
    exfalso. clear E1 E2. revert tail E. unfold Str.toLowerCase.
    induction e as [|c e IH]; simpl; [discriminate|]. intros tail.
    simpl in H. destruct (after_last "." e) as [t|] eqn:Et; [discriminate|].
    destruct (Ascii.eqb c ".") eqn:Ec; [discriminate|].
    destruct (after_last "." (Str.map_chars Str.lower e)) as [t'|] eqn:Et';
      [by destruct (IH eq_refl t')|].
    assert (Ascii.eqb (Str.lower c) "." = false) as ->; [|discriminate].
    revert Ec. destruct c as [[] [] [] [] [] [] [] []]; vm_compute; congruence. }
  split; [exact E1|]. unfold FileContents.language. by rewrite E1, E2, E3.
Qed.

Lemma language_reads_the_last_segment_witness :
  after_last "." "SQL" = None
  /\ FileContents.language "database/seed.SQL" = JStr "sql"
  /\ FileContents.language "sql" = JStr "sql".
Proof.
  split; [reflexivity|].
  destruct (language_reads_the_last_segment "database/seed" "SQL" eq_refl) as [_ [H1 H2]].
  split; [exact H1|exact H2].
Defined.

(** ** The port argument *)

Lemma digit_not_space c : Regex.digit c = true -> Str.is_space c = false.
Proof. destruct c as [[] [] [] [] [] [] [] []]; vm_compute; congruence. Qed.

Lemma digit_not_sign c :
  Regex.digit c = true -> c <> "-"%char /\ c <> "+"%char.
Proof. destruct c as [[] [] [] [] [] [] [] []]; vm_compute; split; congruence. Qed.

Lemma digits_prefix_uint u rest :
  starts_without_digit rest = true ->
  Port.digits_prefix (NilEmpty.string_of_uint u ++ rest) = NilEmpty.string_of_uint u.
Proof.
  intros H. induction u; simpl;
    try (change (Regex.digit _) with true; cbv iota; by rewrite IHu).
  destruct rest as [|c rest]; [reflexivity|]. simpl in *.
  by destruct (Regex.digit c).
Qed.

Lemma string_of_uint_head n :
  exists c rest, N_to_string n = String c rest /\ Regex.digit c = true.
Proof.
  unfold N_to_string.
  assert (N.to_uint n <> Decimal.Nil) as Hne.
  { intros E. pose proof (DecimalN.Unsigned.of_to n) as H. rewrite E in H.
    assert (N.to_uint 0 = Decimal.Nil) as H0.
    { rewrite <- E. f_equal. simpl in H. by inversion H. }
    discriminate H0. }
  destruct (N.to_uint n); try contradiction; simpl; eexists _, _; split; reflexivity.
Qed.

Lemma decimal_value_N n : Port.decimal_value (N_to_string n) = Z.of_N n.
Proof.
  unfold Port.decimal_value, N_to_string. rewrite NilEmpty.usu.
  by rewrite DecimalN.Unsigned.of_to.
Qed.

Lemma parseInt_number pad n rest :
  all_space pad = true -> starts_without_digit rest = true ->
  Port.parseInt (pad ++ N_to_string n ++ rest) = Some (Z.of_N n).
Proof.
  intros Hpad Hrest. unfold Port.parseInt. rewrite trimStart_spaces by exact Hpad.
  destruct (string_of_uint_head n) as [c [tail [E Hc]]].
  assert (Port.digits_prefix (N_to_string n ++ rest) = N_to_string n) as Hd
    by (by apply digits_prefix_uint).
  rewrite E in Hd |- *. simpl append in *.
  rewrite trimStart_fixed by (by apply digit_not_space).
  destruct (digit_not_sign c Hc) as [Hm Hp].
  assert ((let '(negative, s1) :=
             match String c (tail ++ rest) with
             | String "-" r => (true, r)
             | String "+" r => (false, r)
             | _ => (false, String c (tail ++ rest))
             end in
           if Str.is_empty (Port.digits_prefix s1) then None
           else Some (if negative then (- Port.decimal_value (Port.digits_prefix s1))%Z
                      else Port.decimal_value (Port.digits_prefix s1)))
          = Some (Z.of_N n)) as Hgoal; [|exact Hgoal].
  assert (match String c (tail ++ rest) with
          | String "-" r => (true, r)
          | String "+" r => (false, r)
          | _ => (false, String c (tail ++ rest))
          end = (false, String c (tail ++ rest))) as ->.
  { destruct c as [[] [] [] [] [] [] [] []]; try reflexivity; congruence. }
  rewrite Hd. simpl Str.is_empty. cbv iota. rewrite <- E. by rewrite decimal_value_N.
Qed.

(** X24. The port argument: a decimal number, after any white space and
    before any text that does not start with a digit, is accepted as the
    port exactly when it lies between 1 and 65535. *)
Theorem port_of_argument_accepts_the_range pad n rest :
  all_space pad = true -> starts_without_digit rest = true ->
  (Port.port_of_argument (pad ++ N_to_string n ++ rest) = Some (Z.of_N n)
   <-> (1 <= n <= 65535)%N)
  /\ (Port.port_of_argument (pad ++ N_to_string n ++ rest) = None
      <-> ~ (1 <= n <= 65535)%N).
Proof.
  intros Hpad Hrest. unfold Port.port_of_argument.
  rewrite parseInt_number by assumption.
  destruct (Z.ltb_spec (Z.of_N n) 1), (Z.ltb_spec 65535 (Z.of_N n)); simpl;
    (split; split; [try discriminate; try lia | try lia; try discriminate..]);
    try reflexivity; intros; exfalso; lia.
Qed.

Lemma port_of_argument_accepts_the_range_witness :
  all_space " " = true /\ starts_without_digit "abc" = true
  /\ Port.port_of_argument " 23517abc" = Some 23517%Z
  /\ Port.port_of_argument "0" = None.
Proof.
  split; [reflexivity|]. split; [reflexivity|].
  split.
  - apply (proj1 (port_of_argument_accepts_the_range " " 23517 "abc" eq_refl eq_refl)). lia.
  - reflexivity.
Defined.

Example port_of_argument_outcomes :
  Port.port_of_argument "23517" = Some 23517%Z
  /\ Port.port_of_argument "8080.5" = Some 8080%Z
  /\ Port.port_of_argument "65536" = None
  /\ Port.port_of_argument "-1" = None
  /\ Port.port_of_argument "port" = None
  /\ Port.port_of_argument "" = None.
Proof. by repeat split. Qed.

(** ** The search *)

Lemma filter_returns {A} (callback : A -> completion bool) (l : list A) kept :
  App.filter callback l = Return kept ->
  sublist kept l
  /\ (forall x, In x l -> callback x = Return true -> In x kept)
  /\ (forall x, In x kept -> callback x = Return true).
Proof.
  revert kept. induction l as [|a l IH]; simpl; intros kept.
  - intros [= <-]. split; [constructor|]. by split.
  - destruct (callback a) as [keep|e] eqn:Ea; simpl; [|discriminate].
    destruct (App.filter callback l) as [kept'|e] eqn:El; simpl; [|discriminate].
    intros [= <-]. destruct (IH kept' eq_refl) as [Hsub [Hin Hout]].
    destruct keep.
    + split; [by constructor|]. split.
      * intros x [<-|Hx] Hc; [by left|]. right. by apply Hin.
      * intros x [<-|Hx]; [exact Ea|]. by apply Hout.
    + split; [by constructor|]. split.
      * intros x [<-|Hx] Hc; [congruence|]. by apply Hin.
      * exact Hout.
Qed.

Lemma filter_throws {A} (callback : A -> completion bool) (l : list A) x :
  In x l -> callback x = Throw TypeError -> App.filter callback l = Throw TypeError.
Proof.
  induction l as [|a l IH]; simpl; [contradiction|].
  intros [->|Hx] Hc.
  - by rewrite Hc.
  - destruct (callback a) as [keep|[]]; simpl; [|reflexivity].
    by rewrite (IH Hx Hc).
Qed.

Lemma lower_space c : Str.is_space (Str.lower c) = Str.is_space c.
Proof. destruct c as [[] [] [] [] [] [] [] []]; reflexivity. Qed.

Lemma is_empty_map f s : Str.is_empty (Str.map_chars f s) = Str.is_empty s.
Proof. by destruct s. Qed.

Lemma trimStart_lower s :
  Str.trimStart (Str.toLowerCase s) = Str.toLowerCase (Str.trimStart s).
Proof.
  unfold Str.toLowerCase. induction s as [|c s IH]; simpl; [reflexivity|].
  rewrite lower_space. by destruct (Str.is_space c).
Qed.

Lemma trimEnd_lower s :
  Str.trimEnd (Str.toLowerCase s) = Str.toLowerCase (Str.trimEnd s).
Proof.
  unfold Str.toLowerCase. induction s as [|c s IH]; simpl; [reflexivity|].
  rewrite lower_space, IH, is_empty_map.
  by destruct (Str.is_space c && Str.is_empty (Str.trimEnd s)).
Qed.

Lemma is_empty_lower s : Str.is_empty (Str.toLowerCase s) = Str.is_empty s.
Proof. apply is_empty_map. Qed.

Lemma trim_lower s : Str.trim (Str.toLowerCase s) = Str.toLowerCase (Str.trim s).
Proof. unfold Str.trim. by rewrite trimStart_lower, trimEnd_lower. Qed.

(** X25. The search, when it returns: the entries kept are entries of the
    list in their order, all of them for a query of white space only, and
    otherwise the entries that the test of the query in lower case
    accepts, among them each entry whose type contains that query. The
    case of the letters of the query does not matter. *)
Theorem search_keeps_the_matching_entries payloads query kept :
  App.filteredPayloads payloads query = Return kept ->
  sublist kept payloads
  /\ (Str.is_empty (Str.trim query) = true -> kept = payloads)
  /\ (Str.is_empty (Str.trim query) = false ->
      forall p, In p payloads ->
        (In p kept <-> App.matches (Str.toLowerCase query) p = Return true)
        /\ (Str.includes (Str.toLowerCase (sp_type p)) (Str.toLowerCase query) = true ->
            In p kept))
  /\ App.filteredPayloads payloads (Str.toLowerCase query) = Return kept.
Proof.
  unfold App.filteredPayloads. rewrite trim_lower, is_empty_lower, toLowerCase_idem.
  destruct (Str.is_empty (Str.trim query)) eqn:E.
  - intros [= <-]. split; [reflexivity|]. split; [done|]. split; [discriminate|done].
  - intros H. destruct (filter_returns _ _ _ H) as [Hsub [Hin Hout]].
    split; [exact Hsub|]. split; [discriminate|]. split; [|exact H].
    intros _ p Hp. split.
    + split; [apply Hout|apply Hin, Hp].
    + intros Ht. apply Hin; [exact Hp|]. unfold App.matches. by rewrite Ht.
Qed.

Lemma search_keeps_the_matching_entries_witness :
  let l := [entry "1-0" "a"; set_label (entry "1-1" "b") (JStr "Total")] in
  App.filteredPayloads l "TOT" = Return [set_label (entry "1-1" "b") (JStr "Total")]
  /\ App.filteredPayloads l "tot" = Return [set_label (entry "1-1" "b") (JStr "Total")]
  /\ App.filteredPayloads l " log" = Return [].
Proof.
  cbv zeta.
  assert (App.filteredPayloads
            [entry "1-0" "a"; set_label (entry "1-1" "b") (JStr "Total")] "TOT"
          = Return [set_label (entry "1-1" "b") (JStr "Total")]) as H by reflexivity.
  split; [exact H|]. split; [|reflexivity].
  exact (proj2 (proj2 (proj2 (search_keeps_the_matching_entries _ _ _ H)))).
Defined.

(** X26. A search throws when the list holds an entry whose label is a
    value other than a text, [null] or [undefined], as a label directive
    can leave one, and whose type does not contain the query. *)
Theorem search_throws_on_a_label_that_is_no_text payloads query p :
  In p payloads ->
  Str.is_empty (Str.trim query) = false ->
  nullish (sp_label p) = false -> is_string (sp_label p) = false ->
  Str.includes (Str.toLowerCase (sp_type p)) (Str.toLowerCase query) = false ->
  App.filteredPayloads payloads query = Throw TypeError.
Proof.
  intros Hin Hq Hn Hs Ht. unfold App.filteredPayloads. rewrite Hq.
  apply (filter_throws _ _ p Hin). unfold App.matches. rewrite Ht.
  unfold App.optional_lowered_includes. rewrite Hn.
  by destruct (sp_label p).
Qed.

Lemma search_throws_on_a_label_that_is_no_text_witness :
  let s := fst (addRequest Store.store
                  (request "u" [log_payload "x";
                                directive "label" (JObj 3 [("label", JNum "5")])])
                  5 (fun _ => 5%Z)) in
  List.map sp_label (getPayloads s) = [JNum "5"]
  /\ Str.is_empty (Str.trim "x") = false
  /\ App.filteredPayloads (getPayloads s) "x" = Throw TypeError.
Proof.
  cbv zeta. split; [reflexivity|]. split; [reflexivity|].
  apply (search_throws_on_a_label_that_is_no_text _ "x"
           (set_label
              {| sp_id := "5-0"; sp_uuid := "u"; sp_type := "log";
                 sp_content := JObj 1 [("values", JArr 2 [JStr "x"])];
                 sp_origin := JUndefined; sp_meta := JUndefined; sp_timestamp := 5;
                 sp_color := JUndefined; sp_label := JUndefined; sp_size := JUndefined;
                 sp_screen := JStr "default"; sp_hidden := JUndefined |} (JNum "5")));
    [left; reflexivity | reflexivity | reflexivity | reflexivity | reflexivity].
Defined.

(** ** The keys *)

Ltac handler_cases :=
  repeat match goal with
         | |- context [if ?b then _ else _] => destruct b eqn:?
         end.

(** X27. Outside the help screen and the search line, a key leaves the
    selection inside the list that is shown: inside the filtered list, or
    inside the whole list when the key has emptied the query. On an empty
    list the keys that move down set the selection to -1. *)
Theorem selection_stays_in_range st filtered input key :
  App.showHelp st = false -> App.searchMode st = false ->
  (0 <= App.selectedIndex st < Z.max 1 (Z.of_nat (length filtered)))%Z ->
  length filtered <= length (App.st_payloads st) ->
  (-1 <= App.selectedIndex (App.state (App.useInput st filtered input key)))%Z
  /\ (filtered <> [] ->
      (0 <= App.selectedIndex (App.state (App.useInput st filtered input key)))%Z
      /\ ((App.selectedIndex (App.state (App.useInput st filtered input key))
           < Z.of_nat (length filtered))%Z
          \/ (App.searchQuery (App.state (App.useInput st filtered input key))
              = EmptyString
              /\ (App.selectedIndex (App.state (App.useInput st filtered input key))
                  < Z.of_nat (length (App.st_payloads st)))%Z)))
  /\ (filtered = [] -> input = EmptyString ->
      App.escape key = false -> App.upArrow key = false -> App.downArrow key = true ->
      App.selectedIndex (App.state (App.useInput st filtered input key)) = (-1)%Z).
Proof.
  intros Hh Hs Hsel Hlen.
  assert (filtered <> [] -> 0 < length filtered) as Hne
    by (destruct filtered; [congruence | simpl; lia]).
  split; [|split].
  - unfold App.useInput. rewrite Hh, Hs. cbv zeta. handler_cases;
      cbn [App.state App.selectedIndex App.set_selectedIndex App.set_followMode
           App.set_searchQuery App.set_searchMode App.set_showHelp App.stay]; lia.
  - intros Hf. specialize (Hne Hf).
    unfold App.useInput. rewrite Hh, Hs. cbv zeta. handler_cases;
      cbn [App.state App.selectedIndex App.searchQuery App.st_payloads
           App.set_selectedIndex App.set_followMode
           App.set_searchQuery App.set_searchMode App.set_showHelp App.stay];
      (split; [lia|]); first [left; lia | right; split; [reflexivity|lia]].
  - intros -> -> He Hu Hd. unfold App.useInput. rewrite Hh, Hs, He, Hu, Hd. simpl.
    simpl in Hsel. lia.
Qed.

Lemma selection_stays_in_range_witness :
  let l := [entry "1-0" "a"; entry "1-1" "b"; entry "1-2" "c"] in
  (0 <= 2 < Z.max 1 (Z.of_nat (length l)))%Z
  /\ length l <= length l
  /\ App.selectedIndex (App.state (App.useInput (browsing l 2 "") l "" down_key)) = 2%Z
  /\ (-1 <= App.selectedIndex
              (App.state (App.useInput (browsing l 2 "") l "" down_key)))%Z
  /\ App.selectedIndex (App.state (App.useInput (browsing [] 0 "") [] "" down_key))
     = (-1)%Z.
Proof.
  cbv zeta.
  assert (0 <= 2 < Z.max 1 (Z.of_nat
            (length [entry "1-0" "a"; entry "1-1" "b"; entry "1-2" "c"])))%Z as H1
    by (simpl; lia).
  split; [exact H1|]. split; [lia|]. split; [reflexivity|]. split.
  - exact (proj1 (selection_stays_in_range
                    (browsing [entry "1-0" "a"; entry "1-1" "b"; entry "1-2" "c"] 2 "")
                    [entry "1-0" "a"; entry "1-1" "b"; entry "1-2" "c"] "" down_key
                    eq_refl eq_refl H1 (le_n _))).
  - reflexivity.
Defined.

Lemma take_length_append a b : Str.take (String.length a) (a ++ b)%string = a.
Proof. induction a as [|c a IH]; simpl; [by destruct b | by rewrite IH]. Qed.

(** X28. On the search line no key quits, clears the store, moves the
    selection or changes the follow mode. A key that enters one character
    appends it to the query, and the erase key that follows gives the
    state back. *)
Theorem search_line_only_edits_the_query st filtered input key :
  App.showHelp st = false -> App.searchMode st = true ->
  App.exited (App.useInput st filtered input key) = false
  /\ App.cleared (App.useInput st filtered input key) = false
  /\ App.selectedIndex (App.state (App.useInput st filtered input key))
     = App.selectedIndex st
  /\ App.followMode (App.state (App.useInput st filtered input key)) = App.followMode st
  /\ App.st_payloads (App.state (App.useInput st filtered input key))
     = App.st_payloads st
  /\ (String.length input = 1 ->
      App.return_ key = false -> App.escape key = false ->
      App.backspace key = false -> App.delete key = false ->
      App.ctrl key = false -> App.meta key = false ->
      App.searchQuery (App.state (App.useInput st filtered input key))
      = (App.searchQuery st ++ input)%string
      /\ forall filtered' erase,
           App.backspace erase = true -> App.escape erase = false ->
           App.return_ erase = false ->
           App.state (App.useInput (App.state (App.useInput st filtered input key))
                        filtered' "" erase)
           = st).
Proof.
  intros Hh Hs.
  assert (forall o, o = App.useInput st filtered input key ->
          App.exited o = false /\ App.cleared o = false
          /\ App.selectedIndex (App.state o) = App.selectedIndex st
          /\ App.followMode (App.state o) = App.followMode st
          /\ App.st_payloads (App.state o) = App.st_payloads st) as Hframe.
  { intros o ->. unfold App.useInput. rewrite Hh, Hs. cbv zeta.
    handler_cases; by repeat split. }
  destruct (Hframe _ eq_refl) as (H1 & H2 & H3 & H4 & H5).
  repeat (split; [assumption|]).
  intros Hlen Hr He Hb Hd Hc Hm.
  assert (App.state (App.useInput st filtered input key)
          = App.set_searchQuery st (App.searchQuery st ++ input)) as Hstep.
  { unfold App.useInput. rewrite Hh, Hs, Hr, He, Hb, Hd, Hc, Hm. cbv zeta. simpl.
    destruct input; [discriminate Hlen|reflexivity]. }
  rewrite Hstep. split; [reflexivity|].
  intros filtered' erase Eb Ee Er. unfold App.useInput.
  cbn [App.showHelp App.searchMode App.set_searchQuery App.searchQuery].
  rewrite Hh, Hs, Eb, Ee, Er. cbv zeta. simpl orb. cbv iota.
  unfold Str.slice0. simpl Z.ltb. cbv iota.
  rewrite length_append, Hlen.
  replace (Z.to_nat (Z.of_nat (String.length (App.searchQuery st) + 1) + -1))
    with (String.length (App.searchQuery st)) by lia.
  rewrite take_length_append. destruct st; reflexivity.
Qed.

Lemma search_line_only_edits_the_query_witness :
  let st := {| App.st_payloads := []; App.selectedIndex := 0; App.showHelp := false;
               App.followMode := false; App.searchMode := true;
               App.searchQuery := "lo" |} in
  App.exited (App.useInput st [] "q" plain_key) = false
  /\ App.searchQuery (App.state (App.useInput st [] "q" plain_key)) = "loq"%string
  /\ App.state (App.useInput (App.state (App.useInput st [] "q" plain_key))
                  [] "" backspace_key)
     = st.
Proof.
  cbv zeta.
  destruct (search_line_only_edits_the_query
              {| App.st_payloads := []; App.selectedIndex := 0; App.showHelp := false;
                 App.followMode := false; App.searchMode := true;
                 App.searchQuery := "lo" |} [] "q" plain_key eq_refl eq_refl)
    as (H1 & _ & _ & _ & _ & H6).
  split; [exact H1|].
  destruct (H6 eq_refl eq_refl eq_refl eq_refl eq_refl eq_refl eq_refl) as [Hq Hback].
  split; [exact Hq|].
  exact (Hback [] backspace_key eq_refl eq_refl eq_refl).
Defined.

(** X29. Whatever the mode and the key, a selection of -1 or more stays
    one through a key and the effect that follows the next rendering, and
    after that effect it is below the length of the filtered list, or 0 on
    an empty list. The effect never repairs a selection of -1. *)
Theorem selection_after_the_effect st filtered input key filtered' :
  (-1 <= App.selectedIndex st)%Z ->
  (-1 <= App.selectedIndex
           (App.resetSelection (App.state (App.useInput st filtered input key))
              filtered')
   < Z.max 1 (Z.of_nat (length filtered')))%Z
  /\ (App.selectedIndex (App.state (App.useInput st filtered input key)) = (-1)%Z ->
      App.resetSelection (App.state (App.useInput st filtered input key)) filtered'
      = App.state (App.useInput st filtered input key)).
Proof.
  intros Hsel.
  assert (-1 <= App.selectedIndex (App.state (App.useInput st filtered input key)))%Z
    as Hkey.
  { unfold App.useInput. cbv zeta. handler_cases;
      cbn [App.state App.selectedIndex App.set_selectedIndex App.set_followMode
           App.set_searchQuery App.set_searchMode App.set_showHelp App.stay]; lia. }
  generalize dependent (App.state (App.useInput st filtered input key)).
  intros st1 Hst1. unfold App.resetSelection. cbv zeta.
  destruct (Z.leb_spec (Z.of_nat (length filtered')) (App.selectedIndex st1));
    cbn [App.selectedIndex App.set_selectedIndex]; split; try lia; try reflexivity.
Qed.

Lemma selection_after_the_effect_witness :
  (-1 <= App.selectedIndex (browsing [] 0 ""))%Z
  /\ App.selectedIndex
       (App.resetSelection (App.state (App.useInput (browsing [] 0 "") [] "" down_key))
          [entry "1-0" "a"])
     = (-1)%Z
  /\ (-1 <= App.selectedIndex
              (App.resetSelection
                 (App.state (App.useInput (browsing [] 0 "") [] "" down_key))
                 [entry "1-0" "a"])
      < Z.max 1 (Z.of_nat (length [entry "1-0" "a"])))%Z.
Proof.
  assert (-1 <= App.selectedIndex (browsing [] 0 ""))%Z as H by (simpl; lia).
  split; [exact H|]. split; [reflexivity|].
  exact (proj1 (selection_after_the_effect (browsing [] 0 "") [] "" down_key
                  [entry "1-0" "a"] H)).
Defined.


(** ** The server *)

Lemma lookup_map_of_entry (ps : list StoredPayload) i :
  List.map Untyped.of_entry ps !! i = option_map Untyped.of_entry (ps !! i).
Proof.
  revert i. induction ps as [|p ps IH]; intros [|i]; simpl; try reflexivity. apply IH.
Qed.

Lemma insert_map_of_entry (ps : list StoredPayload) i p :
  <[i := Untyped.of_entry p]> (List.map Untyped.of_entry ps)
  = List.map Untyped.of_entry (<[i := p]> ps).
Proof.
  revert i. induction ps as [|q ps IH]; intros [|i]; simpl; try reflexivity.
  f_equal. apply IH.
Qed.

(** The two loops of [applyToPayload] step together. *)
Lemma loop_simulation uuid modifier modifier' ps n :
  (forall p,
     modifier' (Untyped.of_entry p)
     = match modifier p with
       | Return p' => Return (Untyped.of_entry p')
       | Throw e => Throw e
       end) ->
  Untyped.applyToPayload_loop (JStr uuid) modifier' (List.map Untyped.of_entry ps) n
  = (List.map Untyped.of_entry (fst (applyToPayload_loop uuid modifier ps n)),
     snd (applyToPayload_loop uuid modifier ps n)).
Proof.
  intros Hm. induction n as [|i IH]; [reflexivity|]. simpl.
  rewrite lookup_map_of_entry. destruct (ps !! i) as [p|]; simpl; [|exact IH].
  destruct (String.eqb (sp_uuid p) uuid); [|exact IH].
  rewrite Hm. destruct (modifier p) as [p'|e]; simpl; [|reflexivity].
  by rewrite insert_map_of_entry.
Qed.

Lemma applyToPayload_simulation s uuid modifier modifier' :
  (forall p,
     modifier' (Untyped.of_entry p)
     = match modifier p with
       | Return p' => Return (Untyped.of_entry p')
       | Throw e => Throw e
       end) ->
  Untyped.applyToPayload (Untyped.of_store s) (JStr uuid) modifier'
  = (Untyped.of_store (fst (applyToPayload s uuid modifier)),
     snd (applyToPayload s uuid modifier)).
Proof.
  intros Hm. unfold Untyped.applyToPayload, applyToPayload.
  cbn [Untyped.payloads Untyped.of_store]. rewrite List.length_map.
  rewrite (loop_simulation uuid modifier modifier' _ _ Hm).
  by destruct (applyToPayload_loop uuid modifier (payloads s) (length (payloads s))).
Qed.

Lemma filter_map_of_entry uuid (ps : list StoredPayload) :
  List.filter (fun p => negb (strict_equal (Untyped.up_uuid p) (JStr uuid)))
    (List.map Untyped.of_entry ps)
  = List.map Untyped.of_entry
      (List.filter (fun p => negb (String.eqb (sp_uuid p) uuid)) ps).
Proof.
  induction ps as [|p ps IH]; simpl; [reflexivity|].
  destruct (String.eqb (sp_uuid p) uuid); simpl; by rewrite IH.
Qed.

Lemma typed_payload_fields v payload :
  typed_payload v = Some payload ->
  get_prop v "type" = Return (JStr (rp_type payload))
  /\ get_prop v "content" = Return (rp_content payload)
  /\ get_prop v "origin" = Return (rp_origin payload).
Proof.
  destruct v as [| | | | | |a props|]; try discriminate. simpl. unfold property.
  destruct (own_prop "type" props) as [[]|]; try discriminate.
  intros [= <-]. simpl.
  by destruct (own_prop "content" props), (own_prop "origin" props).
Qed.

(** One event: the store on values does what the store of [Store] does on
    a payload that has the types. *)
Lemma processPayload_simulation s uuid v payload meta timestamp now :
  typed_payload v = Some payload ->
  Untyped.processPayload (Untyped.of_store s) (JStr uuid) v meta timestamp now
  = (Untyped.of_store (fst (processPayload s uuid payload meta timestamp now)),
     snd (processPayload s uuid payload meta timestamp now)).
Proof.
  intros Hv. destruct (typed_payload_fields v payload Hv) as (Ht & Hc & Ho).
  unfold Untyped.processPayload, processPayload. rewrite Ht, Hc, Ho. cbv zeta.
  destruct (String.eqb (rp_type payload) "color").
  { apply applyToPayload_simulation. intros p.
    by destruct (get_prop (rp_content payload) "color"). }
  destruct (String.eqb (rp_type payload) "label").
  { apply applyToPayload_simulation. intros p.
    by destruct (get_prop (rp_content payload) "label"). }
  destruct (String.eqb (rp_type payload) "size").
  { apply applyToPayload_simulation. intros p.
    by destruct (get_prop (rp_content payload) "size"). }
  destruct (String.eqb (rp_type payload) "new_screen").
  { by destruct (get_prop (rp_content payload) "name"). }
  destruct (String.eqb (rp_type payload) "clear_all"); [reflexivity|].
  destruct (String.eqb (rp_type payload) "hide").
  { by apply applyToPayload_simulation. }
  destruct (String.eqb (rp_type payload) "remove").
  { simpl. unfold Untyped.set_payloads, Untyped.of_store. simpl.
    by rewrite filter_map_of_entry. }
  destruct (String.eqb (rp_type payload) "show_app" || String.eqb (rp_type payload) "hide_app"
            || String.eqb (rp_type payload) "confetti"); [reflexivity|].
  simpl. unfold Untyped.of_store. simpl. by rewrite map_app.
Qed.

Lemma process_all_simulation uuid meta timestamp now : forall elems l s i,
  typed_payloads elems = Some l ->
  Untyped.process_all (Untyped.of_store s) (JStr uuid) meta timestamp now i elems
  = (Untyped.of_store (fst (process_all s uuid meta timestamp now i l)),
     snd (process_all s uuid meta timestamp now i l)).
Proof.
  induction elems as [|v elems IH]; intros l s i; simpl.
  - by intros [= <-].
  - destruct (typed_payload v) as [payload|] eqn:Ev; [|discriminate].
    destruct (typed_payloads elems) as [rest|] eqn:Er; [|discriminate].
    intros [= <-]. simpl.
    rewrite (processPayload_simulation s uuid v payload meta timestamp (now i) Ev).
    destruct (processPayload s uuid payload meta timestamp (now i)) as [s1 [[]|e]];
      simpl; [|reflexivity].
    by apply IH.
Qed.

Lemma addRequest_simulation s uuid elems meta l timestamp now :
  typed_payloads elems = Some l ->
  Untyped.addRequest (Untyped.of_store s) (JStr uuid) elems meta timestamp now
  = (Untyped.of_store
       (fst (addRequest s {| rq_uuid := uuid; rq_payloads := l; rq_meta := meta |}
               timestamp now)),
     snd (addRequest s {| rq_uuid := uuid; rq_payloads := l; rq_meta := meta |}
            timestamp now)).
Proof.
  intros Hl. unfold Untyped.addRequest, addRequest. simpl.
  rewrite (process_all_simulation uuid meta timestamp now elems l s 0 Hl).
  destruct (process_all s uuid meta timestamp now 0 l) as [s1 [[]|e]]; simpl;
    [|reflexivity].
  rewrite !List.length_map.
  destruct (MAX_PAYLOADS <? length (payloads s1))%nat; [|reflexivity].
  simpl. unfold Untyped.notify, Untyped.set_payloads, Untyped.of_store, slice_last. simpl.
  by rewrite <- List.skipn_map.
Qed.

Lemma typed_request_fields body request :
  typed_request body = Some request ->
  get_prop body "uuid" = Return (JStr (rq_uuid request))
  /\ get_prop body "meta" = Return (rq_meta request)
  /\ exists a elems,
       get_prop body "payloads" = Return (JArr a elems)
       /\ typed_payloads elems = Some (rq_payloads request).
Proof.
  destruct body as [| | | | | |addr props|]; try discriminate. simpl. unfold property.
  destruct (own_prop "uuid" props) as [[]|]; try discriminate.
  destruct (own_prop "payloads" props) as [[| | | | |a elems| |]|]; try discriminate.
  destruct (typed_payloads elems) as [l|] eqn:El; [|discriminate].
  intros [= <-]. simpl. split; [reflexivity|].
  split; [by destruct (own_prop "meta" props)|]. eauto.
Qed.

(** X30. The answers of the server, for every method and every body. A
    request that is no POST leaves the store as it is: 200 for OPTIONS,
    405 otherwise. A POST whose body is no JSON or is [null] is answered
    400 [Invalid JSON], one whose [uuid] is falsy or whose [payloads] is
    no array 400 [Invalid payload structure], the store left as it is.
    Every other body is handed to [addRequest], whatever the types of
    what it holds: the answer is 200 [OK] when that returns and 400
    [Invalid JSON] when that throws, the store keeping what the batch did
    before it threw; an empty array only notifies, a [null] first element
    throws at once. On a store and a body that have the types of
    [RayRequest], what the server leaves is what [addRequest] of [Store]
    leaves. *)
Theorem fetch_answers s method json timestamp now :
  (Server.status Server.preflight, Server.status Server.method_not_allowed,
   Server.status Server.ok)
  = (200%Z, 405%Z, 200%Z)
  /\ (Server.status Server.invalid_json, Server.body Server.invalid_json)
     = (400%Z, Some "Invalid JSON")
  /\ (Server.status Server.invalid_structure, Server.body Server.invalid_structure)
     = (400%Z, Some "Invalid payload structure")
  /\ (method = "OPTIONS" ->
      Server.fetch s method json timestamp now = (s, Server.preflight))
  /\ (method <> "OPTIONS" -> method <> "POST" ->
      Server.fetch s method json timestamp now = (s, Server.method_not_allowed))
  /\ (method = "POST" ->
      (json = None \/ json = Some JNull) ->
      Server.fetch s method json timestamp now = (s, Server.invalid_json))
  /\ (forall body uuid payloads,
        method = "POST" -> json = Some body ->
        get_prop body "uuid" = Return uuid -> get_prop body "payloads" = Return payloads ->
        truthy uuid = false \/ Server.isArray payloads = false ->
        Server.fetch s method json timestamp now = (s, Server.invalid_structure))
  /\ (forall body uuid a elems meta,
        method = "POST" -> json = Some body ->
        get_prop body "uuid" = Return uuid -> truthy uuid = true ->
        get_prop body "payloads" = Return (JArr a elems) ->
        get_prop body "meta" = Return meta ->
        Server.fetch s method json timestamp now
        = (fst (Untyped.addRequest s uuid elems meta timestamp now),
           match snd (Untyped.addRequest s uuid elems meta timestamp now) with
           | Return _ => Server.ok
           | Throw _ => Server.invalid_json
           end)
        /\ (elems = [] -> length (Untyped.payloads s) <= 1000 ->
            Server.fetch s method json timestamp now = (Untyped.notify s, Server.ok))
        /\ (forall rest, elems = JNull :: rest ->
            Server.fetch s method json timestamp now = (s, Server.invalid_json)))
  /\ (forall s0 body request,
        method = "POST" -> json = Some body -> s = Untyped.of_store s0 ->
        typed_request body = Some request -> rq_uuid request <> EmptyString ->
        Server.fetch s method json timestamp now
        = (Untyped.of_store (fst (addRequest s0 request timestamp now)),
           match snd (addRequest s0 request timestamp now) with
           | Return _ => Server.ok
           | Throw _ => Server.invalid_json
           end)).
Proof.
  assert (forall body uuid a elems meta,
            method = "POST"%string -> json = Some body ->
            get_prop body "uuid" = Return uuid -> truthy uuid = true ->
            get_prop body "payloads" = Return (JArr a elems) ->
            get_prop body "meta" = Return meta ->
            Server.fetch s method json timestamp now
            = (fst (Untyped.addRequest s uuid elems meta timestamp now),
               match snd (Untyped.addRequest s uuid elems meta timestamp now) with
               | Return _ => Server.ok
               | Throw _ => Server.invalid_json
               end)) as Hcall.
  { intros body uuid a elems meta -> -> Hu Ht Hp Hm. unfold Server.fetch. simpl.
    rewrite Hu, Ht, Hp, Hm. simpl.
    by destruct (Untyped.addRequest s uuid elems meta timestamp now) as [s1 [[]|e]]. }
  repeat (split; [reflexivity|]). split; [|split; [|split; [|split; [|split]]]].
  - by intros ->.
  - intros Ho Hp. unfold Server.fetch.
    apply String.eqb_neq in Ho, Hp. by rewrite Ho, Hp.
  - by intros -> [-> | ->].
  - intros body uuid payloads -> -> Hu Hp Hbad. unfold Server.fetch. simpl.
    rewrite Hu. destruct (truthy uuid) eqn:Et; simpl; [|reflexivity].
    rewrite Hp. destruct Hbad as [Hbad|Hbad]; [discriminate|].
    by destruct payloads.
  - intros body uuid a elems meta Hm Hj Hu Ht Hp Hmeta.
    split; [by eapply Hcall|]. split.
    + intros -> Hlen. rewrite (Hcall body uuid a [] meta) by assumption.
      unfold Untyped.addRequest. simpl.
      destruct (Nat.ltb_spec MAX_PAYLOADS (length (Untyped.payloads s))) as [H|H];
        [unfold MAX_PAYLOADS in H; lia | reflexivity].
    + intros rest ->. by rewrite (Hcall body uuid a (JNull :: rest) meta).
  - intros s0 body request Hm Hj -> Hr Hne.
    destruct (typed_request_fields body request Hr) as (Hu & Hmeta & a & elems & Hp & Hl).
    assert (truthy (JStr (rq_uuid request)) = true) as Ht
      by (simpl; destruct (rq_uuid request); [by destruct Hne | reflexivity]).
    rewrite (Hcall body (JStr (rq_uuid request)) a elems (rq_meta request))
      by assumption.
    rewrite (addRequest_simulation s0 (rq_uuid request) elems (rq_meta request)
               (rq_payloads request) timestamp now Hl).
    by destruct request.
Qed.

Lemma fetch_answers_witness :
  let body :=
    JObj 1 [("uuid", JStr "u");
            ("payloads",
             JArr 2 [JObj 3 [("type", JStr "log");
                             ("content", JObj 4 [("values", JArr 5 [JStr "x"])])];
                     JObj 6 [("type", JStr "new_screen")]])] in
  exists request,
    typed_request body = Some request
    /\ snd (addRequest Store.store request 5 (fun _ => 5%Z)) = Throw TypeError
    /\ Server.fetch (Untyped.of_store Store.store) "POST" (Some body) 5 (fun _ => 5%Z)
       = (Untyped.of_store (fst (addRequest Store.store request 5 (fun _ => 5%Z))),
          Server.invalid_json)
    /\ List.map Untyped.up_type
         (Untyped.payloads
            (fst (Server.fetch (Untyped.of_store Store.store) "POST" (Some body) 5
                    (fun _ => 5%Z))))
       = [JStr "log"].
Proof.
  cbv zeta.
  exists {| rq_uuid := "u";
            rq_payloads :=
              [{| rp_type := "log";
                  rp_content := JObj 4 [("values", JArr 5 [JStr "x"])];
                  rp_origin := JUndefined |};
               {| rp_type := "new_screen"; rp_content := JUndefined;
                  rp_origin := JUndefined |}];
            rq_meta := JUndefined |}.
  split; [reflexivity|]. split; [reflexivity|]. split; [|reflexivity].
  destruct (fetch_answers (Untyped.of_store Store.store) "POST"
              (Some (JObj 1 [("uuid", JStr "u");
                             ("payloads",
                              JArr 2 [JObj 3 [("type", JStr "log");
                                              ("content",
                                               JObj 4 [("values", JArr 5 [JStr "x"])])];
                                      JObj 6 [("type", JStr "new_screen")]])]))
              5 (fun _ => 5%Z)) as (_ & _ & _ & _ & _ & _ & _ & _ & Htyped).
  apply (Htyped Store.store _ _ eq_refl eq_refl eq_refl eq_refl). discriminate.
Defined.

(** Bodies that pass the test of the structure without the types of
    [RayRequest] are answered like the others. *)
Example fetch_untyped_bodies :
  let s := Untyped.of_store Store.store in
  Server.fetch s "POST"
    (Some (JObj 1 [("uuid", JNum "5"); ("payloads", JArr 2 [])])) 5 (fun _ => 5%Z)
  = (Untyped.notify s, Server.ok)
  /\ Server.fetch s "POST"
       (Some (JObj 1 [("uuid", JStr "u"); ("payloads", JArr 2 [JNull])])) 5 (fun _ => 5%Z)
     = (s, Server.invalid_json)
  /\ List.map Untyped.up_type
       (Untyped.payloads
          (fst (Server.fetch s "POST"
                  (Some (JObj 1 [("uuid", JBool true); ("payloads", JArr 2 [JNum "7"])]))
                  5 (fun _ => 5%Z))))
     = [JUndefined].
Proof. by repeat split. Qed.
